(** * CostRef: the dispatch-and-cost engine of the hospital referral dashboard

    A shallow embedding of the core of [src/app.py]: the cost model
    ([CostCalculationService]), the fleet ledger and nearest-ambulance
    search ([Database]), the referral life cycle ([ReferralService]),
    location tracking ([AmbulanceService], [LocationSimulator]) and the
    figures of [AnalyticsService].

    Modelling conventions.
    - Python floats are modelled by exact rationals [Q]: rounding, NaN and
      the infinities are outside the model, except for the sentinel
      [float('inf')] of the nearest-ambulance loop, which is the [None] of
      an [option Q].
    - A nullable column is an [option]; a column that has a default and is
      never tested against [None] by the code is a plain value.
    - A table is the list of its rows; [query(...).filter(id == k).first()]
      is [find], [.all()] is [filter].  An ORM object is the row it was
      loaded from, so mutating it and committing rewrites that row.
    - Status columns are free strings, exactly as in the source.
    - A row holds the columns the modelled functions read or write, but
      no timestamp: where the code orders rows by timestamp, the order is
      the order of insertion. *)

From Stdlib Require Import QArith Qminmax Qabs Lqa Arith List String Bool Lia.
From Stdlib Require DecimalString.
Import ListNotations.

Open Scope string_scope.
Open Scope Q_scope.

(** ** Python numerics *)

(** [a < b] on floats. *)
Definition Qltb (a b : Q) : bool := negb (Qle_bool b a).

(** Python's two-argument [max(a, b)]: the first argument is kept unless
    the second is strictly greater. *)
Definition py_max (a b : Q) : Q := if Qltb a b then b else a.

(** Python's two-argument [min(a, b)]: the first argument is kept unless
    the second is strictly smaller. *)
Definition py_min (a b : Q) : Q := if Qltb b a then b else a.

(** Truth value of an optional float: [None] and [0.0] are falsy. *)
Definition truthy (x : option Q) : bool :=
  match x with
  | Some v => negb (Qeq_bool v 0)
  | None => false
  end.

(** Truth value of an optional string: [None] and [''] are falsy. *)
Definition truthy_str (x : option string) : bool :=
  match x with
  | Some s => negb (String.eqb s "")
  | None => false
  end.

(** ** Configuration *)

Module Config.
Definition FUEL_PRICE_PER_LITER : Q := 180.
Definition AVERAGE_FUEL_CONSUMPTION : Q := 0.12.
Definition BASE_OPERATING_COST_PER_KM : Q := 50.
Definition FUEL_TANK_CAPACITY : Q := 80.
End Config.

(** ** Cost model: [CostCalculationService] *)

(** The dictionary returned by [calculate_trip_cost]. *)
Record TripCost := mkTripCost {
  distance_km : Q;
  fuel_used_liters : Q;
  fuel_cost_ksh : Q;
  operating_cost_ksh : Q;
  total_cost_ksh : Q
}.

Definition calculate_trip_cost (distance_km : Q) (fuel_consumption_rate : option Q)
  : TripCost :=
  let fuel_consumption_rate :=
    match fuel_consumption_rate with
    | None => Config.AVERAGE_FUEL_CONSUMPTION
    | Some r => r
    end in
  let fuel_used := distance_km * fuel_consumption_rate in
  let fuel_cost := fuel_used * Config.FUEL_PRICE_PER_LITER in
  let operating_cost := distance_km * Config.BASE_OPERATING_COST_PER_KM in
  let total_cost := fuel_cost + operating_cost in
  {| distance_km := distance_km;
     fuel_used_liters := fuel_used;
     fuel_cost_ksh := fuel_cost;
     operating_cost_ksh := operating_cost;
     total_cost_ksh := total_cost |}.

Definition calculate_potential_savings (actual_distance alternative_distance : Q) : Q :=
  let actual_cost := calculate_trip_cost actual_distance None in
  let alternative_cost := calculate_trip_cost alternative_distance None in
  let savings := total_cost_ksh alternative_cost - total_cost_ksh actual_cost in
  py_max 0 savings.

(** ** Records of the schema *)

(** Row of the [patients] table (clinical free-text columns that the core
    never reads are left out). *)
Record Patient := mkPatient {
  patient_id : string;
  name : string;
  condition : string;
  referring_hospital : string;
  receiving_hospital : string;
  patient_status : string;
  assigned_ambulance : option string;
  created_by : option string;
  referring_hospital_lat : option Q;
  referring_hospital_lng : option Q;
  receiving_hospital_lat : option Q;
  receiving_hospital_lng : option Q;
  pickup_notification_sent : bool;
  trip_distance : option Q;
  trip_fuel_cost : option Q;
  trip_cost_savings : Q
}.

(** Row of the [ambulances] table. *)
Record Ambulance := mkAmbulance {
  ambulance_id : string;
  latitude : option Q;
  longitude : option Q;
  status : string;
  driver_name : string;
  current_patient : option string;
  destination : option string;
  mission_complete : bool;
  fuel_level : Q;
  fuel_consumption_rate : Q;
  total_fuel_cost : Q;
  total_distance_traveled : Q;
  cost_savings : Q;
  current_location : option string
}.

(** Row of the [referrals] table. *)
Record Referral := mkReferral {
  referral_patient_id : string;
  referral_ambulance_id : option string;
  referral_created_by : string
}.

(** Row of the [communications] table (the message text is left out). *)
Record Communication := mkCommunication {
  comm_patient_id : string;
  comm_ambulance_id : option string;
  receiver : string;
  message_type : string
}.

(** The dictionary handed to [create_referral] by the referral form. *)
Record PatientData := mkPatientData {
  pd_patient_id : option string;
  pd_name : string;
  pd_condition : string;
  pd_referring_hospital : string;
  pd_receiving_hospital : string;
  pd_status : option string;
  pd_assigned_ambulance : option string;
  pd_referring_hospital_lat : option Q;
  pd_referring_hospital_lng : option Q;
  pd_receiving_hospital_lat : option Q;
  pd_receiving_hospital_lng : option Q;
  pd_created_by : option string;
  pd_trip_distance : option Q;
  pd_trip_fuel_cost : option Q
}.

Definition pd_set_created_by (v : option string) (pd : PatientData) : PatientData :=
  mkPatientData (pd_patient_id pd) (pd_name pd) (pd_condition pd)
    (pd_referring_hospital pd) (pd_receiving_hospital pd) (pd_status pd)
    (pd_assigned_ambulance pd) (pd_referring_hospital_lat pd)
    (pd_referring_hospital_lng pd) (pd_receiving_hospital_lat pd)
    (pd_receiving_hospital_lng pd) v (pd_trip_distance pd) (pd_trip_fuel_cost pd).

Definition pd_set_trip (distance cost : option Q) (pd : PatientData) : PatientData :=
  mkPatientData (pd_patient_id pd) (pd_name pd) (pd_condition pd)
    (pd_referring_hospital pd) (pd_receiving_hospital pd) (pd_status pd)
    (pd_assigned_ambulance pd) (pd_referring_hospital_lat pd)
    (pd_referring_hospital_lng pd) (pd_receiving_hospital_lat pd)
    (pd_receiving_hospital_lng pd) (pd_created_by pd) distance cost.

(** *** Attribute assignment *)

Definition set_assigned_ambulance (v : option string) (p : Patient) : Patient :=
  mkPatient (patient_id p) (name p) (condition p) (referring_hospital p)
    (receiving_hospital p) (patient_status p) v (created_by p)
    (referring_hospital_lat p) (referring_hospital_lng p)
    (receiving_hospital_lat p) (receiving_hospital_lng p)
    (pickup_notification_sent p) (trip_distance p) (trip_fuel_cost p)
    (trip_cost_savings p).

Definition set_patient_status (v : string) (p : Patient) : Patient :=
  mkPatient (patient_id p) (name p) (condition p) (referring_hospital p)
    (receiving_hospital p) v (assigned_ambulance p) (created_by p)
    (referring_hospital_lat p) (referring_hospital_lng p)
    (receiving_hospital_lat p) (receiving_hospital_lng p)
    (pickup_notification_sent p) (trip_distance p) (trip_fuel_cost p)
    (trip_cost_savings p).

Definition set_pickup_notification_sent (v : bool) (p : Patient) : Patient :=
  mkPatient (patient_id p) (name p) (condition p) (referring_hospital p)
    (receiving_hospital p) (patient_status p) (assigned_ambulance p) (created_by p)
    (referring_hospital_lat p) (referring_hospital_lng p)
    (receiving_hospital_lat p) (receiving_hospital_lng p)
    v (trip_distance p) (trip_fuel_cost p) (trip_cost_savings p).

Definition set_trip_fuel_cost (v : option Q) (p : Patient) : Patient :=
  mkPatient (patient_id p) (name p) (condition p) (referring_hospital p)
    (receiving_hospital p) (patient_status p) (assigned_ambulance p) (created_by p)
    (referring_hospital_lat p) (referring_hospital_lng p)
    (receiving_hospital_lat p) (receiving_hospital_lng p)
    (pickup_notification_sent p) (trip_distance p) v (trip_cost_savings p).

Definition set_trip_cost_savings (v : Q) (p : Patient) : Patient :=
  mkPatient (patient_id p) (name p) (condition p) (referring_hospital p)
    (receiving_hospital p) (patient_status p) (assigned_ambulance p) (created_by p)
    (referring_hospital_lat p) (referring_hospital_lng p)
    (receiving_hospital_lat p) (receiving_hospital_lng p)
    (pickup_notification_sent p) (trip_distance p) (trip_fuel_cost p) v.

Definition set_status (v : string) (a : Ambulance) : Ambulance :=
  mkAmbulance (ambulance_id a) (latitude a) (longitude a) v (driver_name a)
    (current_patient a) (destination a) (mission_complete a) (fuel_level a)
    (fuel_consumption_rate a) (total_fuel_cost a) (total_distance_traveled a)
    (cost_savings a) (current_location a).

Definition set_current_patient (v : option string) (a : Ambulance) : Ambulance :=
  mkAmbulance (ambulance_id a) (latitude a) (longitude a) (status a) (driver_name a)
    v (destination a) (mission_complete a) (fuel_level a)
    (fuel_consumption_rate a) (total_fuel_cost a) (total_distance_traveled a)
    (cost_savings a) (current_location a).

Definition set_destination (v : option string) (a : Ambulance) : Ambulance :=
  mkAmbulance (ambulance_id a) (latitude a) (longitude a) (status a) (driver_name a)
    (current_patient a) v (mission_complete a) (fuel_level a)
    (fuel_consumption_rate a) (total_fuel_cost a) (total_distance_traveled a)
    (cost_savings a) (current_location a).

Definition set_mission_complete (v : bool) (a : Ambulance) : Ambulance :=
  mkAmbulance (ambulance_id a) (latitude a) (longitude a) (status a) (driver_name a)
    (current_patient a) (destination a) v (fuel_level a)
    (fuel_consumption_rate a) (total_fuel_cost a) (total_distance_traveled a)
    (cost_savings a) (current_location a).

Definition set_fuel_level (v : Q) (a : Ambulance) : Ambulance :=
  mkAmbulance (ambulance_id a) (latitude a) (longitude a) (status a) (driver_name a)
    (current_patient a) (destination a) (mission_complete a) v
    (fuel_consumption_rate a) (total_fuel_cost a) (total_distance_traveled a)
    (cost_savings a) (current_location a).

Definition set_total_fuel_cost (v : Q) (a : Ambulance) : Ambulance :=
  mkAmbulance (ambulance_id a) (latitude a) (longitude a) (status a) (driver_name a)
    (current_patient a) (destination a) (mission_complete a) (fuel_level a)
    (fuel_consumption_rate a) v (total_distance_traveled a) (cost_savings a)
    (current_location a).

Definition set_total_distance_traveled (v : Q) (a : Ambulance) : Ambulance :=
  mkAmbulance (ambulance_id a) (latitude a) (longitude a) (status a) (driver_name a)
    (current_patient a) (destination a) (mission_complete a) (fuel_level a)
    (fuel_consumption_rate a) (total_fuel_cost a) v (cost_savings a)
    (current_location a).

Definition set_cost_savings (v : Q) (a : Ambulance) : Ambulance :=
  mkAmbulance (ambulance_id a) (latitude a) (longitude a) (status a) (driver_name a)
    (current_patient a) (destination a) (mission_complete a) (fuel_level a)
    (fuel_consumption_rate a) (total_fuel_cost a) (total_distance_traveled a) v
    (current_location a).

(** ** Tables *)

Section Table.
Variable Row : Type.
Variable key : Row -> string.

(** [query(Row).filter(Row.key == k).first()] *)
Definition first_by_key (k : string) (rows : list Row) : option Row :=
  find (fun r => String.eqb (key r) k) rows.

(** Committing a mutated ORM object: the row it was loaded from (the
    first one carrying its key) is replaced. *)
Fixpoint commit_row (r' : Row) (rows : list Row) : list Row :=
  match rows with
  | [] => []
  | r :: rest =>
      if String.eqb (key r) (key r') then r' :: rest
      else r :: commit_row r' rest
  end.
End Table.

Arguments first_by_key {Row} key k rows.
Arguments commit_row {Row} key r' rows.

(** The session: the four tables the core touches. *)
Record Database := mkDatabase {
  patients : list Patient;
  ambulances : list Ambulance;
  referrals : list Referral;
  communications : list Communication
}.

Definition with_patients (ps : list Patient) (db : Database) : Database :=
  mkDatabase ps (ambulances db) (referrals db) (communications db).

Definition with_ambulances (l : list Ambulance) (db : Database) : Database :=
  mkDatabase (patients db) l (referrals db) (communications db).

Definition commit_patient (p : Patient) (db : Database) : Database :=
  with_patients (commit_row patient_id p (patients db)) db.

Definition commit_ambulance (a : Ambulance) (db : Database) : Database :=
  with_ambulances (commit_row ambulance_id a (ambulances db)) db.

(** ** [Database] *)

(** [Database.add_communication] *)
Definition add_communication (c : Communication) (db : Database) : Database :=
  mkDatabase (patients db) (ambulances db) (referrals db) (communications db ++ [c]).

(** [Database.add_referral] *)
Definition add_referral (r : Referral) (db : Database) : Database :=
  mkDatabase (patients db) (ambulances db) (referrals db ++ [r]) (communications db).

(** [Database.get_patient_by_id] *)
Definition get_patient_by_id (db : Database) (pid : string) : option Patient :=
  first_by_key patient_id pid (patients db).

(** [session.query(Ambulance).filter(Ambulance.ambulance_id == aid).first()] *)
Definition query_ambulance (db : Database) (aid : string) : option Ambulance :=
  first_by_key ambulance_id aid (ambulances db).

(** [Database.get_available_ambulances] *)
Definition get_available_ambulances (db : Database) : list Ambulance :=
  filter (fun a => String.eqb (status a) "Available") (ambulances db).

(** [Database.add_patient].  [fresh] is the identifier drawn by
    [secrets.token_hex] when the dictionary carries none.  The primary key
    constraint makes the insertion raise when the identifier is taken:
    that is the [None] result, and no table is written.  The code never
    rolls the failed transaction back; what the session answers to later
    calls is not modelled. *)
Definition add_patient (fresh : string) (pd : PatientData) (db : Database)
  : option (Patient * Database) :=
  let pid := match pd_patient_id pd with Some i => i | None => fresh end in
  let patient :=
    {| patient_id := pid;
       name := pd_name pd;
       condition := pd_condition pd;
       referring_hospital := pd_referring_hospital pd;
       receiving_hospital := pd_receiving_hospital pd;
       patient_status :=
         match pd_status pd with Some s => s | None => "Referred" end;
       assigned_ambulance := pd_assigned_ambulance pd;
       created_by := pd_created_by pd;
       referring_hospital_lat := pd_referring_hospital_lat pd;
       referring_hospital_lng := pd_referring_hospital_lng pd;
       receiving_hospital_lat := pd_receiving_hospital_lat pd;
       receiving_hospital_lng := pd_receiving_hospital_lng pd;
       pickup_notification_sent := false;
       trip_distance := pd_trip_distance pd;
       trip_fuel_cost := pd_trip_fuel_cost pd;
       trip_cost_savings := 0 |} in
  match first_by_key patient_id pid (patients db) with
  | Some _ => None
  | None => Some (patient, with_patients (patients db ++ [patient]) db)
  end.

(** [Database.update_ambulance_status] *)
Definition update_ambulance_status (ambulance_id : string) (status : string)
    (patient_id : option string) (db : Database) : Database :=
  match query_ambulance db ambulance_id with
  | Some ambulance =>
      let ambulance := set_status status ambulance in
      let ambulance :=
        if truthy_str patient_id then set_current_patient patient_id ambulance
        else ambulance in
      commit_ambulance ambulance db
  | None => db
  end.

(** [Database.update_ambulance_fuel]: the new fuel level, or [None] when
    the ambulance is unknown. *)
Definition update_ambulance_fuel (ambulance_id : string)
    (distance_km new_fuel_level : option Q) (db : Database)
  : option Q * Database :=
  match query_ambulance db ambulance_id with
  | Some ambulance =>
      let ambulance :=
        match distance_km, new_fuel_level with
        | Some distance_km, _ =>
            let fuel_used := distance_km * fuel_consumption_rate ambulance in
            set_fuel_level (py_max 0 (fuel_level ambulance - fuel_used)) ambulance
        | None, Some new_fuel_level =>
            set_fuel_level (py_max 0 (py_min 100 new_fuel_level)) ambulance
        | None, None => ambulance
        end in
      (Some (fuel_level ambulance), commit_ambulance ambulance db)
  | None => (None, db)
  end.

(** *** Nearest eligible ambulance *)

Section Dispatch.

(** [Database.calculate_distance], the haversine great-circle distance.
    It is built from [sin], [cos], [atan2] and [sqrt], which have no
    rational model; the search only compares its results, so it is taken
    as a parameter. *)
Variable calculate_distance : Q -> Q -> Q -> Q -> Q.

Variables hospital_lat hospital_lng min_fuel_level : Q.

(** [distance < min_distance], where [None] is [float('inf')]. *)
Definition below (distance : Q) (min_distance : option Q) : bool :=
  match min_distance with
  | None => true
  | Some m => Qltb distance m
  end.

(** One iteration of the loop; the state is
    [(nearest_ambulance, min_distance)]. *)
Definition nearest_step (st : option Ambulance * option Q) (ambulance : Ambulance)
  : option Ambulance * option Q :=
  if Qltb (fuel_level ambulance) min_fuel_level then st
  else
    match latitude ambulance, longitude ambulance with
    | Some lat, Some lng =>
        let distance := calculate_distance hospital_lat hospital_lng lat lng in
        if below distance (snd st) then (Some ambulance, Some distance) else st
    | _, _ => st
    end.

(** [Database.find_nearest_ambulance] *)
Definition find_nearest_ambulance (db : Database) : option Ambulance :=
  let available_ambulances := get_available_ambulances db in
  match available_ambulances with
  | [] => None
  | _ => fst (fold_left nearest_step available_ambulances (None, None))
  end.

End Dispatch.

(** ** [CostCalculationService.update_ambulance_costs] *)

Definition update_ambulance_costs (ambulance_id : string) (distance_km : Q)
    (db : Database) : option TripCost * Database :=
  match query_ambulance db ambulance_id with
  | Some ambulance =>
      let trip_cost :=
        calculate_trip_cost distance_km (Some (fuel_consumption_rate ambulance)) in
      let ambulance :=
        set_total_distance_traveled
          (total_distance_traveled ambulance + distance_km) ambulance in
      let ambulance :=
        set_total_fuel_cost
          (total_fuel_cost ambulance + fuel_cost_ksh trip_cost) ambulance in
      let potential_savings := total_cost_ksh trip_cost * 0.15 in
      let ambulance :=
        set_cost_savings (cost_savings ambulance + potential_savings) ambulance in
      (Some trip_cost, commit_ambulance ambulance db)
  | None => (None, db)
  end.

(** ** [NotificationService]: the rows written to [communications] *)

Definition send_automatic_pickup_notification_to_driver
    (patient : Patient) (ambulance : Ambulance) (db : Database) : Database :=
  add_communication
    {| comm_patient_id := patient_id patient;
       comm_ambulance_id := Some (ambulance_id ambulance);
       receiver := driver_name ambulance;
       message_type := "auto_driver_assignment" |} db.

Definition send_automatic_referral_notification_to_hospital
    (patient : Patient) (db : Database) : Database :=
  add_communication
    {| comm_patient_id := patient_id patient;
       comm_ambulance_id := None;
       receiver := receiving_hospital patient;
       message_type := "auto_hospital_notification" |} db.

Definition send_automatic_enroute_notification
    (patient : Patient) (ambulance : Ambulance) (db : Database) : Database :=
  add_communication
    {| comm_patient_id := patient_id patient;
       comm_ambulance_id := Some (ambulance_id ambulance);
       receiver := receiving_hospital patient;
       message_type := "auto_enroute_notification" |} db.

Definition send_automatic_arrival_notification
    (patient : Patient) (ambulance : Ambulance) (db : Database) : Database :=
  fold_left
    (fun db hospital =>
       add_communication
         {| comm_patient_id := patient_id patient;
            comm_ambulance_id := Some (ambulance_id ambulance);
            receiver := hospital;
            message_type := "auto_arrival_notification" |} db)
    [referring_hospital patient; receiving_hospital patient] db.

(** ** [ReferralService] *)

(** [ReferralService.assign_ambulance] *)
Definition assign_ambulance (patient_id ambulance_id : string) (db : Database)
  : bool * Database :=
  match get_patient_by_id db patient_id with
  | Some patient =>
      let patient := set_assigned_ambulance (Some ambulance_id) patient in
      let patient := set_patient_status "Ambulance Assigned" patient in
      let db := commit_patient patient db in
      let db :=
        match query_ambulance db ambulance_id with
        | Some ambulance =>
            send_automatic_pickup_notification_to_driver patient ambulance db
        | None => db
        end in
      let db := update_ambulance_status ambulance_id "On Transfer" (Some patient_id) db in
      (true, db)
  | None => (false, db)
  end.

(** [ReferralService.mark_patient_picked_up] *)
Definition mark_patient_picked_up (patient_id : string) (db : Database)
  : bool * Database :=
  match get_patient_by_id db patient_id with
  | None => (false, db)
  | Some patient =>
      let ambulance :=
        match assigned_ambulance patient with
        | Some aid => query_ambulance db aid
        | None => None
        end in
      match ambulance with
      | None => (false, db)
      | Some ambulance =>
          let patient := set_patient_status "Patient Picked Up" patient in
          let patient := set_pickup_notification_sent true patient in
          let db := send_automatic_enroute_notification patient ambulance db in
          (true, commit_patient patient db)
      end
  end.

(** [ReferralService.complete_mission].  The two arguments of the source
    are ORM objects; they are passed here as the keys of the rows they were
    loaded from, and the call is defined when both rows exist. *)
Definition complete_mission (ambulance_key patient_key : string) (db : Database)
  : option Database :=
  match query_ambulance db ambulance_key, get_patient_by_id db patient_key with
  | Some ambulance, Some patient =>
      let ambulance := set_status "Available" ambulance in
      let ambulance := set_current_patient None ambulance in
      let ambulance := set_mission_complete true ambulance in
      let patient := set_patient_status "Arrived at Destination" patient in
      let db := commit_patient patient (commit_ambulance ambulance db) in
      let '(patient, db) :=
        match trip_distance patient with
        | Some d =>
            if truthy (Some d) then
              let '(trip_cost, db) :=
                update_ambulance_costs (ambulance_id ambulance) d db in
              match trip_cost with
              | Some trip_cost =>
                  let patient :=
                    set_trip_fuel_cost (Some (total_cost_ksh trip_cost)) patient in
                  let patient :=
                    set_trip_cost_savings (total_cost_ksh trip_cost * 0.15) patient in
                  (patient, commit_patient patient db)
              | None => (patient, db)
              end
            else (patient, db)
        | None => (patient, db)
        end in
      Some (send_automatic_arrival_notification patient ambulance db)
  | _, _ => None
  end.

Section Referral.

Variable calculate_distance : Q -> Q -> Q -> Q -> Q.

(** [ReferralService.create_referral].  [role] is [user['role']]; the
    result is [None] when the [try] block raised. *)
Definition create_referral (fresh : string) (patient_data : PatientData)
    (role : string) (db : Database) : option Patient * Database :=
  let patient_data := pd_set_created_by (Some role) patient_data in
  let patient_data :=
    if truthy (pd_referring_hospital_lat patient_data)
       && truthy (pd_referring_hospital_lng patient_data)
       && truthy (pd_receiving_hospital_lat patient_data)
       && truthy (pd_receiving_hospital_lng patient_data)
    then
      match pd_referring_hospital_lat patient_data,
            pd_referring_hospital_lng patient_data,
            pd_receiving_hospital_lat patient_data,
            pd_receiving_hospital_lng patient_data with
      | Some lat1, Some lng1, Some lat2, Some lng2 =>
          let distance := calculate_distance lat1 lng1 lat2 lng2 in
          let cost_estimate := calculate_trip_cost distance None in
          pd_set_trip (Some distance) (Some (total_cost_ksh cost_estimate))
            patient_data
      | _, _, _, _ => patient_data
      end
    else patient_data in
  match add_patient fresh patient_data db with
  | Some (patient, db') =>
      let db' :=
        add_referral
          {| referral_patient_id := patient_id patient;
             referral_ambulance_id := pd_assigned_ambulance patient_data;
             referral_created_by := role |} db' in
      let db' := send_automatic_referral_notification_to_hospital patient db' in
      (Some patient, db')
  | None => (None, db)
  end.

(** [ReferralService.auto_assign_nearest_ambulance] *)
Definition auto_assign_nearest_ambulance (patient_id : string) (db : Database)
  : bool * Database :=
  match get_patient_by_id db patient_id with
  | None => (false, db)
  | Some patient =>
      if negb (truthy (referring_hospital_lat patient))
         || negb (truthy (referring_hospital_lng patient))
      then (false, db)
      else
        match referring_hospital_lat patient, referring_hospital_lng patient with
        | Some lat, Some lng =>
            match find_nearest_ambulance calculate_distance lat lng 20.0 db with
            | None => (false, db)
            | Some nearest_ambulance =>
                let patient :=
                  set_assigned_ambulance
                    (Some (ambulance_id nearest_ambulance)) patient in
                let patient := set_patient_status "Ambulance Assigned" patient in
                let nearest_ambulance := set_status "On Transfer" nearest_ambulance in
                let nearest_ambulance :=
                  set_current_patient (Some patient_id) nearest_ambulance in
                let nearest_ambulance :=
                  set_destination (Some (receiving_hospital patient)) nearest_ambulance in
                let db :=
                  send_automatic_pickup_notification_to_driver
                    patient nearest_ambulance db in
                (true, commit_ambulance nearest_ambulance (commit_patient patient db))
            end
        | _, _ => (false, db)
        end
  end.

End Referral.

(** * Tracking, simulation and analytics *)

(** ** [AmbulanceService] *)

Definition set_latitude (v : option Q) (a : Ambulance) : Ambulance :=
  mkAmbulance (ambulance_id a) v (longitude a) (status a) (driver_name a)
    (current_patient a) (destination a) (mission_complete a) (fuel_level a)
    (fuel_consumption_rate a) (total_fuel_cost a) (total_distance_traveled a)
    (cost_savings a) (current_location a).

Definition set_longitude (v : option Q) (a : Ambulance) : Ambulance :=
  mkAmbulance (ambulance_id a) (latitude a) v (status a) (driver_name a)
    (current_patient a) (destination a) (mission_complete a) (fuel_level a)
    (fuel_consumption_rate a) (total_fuel_cost a) (total_distance_traveled a)
    (cost_savings a) (current_location a).

Definition set_current_location (v : option string) (a : Ambulance) : Ambulance :=
  mkAmbulance (ambulance_id a) (latitude a) (longitude a) (status a) (driver_name a)
    (current_patient a) (destination a) (mission_complete a) (fuel_level a)
    (fuel_consumption_rate a) (total_fuel_cost a) (total_distance_traveled a)
    (cost_savings a) v.

(** Row of the [location_updates] table (the timestamp is left out). *)
Record LocationUpdate := mkLocationUpdate {
  lu_ambulance_id : string;
  lu_latitude : Q;
  lu_longitude : Q;
  location_name : string;
  lu_patient_id : option string
}.

(** The session together with the [location_updates] table. *)
Record Store := mkStore {
  session : Database;
  location_updates : list LocationUpdate
}.

Definition with_session (db : Database) (s : Store) : Store :=
  mkStore db (location_updates s).

(** [Database.add_location_update] *)
Definition add_location_update (u : LocationUpdate) (s : Store) : Store :=
  mkStore (session s) (location_updates s ++ [u]).

(** [Database.get_latest_location]: the newest row of the ambulance.  The
    timestamp of a row is the time of its insertion, so the newest row is
    the last one inserted. *)
Definition get_latest_location (s : Store) (ambulance_id : string)
  : option LocationUpdate :=
  find (fun u => String.eqb (lu_ambulance_id u) ambulance_id)
    (rev (location_updates s)).



(** [AmbulanceService.update_ambulance_location].  It also stamps the row
    ([last_location_update]); the timestamps of the rows are not part of
    the row model. *)
Definition update_ambulance_location (ambulance_id : string) (latitude longitude : Q)
    (location_name : string) (patient_id : option string) (s : Store)
  : bool * Store :=
  match query_ambulance (session s) ambulance_id with
  | Some ambulance =>
      let ambulance := set_latitude (Some latitude) ambulance in
      let ambulance := set_longitude (Some longitude) ambulance in
      let ambulance := set_current_location (Some location_name) ambulance in
      let s := with_session (commit_ambulance ambulance (session s)) s in
      let location_data :=
        {| lu_ambulance_id := ambulance_id;
           lu_latitude := latitude;
           lu_longitude := longitude;
           location_name := location_name;
           lu_patient_id := patient_id |} in
      (true, add_location_update location_data s)
  | None => (false, s)
  end.

(** The dictionary returned by [get_ambulance_with_fuel_info]. *)
Record FuelInfo := mkFuelInfo {
  info_ambulance : Ambulance;
  info_fuel_level : Q;
  fuel_status : string
}.

(** [AmbulanceService.get_ambulance_with_fuel_info] *)
Definition get_ambulance_with_fuel_info (db : Database) (ambulance_id : string)
  : option FuelInfo :=
  match query_ambulance db ambulance_id with
  | Some ambulance =>
      let fuel_status :=
        if Qltb 50 (fuel_level ambulance) then "🟢 Good"
        else if Qltb 20 (fuel_level ambulance) then "🟡 Low"
        else "🔴 Critical" in
      Some {| info_ambulance := ambulance;
              info_fuel_level := fuel_level ambulance;
              fuel_status := fuel_status |}
  | None => None
  end.

(** ** [LocationSimulator] *)

(** [str(n)] for a loop counter. *)
Definition string_of_nat (n : nat) : string :=
  DecimalString.NilZero.string_of_uint (Nat.to_uint n).

(** A loop counter as a float. *)
Definition Q_of_nat (n : nat) : Q := inject_Z (Z.of_nat n).

Section Simulation.

Variable calculate_distance : Q -> Q -> Q -> Q -> Q.

(** [running k] is the value of the flag [self.running] at the [k]-th time
    the simulation reads it; [stop_simulation], called from another
    thread, is what makes it [False].  Writes of other threads to the
    tables are not modelled. *)
Variable running : nat -> bool.

Variables (ambulance_id patient_id : string) (start_lat start_lng end_lat end_lng : Q).

(** The body of the loop of [start_simulation] below the flag test
    ([time.sleep] has no effect on the tables). *)
Definition simulation_body (steps : nat) (initial_distance lat_step lng_step : Q)
    (step : nat) (s : Store) : Store :=
  let current_lat := start_lat + lat_step * Q_of_nat step in
  let current_lng := start_lng + lng_step * Q_of_nat step in
  let s :=
    snd (update_ambulance_location ambulance_id current_lat current_lng
           ("En route - Step " ++ string_of_nat step ++ "/" ++ string_of_nat steps)
           (Some patient_id) s) in
  if (0 <? step)%nat then
    let distance_step := initial_distance / Q_of_nat steps in
    with_session
      (snd (update_ambulance_fuel ambulance_id (Some distance_step) None (session s))) s
  else s.

(** One turn of the loop; the state is (left by [break], number of reads
    of the flag so far, tables). *)
Definition simulation_turn (steps : nat) (initial_distance lat_step lng_step : Q)
    (st : bool * nat * Store) (step : nat) : bool * nat * Store :=
  let '(broken, reads, s) := st in
  if broken then st
  else if negb (running reads) then (true, S reads, s)
  else (false, S reads,
        simulation_body steps initial_distance lat_step lng_step step s).

(** [LocationSimulator.start_simulation] *)
Definition start_simulation (s : Store) : Store :=
  let initial_distance := calculate_distance start_lat start_lng end_lat end_lng in
  let steps := 20%nat in
  let lat_step := (end_lat - start_lat) / Q_of_nat steps in
  let lng_step := (end_lng - start_lng) / Q_of_nat steps in
  let '(_, reads, s) :=
    fold_left (simulation_turn steps initial_distance lat_step lng_step)
      (seq 0 (steps + 1)) (false, 0%nat, s) in
  if running reads then
    match query_ambulance (session s) ambulance_id with
    | Some ambulance =>
        let ambulance := set_status "Available" ambulance in
        let ambulance := set_current_patient None ambulance in
        with_session (commit_ambulance ambulance (session s)) s
    | None => s
    end
  else s.

End Simulation.

(** ** [AnalyticsService] *)

(** [sum(...)] over floats, starting from 0. *)
Definition py_sum (l : list Q) : Q := fold_left Qplus l 0.

(** Float division: [None] is [ZeroDivisionError]. *)
Definition py_div (a b : Q) : option Q :=
  if Qeq_bool b 0 then None else Some (a / b).

(** [x or 0] on an optional float. *)
Definition or_zero (x : option Q) : Q :=
  match x with
  | Some v => if Qeq_bool v 0 then 0 else v
  | None => 0
  end.

(** The dictionary returned by [get_kpis].  The four entries the source
    formats as text ([avg_response_time], [completion_rate],
    [fuel_efficiency], with one decimal and a unit) are kept as the numbers
    that are formatted. *)
Record KPIs := mkKPIs {
  total_referrals : nat;
  active_referrals : nat;
  available_ambulances : nat;
  avg_response_time : Q;
  completion_rate : Q;
  kpi_total_fuel_cost : Q;
  total_cost_savings : Q;
  total_distance_km : Q;
  fuel_efficiency : Q
}.

(** [p.status not in ['Arrived at Destination', 'Completed']] *)
Definition is_active (p : Patient) : bool :=
  negb (String.eqb (patient_status p) "Arrived at Destination"
        || String.eqb (patient_status p) "Completed").

(** [AnalyticsService.get_kpis]; [None] when the fuel efficiency entry
    divides by zero. *)
Definition get_kpis (db : Database) : option KPIs :=
  let patients := patients db in
  let ambulances := ambulances db in
  let total_referrals := List.length patients in
  let active_referrals := List.length (filter is_active patients) in
  let available_ambulances :=
    List.length (filter (fun a => String.eqb (status a) "Available") ambulances) in
  let total_fuel_cost := py_sum (map total_fuel_cost ambulances) in
  let total_cost_savings := py_sum (map cost_savings ambulances) in
  let total_distance := py_sum (map total_distance_traveled ambulances) in
  let response_times :=
    map (fun _ => 15)
      (filter (fun patient =>
                 truthy_str (assigned_ambulance patient)
                 && String.eqb (patient_status patient) "Arrived at Destination")
         patients) in
  let avg_response_time :=
    match response_times with
    | [] => 0
    | _ => py_sum response_times / Q_of_nat (List.length response_times)
    end in
  let completion_rate :=
    if (0 <? total_referrals)%nat
    then Q_of_nat (total_referrals - active_referrals) / Q_of_nat total_referrals * 100
    else 0 in
  let fuel_efficiency :=
    if Qltb 0 total_distance
    then
      match py_div total_distance
              (py_sum (map fuel_consumption_rate ambulances) * total_distance) with
      | Some q => Some (q * 100)
      | None => None
      end
    else Some 0 in
  match fuel_efficiency with
  | Some fuel_efficiency =>
      Some {| total_referrals := total_referrals;
              active_referrals := active_referrals;
              available_ambulances := available_ambulances;
              avg_response_time := avg_response_time;
              completion_rate := completion_rate;
              kpi_total_fuel_cost := total_fuel_cost;
              total_cost_savings := total_cost_savings;
              total_distance_km := total_distance;
              fuel_efficiency := fuel_efficiency |}
  | None => None
  end.

(** The dictionary returned by [get_cost_analytics]. *)
Record CostAnalytics := mkCostAnalytics {
  monthly_costs : list Q;
  monthly_savings : list Q;
  months : list string;
  total_trip_costs : Q;
  total_trip_savings : Q;
  ambulance_count : nat
}.

(** [AnalyticsService.get_cost_analytics] *)
Definition get_cost_analytics (db : Database) : CostAnalytics :=
  let ambulances := ambulances db in
  let patients := patients db in
  let completed_trips :=
    filter (fun p => String.eqb (patient_status p) "Completed") patients in
  let total_trip_costs :=
    py_sum (map (fun p => or_zero (trip_fuel_cost p)) completed_trips) in
  let total_trip_savings :=
    py_sum (map (fun p => or_zero (Some (trip_cost_savings p))) completed_trips) in
  let months := ["Jan"; "Feb"; "Mar"; "Apr"; "May"; "Jun"] in
  let monthly_costs :=
    map (fun i => total_trip_costs * (0.8 + Q_of_nat i * 0.1)) (seq 0 6) in
  let monthly_savings :=
    map (fun i => total_trip_savings * (0.7 + Q_of_nat i * 0.15)) (seq 0 6) in
  {| monthly_costs := monthly_costs;
     monthly_savings := monthly_savings;
     months := months;
     total_trip_costs := total_trip_costs;
     total_trip_savings := total_trip_savings;
     ambulance_count := List.length ambulances |}.

(** * Vocabulary of the statements *)

(** ** Mission completion *)

(** The ambulance row as [complete_mission] leaves it before any cost is
    accrued. *)
Definition released (a : Ambulance) : Ambulance :=
  set_mission_complete true (set_current_patient None (set_status "Available" a)).

(** The ambulance row after [update_ambulance_costs] accrued [d]. *)
Definition accrued (d : Q) (a : Ambulance) : Ambulance :=
  let tc := calculate_trip_cost d (Some (fuel_consumption_rate a)) in
  set_cost_savings (cost_savings a + total_cost_ksh tc * 0.15)
    (set_total_fuel_cost (total_fuel_cost a + fuel_cost_ksh tc)
       (set_total_distance_traveled (total_distance_traveled a + d) a)).

(** ** Referral creation *)

(** The four-coordinate test of [create_referral]. *)
Definition coordinates_given (pd : PatientData) : bool :=
  truthy (pd_referring_hospital_lat pd)
  && truthy (pd_referring_hospital_lng pd)
  && truthy (pd_receiving_hospital_lat pd)
  && truthy (pd_receiving_hospital_lng pd).

(** ** The ambulance invariant *)

(** [current_patient != null] exactly when [status == 'On Transfer']. *)
Definition ambulance_invariant (a : Ambulance) : Prop :=
  current_patient a <> None <-> status a = "On Transfer".

Definition fleet_invariant (db : Database) : Prop :=
  Forall ambulance_invariant (ambulances db).

(** ** Nearest eligible ambulance *)

Section DispatchSpec.
Variable calculate_distance : Q -> Q -> Q -> Q -> Q.
Variables hospital_lat hospital_lng min_fuel_level : Q.

(** Distance from the hospital to an ambulance with known coordinates. *)
Definition distance_to (a : Ambulance) : option Q :=
  match latitude a, longitude a with
  | Some lat, Some lng => Some (calculate_distance hospital_lat hospital_lng lat lng)
  | _, _ => None
  end.

(** The three eligibility conditions: Available, fuel not below the
    threshold, coordinates known. *)
Definition eligible (a : Ambulance) : bool :=
  String.eqb (status a) "Available"
  && negb (Qltb (fuel_level a) min_fuel_level)
  && match distance_to a with Some _ => true | None => false end.

(** What one loop iteration compares: the distance of an ambulance that
    passes the fuel and coordinate tests. *)
Definition candidate (a : Ambulance) : option Q :=
  if Qltb (fuel_level a) min_fuel_level then None else distance_to a.

(** Loop invariant after the ambulances [seen]: either nothing was
    selected and no ambulance seen is a candidate, or the selection is a
    candidate seen at some position [i], no candidate seen is nearer, and
    every candidate seen before [i] is strictly farther. *)
Definition nearest_inv (seen : list Ambulance) (st : option Ambulance * option Q)
  : Prop :=
  match st with
  | (None, None) => forall b, In b seen -> candidate b = None
  | (Some a, Some m) =>
      exists i,
        nth_error seen i = Some a /\ candidate a = Some m /\
        forall j b d, nth_error seen j = Some b -> candidate b = Some d ->
                      m <= d /\ ((j < i)%nat -> m < d)
  | _ => False
  end.

End DispatchSpec.

(** ** Sample rows, after [initialize_sample_data] and the hospital table *)

Definition sample_ambulance (aid : string) (lat lng fuel rate : Q) : Ambulance :=
  {| ambulance_id := aid;
     latitude := Some lat;
     longitude := Some lng;
     status := "Available";
     driver_name := "John Omondi";
     current_patient := None;
     destination := None;
     mission_complete := false;
     fuel_level := fuel;
     fuel_consumption_rate := rate;
     total_fuel_cost := 5000;
     total_distance_traveled := 100;
     cost_savings := 1000;
     current_location := Some "Kisumu CBD" |}.

Definition sample_patient_data (lat1 lng1 lat2 lng2 : option Q) : PatientData :=
  {| pd_patient_id := None;
     pd_name := "Achieng Atieno";
     pd_condition := "Fracture";
     pd_referring_hospital := "Lumumba Sub-County Hospital";
     pd_receiving_hospital := "Kisumu County Referral Hospital";
     pd_status := Some "Referred";
     pd_assigned_ambulance := None;
     pd_referring_hospital_lat := lat1;
     pd_referring_hospital_lng := lng1;
     pd_receiving_hospital_lat := lat2;
     pd_receiving_hospital_lng := lng2;
     pd_created_by := None;
     pd_trip_distance := None;
     pd_trip_fuel_cost := None |}.

Definition sample_patient (pid : string) (distance : option Q) : Patient :=
  {| patient_id := pid;
     name := "Achieng Atieno";
     condition := "Fracture";
     referring_hospital := "Lumumba Sub-County Hospital";
     receiving_hospital := "Kisumu County Referral Hospital";
     patient_status := "Referred";
     assigned_ambulance := None;
     created_by := Some "Hospital Staff";
     referring_hospital_lat := Some (-0.1058);
     referring_hospital_lng := Some 34.7568;
     receiving_hospital_lat := Some (-0.0754);
     receiving_hospital_lng := Some 34.7695;
     pickup_notification_sent := false;
     trip_distance := distance;
     trip_fuel_cost := None;
     trip_cost_savings := 0 |}.

Definition sample_db (ps : list Patient) (l : list Ambulance) : Database :=
  {| patients := ps; ambulances := l; referrals := []; communications := [] |}.

(** A stand-in for the haversine distance on concrete inputs: the
    taxicab distance in degrees. *)
Definition taxicab (lat1 lon1 lat2 lon2 : Q) : Q :=
  Qabs (lat2 - lat1) + Qabs (lon2 - lon1).

(** A fleet around Lumumba Sub-County Hospital (-0.1058, 34.7568): the
    nearest ambulance is short of fuel, the next one is on a transfer, and
    the two eligible ones are equally far. *)
Definition sample_fleet : list Ambulance :=
  [ sample_ambulance "KBA 453D" (-0.1058) 34.7568 15 0.12;
    set_current_patient (Some "PAT5E6F7A8B")
      (set_status "On Transfer" (sample_ambulance "KBC 217F" (-0.1058) 34.7570 90 0.12));
    sample_ambulance "KBD 389G" (-0.0754) 34.7695 78.9 0.12;
    sample_ambulance "KBE 142H" (-0.1362) 34.7441 65.2 0.12 ].

(** ** Simulation *)

(** Two ambulance rows that agree on everything but position (the
    coordinates and the location name), fuel level, status and current
    patient. *)
Definition same_ledger (a b : Ambulance) : Prop :=
  ambulance_id a = ambulance_id b /\
  driver_name a = driver_name b /\
  destination a = destination b /\
  mission_complete a = mission_complete b /\
  fuel_consumption_rate a = fuel_consumption_rate b /\
  total_fuel_cost a = total_fuel_cost b /\
  total_distance_traveled a = total_distance_traveled b /\
  cost_savings a = cost_savings b.

(** What a simulation may change, relative to the store [s] it started
    from: position, fuel level, status and current patient of ambulance
    rows, and the location log. *)
Definition simulation_frame (aid : string) (s s' : Store) : Prop :=
  patients (session s') = patients (session s) /\
  referrals (session s') = referrals (session s) /\
  communications (session s') = communications (session s) /\
  Forall2 same_ledger (ambulances (session s)) (ambulances (session s')) /\
  forall k, k <> aid ->
            query_ambulance (session s') k = query_ambulance (session s) k.

Section SimulationProgress.
Variables (aid pid : string) (start_lat start_lng end_lat end_lng : Q).

Local Abbreviation lat_step := ((end_lat - start_lat) / Q_of_nat 20).
Local Abbreviation lng_step := ((end_lng - start_lng) / Q_of_nat 20).
Local Abbreviation logged step :=
  {| lu_ambulance_id := aid;
     lu_latitude := start_lat + lat_step * Q_of_nat step;
     lu_longitude := start_lng + lng_step * Q_of_nat step;
     location_name :=
       "En route - Step " ++ string_of_nat step ++ "/" ++ string_of_nat 20;
     lu_patient_id := Some pid |}.

(** The state of an uninterrupted run after [n] steps, started from the
    store [s] in which the ambulance row is [a]. *)
Definition simulation_progress (s : Store) (a : Ambulance) (n : nat) (s1 : Store)
  : Prop :=
  exists a1,
    query_ambulance (session s1) aid = Some a1 /\
    same_ledger a a1 /\
    status a1 = status a /\
    current_patient a1 = current_patient a /\
    0 <= fuel_level a1 <= fuel_level a /\
    List.length (location_updates s1) = (List.length (location_updates s) + n)%nat /\
    ((0 < n)%nat ->
     latitude a1 = Some (start_lat + lat_step * Q_of_nat (n - 1)) /\
     longitude a1 = Some (start_lng + lng_step * Q_of_nat (n - 1)) /\
     get_latest_location s1 aid = Some (logged (n - 1)%nat)).

End SimulationProgress.

(** ** Primary keys *)

(** The primary-key constraint of the [ambulances] table. *)
Definition unique_ambulance_ids (db : Database) : Prop :=
  NoDup (map ambulance_id (ambulances db)).

(** The primary-key constraint of the [patients] table. *)
Definition unique_patient_ids (db : Database) : Prop :=
  NoDup (map patient_id (patients db)).

(** * Properties *)

(** ** Numerics *)

Lemma Qltb_true (a b : Q) : Qltb a b = true <-> a < b.
Proof.
  unfold Qltb. rewrite negb_true_iff, <- not_true_iff_false, Qle_bool_iff.
  split; intro H; lra.
Qed.

Lemma Qltb_false (a b : Q) : Qltb a b = false <-> b <= a.
Proof.
  unfold Qltb. rewrite negb_false_iff, Qle_bool_iff. reflexivity.
Qed.

Ltac case_Qltb a b :=
  let H := fresh "Hcmp" in
  destruct (Qltb a b) eqn:H;
  [apply Qltb_true in H | apply Qltb_false in H].

Lemma py_max_spec (a b : Q) : py_max a b == Qmax a b.
Proof.
  unfold py_max. case_Qltb a b.
  - rewrite Q.max_r; lra.
  - rewrite Q.max_l; lra.
Qed.

Lemma py_max_lower (a b : Q) : a <= py_max a b.
Proof. unfold py_max. case_Qltb a b; lra. Qed.

Lemma py_max_upper (a b c : Q) : a <= c -> b <= c -> py_max a b <= c.
Proof. unfold py_max. case_Qltb a b; lra. Qed.

Lemma py_min_upper (a b : Q) : py_min a b <= a.
Proof. unfold py_min. case_Qltb b a; lra. Qed.

(** ** Tables *)

Section TableFacts.
Context {Row : Type} (key : Row -> string).

Lemma first_by_key_key (k : string) (rows : list Row) (r : Row) :
  first_by_key key k rows = Some r -> key r = k.
Proof.
  unfold first_by_key. intro H. apply find_some in H.
  now apply String.eqb_eq.
Qed.

Lemma first_by_key_In (k : string) (rows : list Row) (r : Row) :
  first_by_key key k rows = Some r -> In r rows.
Proof.
  unfold first_by_key. intro H. now apply find_some in H.
Qed.

Lemma first_by_key_commit_same (r r' : Row) (rows : list Row) :
  first_by_key key (key r') rows = Some r ->
  first_by_key key (key r') (commit_row key r' rows) = Some r'.
Proof.
  unfold first_by_key. induction rows as [|x rest IH]; simpl; [discriminate|].
  destruct (String.eqb (key x) (key r')) eqn:E; intro H; simpl.
  - now rewrite String.eqb_refl.
  - rewrite E. auto.
Qed.

Lemma first_by_key_commit_other (k : string) (r' : Row) (rows : list Row) :
  k <> key r' ->
  first_by_key key k (commit_row key r' rows) = first_by_key key k rows.
Proof.
  unfold first_by_key. intro Hne.
  induction rows as [|x rest IH]; simpl; [reflexivity|].
  destruct (String.eqb (key x) (key r')) eqn:E; simpl.
  - apply String.eqb_eq in E.
    destruct (String.eqb (key r') k) eqn:E1.
    + apply String.eqb_eq in E1. congruence.
    + rewrite E, E1. reflexivity.
  - destruct (String.eqb (key x) k); auto.
Qed.

Lemma commit_row_absent (r' : Row) (rows : list Row) :
  first_by_key key (key r') rows = None -> commit_row key r' rows = rows.
Proof.
  unfold first_by_key. induction rows as [|x rest IH]; simpl; [reflexivity|].
  destruct (String.eqb (key x) (key r')); [discriminate|].
  intro H. now rewrite IH.
Qed.

Lemma Forall_commit_row (P : Row -> Prop) (r' : Row) (rows : list Row) :
  Forall P rows -> P r' -> Forall P (commit_row key r' rows).
Proof.
  intros Hall Hr. induction Hall as [|x rest Hx Hrest IH]; simpl; [constructor|].
  destruct (String.eqb (key x) (key r')); constructor; auto.
Qed.

End TableFacts.

(** ** Reading a row back after a commit *)

Lemma query_commit_ambulance (db : Database) (aid : string) (a a' : Ambulance) :
  query_ambulance db aid = Some a ->
  ambulance_id a' = aid ->
  query_ambulance (commit_ambulance a' db) aid = Some a'.
Proof.
  unfold query_ambulance, commit_ambulance. simpl. intros Hq <-.
  now apply first_by_key_commit_same with (r := a).
Qed.

Lemma query_commit_ambulance_other (db : Database) (aid : string) (a' : Ambulance) :
  aid <> ambulance_id a' ->
  query_ambulance (commit_ambulance a' db) aid = query_ambulance db aid.
Proof.
  unfold query_ambulance, commit_ambulance. simpl.
  apply first_by_key_commit_other.
Qed.

Lemma get_commit_patient (db : Database) (pid : string) (p p' : Patient) :
  get_patient_by_id db pid = Some p ->
  patient_id p' = pid ->
  get_patient_by_id (commit_patient p' db) pid = Some p'.
Proof.
  unfold get_patient_by_id, commit_patient. simpl. intros Hq <-.
  now apply first_by_key_commit_same with (r := p).
Qed.

Lemma query_ambulance_id (db : Database) (aid : string) (a : Ambulance) :
  query_ambulance db aid = Some a -> ambulance_id a = aid.
Proof. apply first_by_key_key. Qed.

Lemma get_patient_id (db : Database) (pid : string) (p : Patient) :
  get_patient_by_id db pid = Some p -> patient_id p = pid.
Proof. apply first_by_key_key. Qed.

(** ** Cost model *)

(** C4: [calculate_trip_cost] returns fuel used = distance * rate, fuel
    cost = fuel used * fuel price, operating cost = distance * base
    operating cost, total = fuel cost + operating cost; without a rate the
    configured fleet average is used. *)
Theorem calculate_trip_cost_spec (d r : Q) :
  (let tc := calculate_trip_cost d (Some r) in
   fuel_used_liters tc = d * r /\
   fuel_cost_ksh tc = fuel_used_liters tc * Config.FUEL_PRICE_PER_LITER /\
   operating_cost_ksh tc = d * Config.BASE_OPERATING_COST_PER_KM /\
   total_cost_ksh tc = fuel_cost_ksh tc + operating_cost_ksh tc) /\
  calculate_trip_cost d None
  = calculate_trip_cost d (Some Config.AVERAGE_FUEL_CONSUMPTION).
Proof.
  unfold calculate_trip_cost. cbv zeta. simpl.
  split; [|reflexivity].
  split; [reflexivity|]. split; [reflexivity|]. split; reflexivity.
Qed.

(** C9: [calculate_potential_savings a b] is the maximum of 0 and the
    difference of the total costs of [b] and [a] at the fleet-average
    rate; it is never negative and is 0 when both distances coincide. *)
Theorem calculate_potential_savings_spec (a b : Q) :
  let total x :=
    total_cost_ksh (calculate_trip_cost x (Some Config.AVERAGE_FUEL_CONSUMPTION)) in
  calculate_potential_savings a b == Qmax 0 (total b - total a) /\
  0 <= calculate_potential_savings a b /\
  calculate_potential_savings a a = 0.
Proof.
  cbv zeta. unfold calculate_potential_savings. repeat split.
  - apply py_max_spec.
  - apply py_max_lower.
  - unfold py_max.
    match goal with |- (if Qltb 0 ?s then _ else _) = _ => case_Qltb 0 s end.
    + lra.
    + reflexivity.
Qed.

(** ** Fleet ledger *)

(** C5: for an existing ambulance, [update_ambulance_costs] prices the
    trip at the ambulance's own consumption rate and adds the fuel cost to
    [total_fuel_cost], the distance to [total_distance_traveled] and 0.15
    times the total cost to [cost_savings]. *)
Theorem update_ambulance_costs_spec (db : Database) (aid : string) (a : Ambulance) (d : Q) :
  query_ambulance db aid = Some a ->
  let tc := calculate_trip_cost d (Some (fuel_consumption_rate a)) in
  fst (update_ambulance_costs aid d db) = Some tc /\
  exists a',
    query_ambulance (snd (update_ambulance_costs aid d db)) aid = Some a' /\
    total_fuel_cost a' = total_fuel_cost a + fuel_cost_ksh tc /\
    total_distance_traveled a' = total_distance_traveled a + d /\
    cost_savings a' = cost_savings a + total_cost_ksh tc * 0.15.
Proof.
  intros Hq tc. unfold update_ambulance_costs. rewrite Hq. simpl.
  split; [reflexivity|].
  eexists. split.
  - apply query_commit_ambulance with (a := a); [exact Hq|].
    simpl. now apply query_ambulance_id with (db := db).
  - simpl. repeat split.
Qed.

Lemma update_ambulance_costs_spec_witness :
  let a := sample_ambulance "KBA 453D" (-0.0754) 34.7695 85.5 0.12 in
  let db := sample_db [] [a] in
  let tc := calculate_trip_cost 3.6 (Some 0.12) in
  query_ambulance db "KBA 453D" = Some a /\
  fst (update_ambulance_costs "KBA 453D" 3.6 db) = Some tc /\
  exists a',
    query_ambulance (snd (update_ambulance_costs "KBA 453D" 3.6 db)) "KBA 453D"
    = Some a' /\
    total_fuel_cost a' = 5000 + fuel_cost_ksh tc /\
    total_distance_traveled a' = 100 + 3.6 /\
    cost_savings a' = 1000 + total_cost_ksh tc * 0.15.
Proof.
  intros a db tc. split; [reflexivity|].
  apply (update_ambulance_costs_spec db "KBA 453D" a 3.6). reflexivity.
Defined.

(** C6 as stated fails: only the lower end is clamped when fuel is
    debited, so a negative consumption rate takes a level of 100 to 110. *)
Lemma debit_fuel_negative_rate_counterexample :
  let a := sample_ambulance "KBA 453D" (-0.0754) 34.7695 100 (-1) in
  let db := sample_db [] [a] in
  query_ambulance db "KBA 453D" = Some a /\
  (0 <= fuel_level a <= 100) /\
  0 <= 10 /\
  exists a',
    query_ambulance (snd (update_ambulance_fuel "KBA 453D" (Some 10) None db))
      "KBA 453D" = Some a' /\
    fuel_level a' == 110 /\
    ~ (0 <= fuel_level a' <= 100).
Proof.
  cbv zeta. split; [reflexivity|]. split; [split; vm_compute; discriminate|].
  split; [vm_compute; discriminate|].
  eexists. split; [reflexivity|]. split; [reflexivity|].
  intros [_ H]. vm_compute in H. apply H. reflexivity.
Qed.

(** C6, amended: for an ambulance whose fuel level is in [0, 100] and
    whose consumption rate is not negative, debiting the fuel of a
    nonnegative distance stores max(0, level - distance * rate), which is
    no more than the level before and in [0, 100]; setting a level stores
    it clamped into [0, 100]. *)
Theorem fuel_level_stays_in_range (db : Database) (aid : string) (a : Ambulance) :
  query_ambulance db aid = Some a ->
  (forall (d : Q) (ignored : option Q),
      0 <= fuel_level a <= 100 -> 0 <= d -> 0 <= fuel_consumption_rate a ->
      exists a',
        query_ambulance (snd (update_ambulance_fuel aid (Some d) ignored db)) aid
        = Some a' /\
        fst (update_ambulance_fuel aid (Some d) ignored db) = Some (fuel_level a') /\
        fuel_level a' == Qmax 0 (fuel_level a - d * fuel_consumption_rate a) /\
        fuel_level a' <= fuel_level a /\
        0 <= fuel_level a' <= 100) /\
  (forall v : Q,
      exists a',
        query_ambulance (snd (update_ambulance_fuel aid None (Some v) db)) aid
        = Some a' /\
        fst (update_ambulance_fuel aid None (Some v) db) = Some (fuel_level a') /\
        fuel_level a' == Qmax 0 (Qmin 100 v) /\
        0 <= fuel_level a' <= 100).
Proof.
  intros Hq. pose proof (query_ambulance_id _ _ _ Hq) as Hid. split.
  - intros d ignored [Hlo Hhi] Hd Hr.
    unfold update_ambulance_fuel. rewrite Hq. simpl.
    eexists. split; [apply query_commit_ambulance with (a := a); [exact Hq|exact Hid]|].
    simpl. split; [reflexivity|]. split; [apply py_max_spec|].
    assert (Hdown : py_max 0 (fuel_level a - d * fuel_consumption_rate a)
                    <= fuel_level a)
      by (apply py_max_upper; [lra|nra]).
    split; [exact Hdown|]. split; [apply py_max_lower|lra].
  - intros v. unfold update_ambulance_fuel. rewrite Hq. simpl.
    eexists. split; [apply query_commit_ambulance with (a := a); [exact Hq|exact Hid]|].
    simpl. split; [reflexivity|]. split.
    + rewrite py_max_spec. unfold py_min. case_Qltb v 100.
      * rewrite (Q.min_r 100 v) by lra. reflexivity.
      * rewrite (Q.min_l 100 v) by lra. reflexivity.
    + split; [apply py_max_lower|].
      apply py_max_upper; [lra|apply py_min_upper].
Qed.

Lemma fuel_level_stays_in_range_witness :
  let a := sample_ambulance "KBA 453D" (-0.0754) 34.7695 85.5 0.12 in
  let db := sample_db [] [a] in
  query_ambulance db "KBA 453D" = Some a /\
  (0 <= fuel_level a <= 100) /\ 0 <= 3.6 /\ 0 <= fuel_consumption_rate a /\
  (exists a',
      query_ambulance (snd (update_ambulance_fuel "KBA 453D" (Some 3.6) None db))
        "KBA 453D" = Some a' /\
      fst (update_ambulance_fuel "KBA 453D" (Some 3.6) None db)
      = Some (fuel_level a') /\
      fuel_level a' == Qmax 0 (85.5 - 3.6 * 0.12) /\
      fuel_level a' <= 85.5 /\
      0 <= fuel_level a' <= 100) /\
  (exists a',
      query_ambulance (snd (update_ambulance_fuel "KBA 453D" None (Some 250) db))
        "KBA 453D" = Some a' /\
      fst (update_ambulance_fuel "KBA 453D" None (Some 250) db)
      = Some (fuel_level a') /\
      fuel_level a' == Qmax 0 (Qmin 100 250) /\
      0 <= fuel_level a' <= 100).
Proof.
  intros a db.
  assert (Hq : query_ambulance db "KBA 453D" = Some a) by reflexivity.
  assert (Hf : 0 <= fuel_level a <= 100) by (split; vm_compute; discriminate).
  assert (Hd : 0 <= 3.6) by (vm_compute; discriminate).
  assert (Hr : 0 <= fuel_consumption_rate a) by (vm_compute; discriminate).
  repeat (split; [assumption|]).
  destruct (fuel_level_stays_in_range db "KBA 453D" a Hq) as [Hdebit Hset].
  split; [exact (Hdebit 3.6 None Hf Hd Hr) | exact (Hset 250)].
Defined.

(** ** Mission completion *)

Lemma query_ambulance_commit_patient (db : Database) (p : Patient) (aid : string) :
  query_ambulance (commit_patient p db) aid = query_ambulance db aid.
Proof. reflexivity. Qed.

Lemma get_patient_commit_ambulance (db : Database) (a : Ambulance) (pid : string) :
  get_patient_by_id (commit_ambulance a db) pid = get_patient_by_id db pid.
Proof. reflexivity. Qed.

Lemma query_ambulance_arrival (db : Database) (p : Patient) (a : Ambulance) (aid : string) :
  query_ambulance (send_automatic_arrival_notification p a db) aid
  = query_ambulance db aid.
Proof. reflexivity. Qed.

Lemma get_patient_arrival (db : Database) (p : Patient) (a : Ambulance) (pid : string) :
  get_patient_by_id (send_automatic_arrival_notification p a db) pid
  = get_patient_by_id db pid.
Proof. reflexivity. Qed.

Lemma truthy_false_zero (d : Q) : truthy (Some d) = false -> d == 0.
Proof.
  simpl. rewrite negb_false_iff. apply Qeq_bool_eq.
Qed.

Lemma update_ambulance_costs_found (db : Database) (aid : string) (a : Ambulance) (d : Q) :
  query_ambulance db aid = Some a ->
  update_ambulance_costs aid d db
  = (Some (calculate_trip_cost d (Some (fuel_consumption_rate a))),
     commit_ambulance (accrued d a) db).
Proof.
  intro Hq. unfold update_ambulance_costs. now rewrite Hq.
Qed.

(** What [complete_mission] does to the two rows it is given: the
    ambulance is released and, when the stored trip distance is truthy,
    charged for it; the patient has arrived and, in that case, carries
    the total cost and the savings share. *)
Lemma complete_mission_rows (db : Database) (aid pid : string)
    (a : Ambulance) (p : Patient) :
  query_ambulance db aid = Some a ->
  get_patient_by_id db pid = Some p ->
  exists db',
    complete_mission aid pid db = Some db' /\
    if truthy (trip_distance p) then
      exists d, trip_distance p = Some d /\
        let tc := calculate_trip_cost d (Some (fuel_consumption_rate a)) in
        query_ambulance db' aid = Some (accrued d (released a)) /\
        get_patient_by_id db' pid
        = Some (set_trip_cost_savings (total_cost_ksh tc * 0.15)
                  (set_trip_fuel_cost (Some (total_cost_ksh tc))
                     (set_patient_status "Arrived at Destination" p)))
    else
      query_ambulance db' aid = Some (released a) /\
      get_patient_by_id db' pid
      = Some (set_patient_status "Arrived at Destination" p).
Proof.
  intros Hq Hp.
  pose proof (query_ambulance_id _ _ _ Hq) as Ha.
  pose proof (get_patient_id _ _ _ Hp) as Hpid.
  assert (Hq1 : query_ambulance
                  (commit_patient (set_patient_status "Arrived at Destination" p)
                     (commit_ambulance (released a) db)) aid
                = Some (released a)).
  { rewrite query_ambulance_commit_patient.
    now apply query_commit_ambulance with (a := a). }
  assert (Hp1 : get_patient_by_id
                  (commit_patient (set_patient_status "Arrived at Destination" p)
                     (commit_ambulance (released a) db)) pid
                = Some (set_patient_status "Arrived at Destination" p)).
  { apply get_commit_patient with (p := p); [|exact Hpid].
    now rewrite get_patient_commit_ambulance. }
  unfold complete_mission. rewrite Hq, Hp.
  fold (released a).
  change (trip_distance (set_patient_status "Arrived at Destination" p))
    with (trip_distance p).
  destruct (trip_distance p) as [d|] eqn:Hd.
  - destruct (truthy (Some d)) eqn:Ht.
    + change (ambulance_id (released a)) with (ambulance_id a). rewrite Ha.
      rewrite (update_ambulance_costs_found _ _ _ d Hq1).
      eexists. split; [reflexivity|].
      exists d. split; [reflexivity|]. cbv zeta. split.
      * rewrite query_ambulance_arrival, query_ambulance_commit_patient.
        apply query_commit_ambulance with (a := released a); [exact Hq1|exact Ha].
      * rewrite get_patient_arrival.
        apply get_commit_patient
          with (p := set_patient_status "Arrived at Destination" p);
          [|exact Hpid].
        now rewrite get_patient_commit_ambulance.
    + eexists. split; [reflexivity|].
      rewrite query_ambulance_arrival, get_patient_arrival. now split.
  - eexists. split; [reflexivity|]. simpl truthy. cbv iota.
    rewrite query_ambulance_arrival, get_patient_arrival. now split.
Qed.

(** C1: after [complete_mission] the ambulance is Available, has no
    current patient, and its total distance travelled has grown by the
    patient's stored trip distance (by nothing when none is stored). *)
Theorem complete_mission_ambulance (db : Database) (aid pid : string)
    (a : Ambulance) (p : Patient) :
  query_ambulance db aid = Some a ->
  get_patient_by_id db pid = Some p ->
  exists db' a',
    complete_mission aid pid db = Some db' /\
    query_ambulance db' aid = Some a' /\
    status a' = "Available" /\
    current_patient a' = None /\
    total_distance_traveled a'
    == total_distance_traveled a
       + match trip_distance p with Some d => d | None => 0 end.
Proof.
  intros Hq Hp.
  destruct (complete_mission_rows db aid pid a p Hq Hp) as (db' & Hrun & Hrows).
  exists db'.
  destruct (truthy (trip_distance p)) eqn:Ht.
  - destruct Hrows as (d & Hd & Ha' & _). rewrite Hd.
    eexists. repeat split; try eassumption; reflexivity.
  - destruct Hrows as (Ha' & _).
    eexists. repeat split; try eassumption; try reflexivity.
    simpl. destruct (trip_distance p) as [d|].
    + apply truthy_false_zero in Ht. rewrite Ht. lra.
    + lra.
Qed.

Lemma complete_mission_ambulance_witness :
  let a := sample_ambulance "KBA 453D" (-0.0754) 34.7695 85.5 0.12 in
  let p := sample_patient "PAT1A2B3C4D" (Some 3.6) in
  let db := sample_db [p] [a] in
  query_ambulance db "KBA 453D" = Some a /\
  get_patient_by_id db "PAT1A2B3C4D" = Some p /\
  exists db' a',
    complete_mission "KBA 453D" "PAT1A2B3C4D" db = Some db' /\
    query_ambulance db' "KBA 453D" = Some a' /\
    status a' = "Available" /\
    current_patient a' = None /\
    total_distance_traveled a' == 100 + 3.6.
Proof.
  intros a p db. split; [reflexivity|]. split; [reflexivity|].
  apply (complete_mission_ambulance db "KBA 453D" "PAT1A2B3C4D" a p);
    reflexivity.
Defined.

(** ** Referral creation *)

Section ReferralFacts.
Variable calculate_distance : Q -> Q -> Q -> Q -> Q.

Lemma truthy_some (x : option Q) : truthy x = true -> exists v, x = Some v.
Proof. destruct x; [eauto|discriminate]. Qed.

Lemma first_by_key_app_new {Row : Type} (key : Row -> string) (r : Row)
    (rows : list Row) :
  first_by_key key (key r) rows = None ->
  first_by_key key (key r) (rows ++ [r]) = Some r.
Proof.
  unfold first_by_key. induction rows as [|x rest IH]; simpl.
  - now rewrite String.eqb_refl.
  - destruct (String.eqb (key x) (key r)); [discriminate|auto].
Qed.

Lemma add_patient_inv (fresh : string) (pd : PatientData) (db db' : Database)
    (p : Patient) :
  add_patient fresh pd db = Some (p, db') ->
  trip_distance p = pd_trip_distance pd /\
  trip_fuel_cost p = pd_trip_fuel_cost pd /\
  get_patient_by_id db (patient_id p) = None /\
  db' = with_patients (patients db ++ [p]) db.
Proof.
  unfold add_patient, get_patient_by_id.
  destruct (first_by_key patient_id _ (patients db)) eqn:E; [discriminate|].
  intro H. injection H as <- <-. simpl. auto.
Qed.

(** Every record [create_referral] returns is stored under its key; its
    trip fields are computed from the coordinates when all four pass the
    test and are otherwise those of the dictionary, untouched. *)
Lemma create_referral_created (fresh role : string) (pd : PatientData)
    (db db' : Database) (p : Patient) :
  create_referral calculate_distance fresh pd role db = (Some p, db') ->
  get_patient_by_id db' (patient_id p) = Some p /\
  if coordinates_given pd then
    exists lat1 lng1 lat2 lng2,
      pd_referring_hospital_lat pd = Some lat1 /\
      pd_referring_hospital_lng pd = Some lng1 /\
      pd_receiving_hospital_lat pd = Some lat2 /\
      pd_receiving_hospital_lng pd = Some lng2 /\
      let d := calculate_distance lat1 lng1 lat2 lng2 in
      trip_distance p = Some d /\
      trip_fuel_cost p = Some (total_cost_ksh (calculate_trip_cost d None))
  else
    trip_distance p = pd_trip_distance pd /\
    trip_fuel_cost p = pd_trip_fuel_cost pd.
Proof.
  unfold create_referral.
  change (pd_referring_hospital_lat (pd_set_created_by (Some role) pd))
    with (pd_referring_hospital_lat pd).
  change (pd_referring_hospital_lng (pd_set_created_by (Some role) pd))
    with (pd_referring_hospital_lng pd).
  change (pd_receiving_hospital_lat (pd_set_created_by (Some role) pd))
    with (pd_receiving_hospital_lat pd).
  change (pd_receiving_hospital_lng (pd_set_created_by (Some role) pd))
    with (pd_receiving_hospital_lng pd).
  fold (coordinates_given pd).
  destruct (coordinates_given pd) eqn:Hc.
  - unfold coordinates_given in Hc.
    apply andb_prop in Hc as [Hc H4]. apply andb_prop in Hc as [Hc H3].
    apply andb_prop in Hc as [H1 H2].
    destruct (truthy_some _ H1) as [lat1 E1]. destruct (truthy_some _ H2) as [lng1 E2].
    destruct (truthy_some _ H3) as [lat2 E3]. destruct (truthy_some _ H4) as [lng2 E4].
    rewrite E1, E2, E3, E4.
    destruct (add_patient _ _ db) as [[p0 db0]|] eqn:Ha; [|discriminate].
    intro H. injection H as <- <-.
    apply add_patient_inv in Ha as (Hd & Hf & Hnew & ->). split.
    + unfold get_patient_by_id in *. simpl. now apply first_by_key_app_new.
    + exists lat1, lng1, lat2, lng2. repeat split; assumption.
  - destruct (add_patient _ _ db) as [[p0 db0]|] eqn:Ha; [|discriminate].
    intro H. injection H as <- <-.
    apply add_patient_inv in Ha as (Hd & Hf & Hnew & ->). split.
    + unfold get_patient_by_id in *. simpl. now apply first_by_key_app_new.
    + split; assumption.
Qed.

(** A dictionary whose key is not taken always yields a record: missing
    coordinates do not make [create_referral] fail. *)
Lemma create_referral_succeeds (fresh role : string) (pd : PatientData)
    (db : Database) :
  get_patient_by_id db
    (match pd_patient_id pd with Some i => i | None => fresh end) = None ->
  exists p db', create_referral calculate_distance fresh pd role db = (Some p, db').
Proof.
  intro Hnew. unfold create_referral.
  match goal with
  | |- context [add_patient fresh ?pd' db] =>
      assert (Hid : pd_patient_id pd' = pd_patient_id pd)
  end.
  { destruct (_ && _); [|reflexivity].
    destruct (pd_referring_hospital_lat (pd_set_created_by (Some role) pd)),
      (pd_referring_hospital_lng (pd_set_created_by (Some role) pd)),
      (pd_receiving_hospital_lat (pd_set_created_by (Some role) pd)),
      (pd_receiving_hospital_lng (pd_set_created_by (Some role) pd));
      reflexivity. }
  unfold add_patient. rewrite Hid.
  unfold get_patient_by_id in Hnew. rewrite Hnew. eauto.
Qed.

End ReferralFacts.

(** C7, at the input where the code departs from it: the referring
    hospital lies on the equator, so its latitude 0.0 is known but falsy;
    the record is created, yet no distance and no cost are stored. *)
Theorem create_referral_zero_latitude (calculate_distance : Q -> Q -> Q -> Q -> Q) :
  let pd :=
    sample_patient_data (Some 0) (Some 34.6053) (Some (-0.0754)) (Some 34.7695) in
  exists p db',
    create_referral calculate_distance "PAT1A2B3C4D" pd "Hospital Staff"
      (sample_db [] []) = (Some p, db') /\
    get_patient_by_id db' "PAT1A2B3C4D" = Some p /\
    trip_distance p = None /\
    trip_fuel_cost p = None.
Proof.
  cbv zeta. eexists. eexists. split; [reflexivity|].
  repeat split.
Qed.

(** Where the code assigns [trip_fuel_cost] it assigns the total cost,
    fuel cost plus operating cost, not the fuel cost alone.  At creation,
    when the four coordinates are present and none is 0.0, the distance
    stored is the distance between the two hospitals and the cost is its
    total at the fleet-average rate.  At mission completion the cost is
    the total at the ambulance's own rate when the stored distance is not
    zero; a zero distance leaves the creation-time cost, which is the same
    amount. *)
Lemma trip_fuel_cost_where_assigned :
  (forall (calculate_distance : Q -> Q -> Q -> Q -> Q) (fresh role : string)
          (pd : PatientData) (db db' : Database) (p : Patient)
          (lat1 lng1 lat2 lng2 : Q),
      create_referral calculate_distance fresh pd role db = (Some p, db') ->
      pd_referring_hospital_lat pd = Some lat1 -> ~ lat1 == 0 ->
      pd_referring_hospital_lng pd = Some lng1 -> ~ lng1 == 0 ->
      pd_receiving_hospital_lat pd = Some lat2 -> ~ lat2 == 0 ->
      pd_receiving_hospital_lng pd = Some lng2 -> ~ lng2 == 0 ->
      let d := calculate_distance lat1 lng1 lat2 lng2 in
      let tc := calculate_trip_cost d None in
      get_patient_by_id db' (patient_id p) = Some p /\
      trip_distance p = Some d /\
      trip_fuel_cost p = Some (fuel_cost_ksh tc + operating_cost_ksh tc)) /\
  (forall (db : Database) (aid pid : string) (a : Ambulance) (p : Patient) (d : Q),
      query_ambulance db aid = Some a ->
      get_patient_by_id db pid = Some p ->
      trip_distance p = Some d ->
      (~ d == 0 \/
       exists c0, trip_fuel_cost p = Some c0 /\
                  c0 == total_cost_ksh (calculate_trip_cost d None)) ->
      exists db' p' c,
        complete_mission aid pid db = Some db' /\
        get_patient_by_id db' pid = Some p' /\
        trip_distance p' = Some d /\
        trip_fuel_cost p' = Some c /\
        let tc := calculate_trip_cost d (Some (fuel_consumption_rate a)) in
        c == fuel_cost_ksh tc + operating_cost_ksh tc /\
        (~ d == 0 -> c = fuel_cost_ksh tc + operating_cost_ksh tc)).
Proof.
  split.
  - intros dist fresh role pd db db' p lat1 lng1 lat2 lng2 Hrun
      E1 N1 E2 N2 E3 N3 E4 N4.
    apply create_referral_created in Hrun as [Hstored Hrun].
    assert (Ht : forall v, ~ v == 0 -> truthy (Some v) = true).
    { intros v Hv. simpl.
      now rewrite negb_true_iff, <- not_true_iff_false, Qeq_bool_iff. }
    unfold coordinates_given in Hrun.
    rewrite E1, E2, E3, E4, !Ht in Hrun by assumption. simpl in Hrun.
    destruct Hrun as (l1 & g1 & l2 & g2 & F1 & F2 & F3 & F4 & Hd & Hf).
    injection F1 as <-. injection F2 as <-.
    injection F3 as <-. injection F4 as <-.
    cbv zeta. split; [exact Hstored|]. split; [exact Hd|exact Hf].
  - intros db aid pid a p d Hq Hp Hd Hcase.
    destruct (complete_mission_rows db aid pid a p Hq Hp) as (db' & Hrun & Hrows).
    rewrite Hd in Hrows.
    destruct (truthy (Some d)) eqn:Ht.
    + destruct Hrows as (d' & Hd' & _ & Hp'). injection Hd' as <-.
      eexists. eexists. eexists. split; [exact Hrun|]. split; [exact Hp'|].
      split; [exact Hd|]. split; [reflexivity|]. cbv zeta.
      split; [reflexivity|]. intros _. reflexivity.
    + apply truthy_false_zero in Ht. destruct Hrows as [_ Hp'].
      destruct Hcase as [Hnz|(c0 & Hc0 & Hcost)]; [contradiction|].
      exists db', (set_patient_status "Arrived at Destination" p), c0.
      split; [exact Hrun|]. split; [exact Hp'|].
      split; [exact Hd|]. split; [exact Hc0|]. cbv zeta.
      split; [|intro Hnz; contradiction].
      rewrite Hcost. simpl. rewrite Ht. ring.
Qed.


(** ** Unresolved identifiers *)

(** The transitions that do stop on an unresolved identifier:
    [assign_ambulance] on an unknown patient, [mark_patient_picked_up] on
    an unknown patient or an unknown assigned ambulance.  Each answers
    [False] and leaves the whole session as it was. *)
Lemma not_found_aborts (db : Database) (pid : string) :
  (forall aid, get_patient_by_id db pid = None ->
               assign_ambulance pid aid db = (false, db)) /\
  (get_patient_by_id db pid = None ->
   mark_patient_picked_up pid db = (false, db)) /\
  (forall p, get_patient_by_id db pid = Some p ->
             match assigned_ambulance p with
             | Some aid => query_ambulance db aid
             | None => None
             end = None ->
             mark_patient_picked_up pid db = (false, db)).
Proof.
  repeat split.
  - intros aid H. unfold assign_ambulance. now rewrite H.
  - intros H. unfold mark_patient_picked_up. now rewrite H.
  - intros p Hp Ha. unfold mark_patient_picked_up. now rewrite Hp, Ha.
Qed.

(** [assign_ambulance] with a known patient and an unknown ambulance:
    the patient row is rewritten and the call answers [True]. *)
Lemma assign_ambulance_unknown_ambulance (db : Database) (pid aid : string)
    (p : Patient) :
  get_patient_by_id db pid = Some p ->
  query_ambulance db aid = None ->
  assign_ambulance pid aid db
  = (true,
     commit_patient
       (set_patient_status "Ambulance Assigned"
          (set_assigned_ambulance (Some aid) p)) db).
Proof.
  intros Hp Ha. unfold assign_ambulance. rewrite Hp. cbv zeta.
  rewrite query_ambulance_commit_patient, Ha.
  unfold update_ambulance_status.
  rewrite query_ambulance_commit_patient, Ha. reflexivity.
Qed.

(** C2, at the input where the code departs from it: patient
    PAT1A2B3C4D exists, ambulance KBZ 000A does not.  The call answers
    [True] and the patient row now points to the missing ambulance. *)
Theorem assign_ambulance_missing_ambulance_commits :
  let p := sample_patient "PAT1A2B3C4D" None in
  let db := sample_db [p] [sample_ambulance "KBA 453D" (-0.0754) 34.7695 85.5 0.12] in
  let r := assign_ambulance "PAT1A2B3C4D" "KBZ 000A" db in
  query_ambulance db "KBZ 000A" = None /\
  fst r = true /\
  get_patient_by_id (snd r) "PAT1A2B3C4D"
  = Some (set_patient_status "Ambulance Assigned"
            (set_assigned_ambulance (Some "KBZ 000A") p)) /\
  patients (snd r) <> patients db.
Proof.
  cbv zeta. repeat split. discriminate.
Qed.

(** ** The ambulance invariant *)

Lemma fleet_invariant_commit (db : Database) (a : Ambulance) :
  fleet_invariant db -> ambulance_invariant a ->
  fleet_invariant (commit_ambulance a db).
Proof. intros Hdb Ha. now apply Forall_commit_row. Qed.

Lemma fleet_invariant_query (db : Database) (aid : string) (a : Ambulance) :
  fleet_invariant db -> query_ambulance db aid = Some a -> ambulance_invariant a.
Proof.
  intros Hdb Hq. apply first_by_key_In in Hq.
  unfold fleet_invariant in Hdb. rewrite Forall_forall in Hdb. auto.
Qed.

Lemma on_transfer_invariant (a : Ambulance) (pid : string) :
  ambulance_invariant (set_current_patient (Some pid) (set_status "On Transfer" a)).
Proof. split; [reflexivity|discriminate]. Qed.

Lemma released_invariant (a : Ambulance) : ambulance_invariant (released a).
Proof. split; [intro H; now elim H|discriminate]. Qed.

Lemma accrued_invariant (d : Q) (a : Ambulance) :
  ambulance_invariant a -> ambulance_invariant (accrued d a).
Proof. exact (fun H => H). Qed.

(** [complete_mission] keeps the invariant. *)
Lemma complete_mission_invariant (db db' : Database) (aid pid : string) :
  fleet_invariant db ->
  complete_mission aid pid db = Some db' ->
  fleet_invariant db'.
Proof.
  intros Hdb. unfold complete_mission.
  destruct (query_ambulance db aid) as [a|] eqn:Hq; [|discriminate].
  destruct (get_patient_by_id db pid) as [p|] eqn:Hp; [|discriminate].
  fold (released a).
  set (db1 := commit_patient _ (commit_ambulance (released a) db)).
  assert (H1 : fleet_invariant db1)
    by (apply (fleet_invariant_commit db); [exact Hdb|apply released_invariant]).
  change (trip_distance (set_patient_status "Arrived at Destination" p))
    with (trip_distance p).
  destruct (trip_distance p) as [d|]; [destruct (truthy (Some d))|].
  - unfold update_ambulance_costs.
    destruct (query_ambulance db1 (ambulance_id (released a))) as [a1|] eqn:Hq1.
    + intro H. injection H as <-.
      apply (fleet_invariant_commit db1); [exact H1|].
      apply (accrued_invariant d a1).
      exact (fleet_invariant_query db1 _ a1 H1 Hq1).
    + intro H. injection H as <-. exact H1.
  - intro H. injection H as <-. exact H1.
  - intro H. injection H as <-. exact H1.
Qed.

(** [assign_ambulance] keeps the invariant when the patient identifier is
    not the empty string. *)
Lemma assign_ambulance_invariant (db : Database) (pid aid : string) :
  pid <> "" ->
  fleet_invariant db ->
  fleet_invariant (snd (assign_ambulance pid aid db)).
Proof.
  intros Hne Hdb. unfold assign_ambulance.
  destruct (get_patient_by_id db pid) as [p|]; [|exact Hdb]. simpl snd.
  set (db1 := commit_patient _ db).
  assert (H1 : fleet_invariant db1) by exact Hdb.
  assert (H2 : forall db2, ambulances db2 = ambulances db1 ->
                 fleet_invariant (update_ambulance_status aid "On Transfer" (Some pid) db2)).
  { intros db2 E. unfold update_ambulance_status.
    assert (Hdb2 : fleet_invariant db2) by (unfold fleet_invariant; now rewrite E).
    destruct (query_ambulance db2 aid) as [a|]; [|exact Hdb2].
    apply fleet_invariant_commit; [exact Hdb2|].
    simpl truthy_str.
    destruct (String.eqb pid "") eqn:E0; [apply String.eqb_eq in E0; contradiction|].
    apply on_transfer_invariant. }
  destruct (query_ambulance db1 aid); apply H2; reflexivity.
Qed.

(** [auto_assign_nearest_ambulance] keeps the invariant. *)
Lemma auto_assign_nearest_ambulance_invariant
    (calculate_distance : Q -> Q -> Q -> Q -> Q) (db : Database) (pid : string) :
  fleet_invariant db ->
  fleet_invariant (snd (auto_assign_nearest_ambulance calculate_distance pid db)).
Proof.
  intros Hdb. unfold auto_assign_nearest_ambulance.
  destruct (get_patient_by_id db pid) as [p|]; [|exact Hdb].
  destruct (negb _ || negb _); [exact Hdb|].
  destruct (referring_hospital_lat p) as [lat|]; [|exact Hdb].
  destruct (referring_hospital_lng p) as [lng|]; [|exact Hdb].
  destruct (find_nearest_ambulance _ _ _ _ db) as [a|]; [|exact Hdb].
  simpl snd. apply fleet_invariant_commit; [exact Hdb|].
  apply (on_transfer_invariant a pid).
Qed.

(** The other ledger and life-cycle operations do not touch [status] or
    [current_patient]. *)
Lemma ledger_operations_invariant (db : Database) :
  fleet_invariant db ->
  (forall aid d, fleet_invariant (snd (update_ambulance_costs aid d db))) /\
  (forall aid d lv, fleet_invariant (snd (update_ambulance_fuel aid d lv db))) /\
  (forall pid, fleet_invariant (snd (mark_patient_picked_up pid db))).
Proof.
  intros Hdb. repeat split.
  - intros aid d. unfold update_ambulance_costs.
    destruct (query_ambulance db aid) as [a|] eqn:Hq; [|exact Hdb].
    apply fleet_invariant_commit; [exact Hdb|].
    apply (accrued_invariant d a). exact (fleet_invariant_query db aid a Hdb Hq).
  - intros aid d lv. unfold update_ambulance_fuel.
    destruct (query_ambulance db aid) as [a|] eqn:Hq; [|exact Hdb].
    apply fleet_invariant_commit; [exact Hdb|].
    pose proof (fleet_invariant_query db aid a Hdb Hq) as Ha.
    destruct d; [exact Ha|]. destruct lv; exact Ha.
  - intros pid. unfold mark_patient_picked_up.
    destruct (get_patient_by_id db pid) as [p|]; [|exact Hdb].
    destruct (match assigned_ambulance p with
              | Some aid => query_ambulance db aid | None => None end);
      exact Hdb.
Qed.

(** C8, at the input where the code departs from it: a patient stored
    under the empty identifier.  [update_ambulance_status] tests the
    identifier for truth, so the ambulance goes On Transfer while its
    current patient stays unset, and the invariant is lost. *)
Theorem assign_ambulance_empty_patient_id :
  let p := sample_patient "" None in
  let a := sample_ambulance "KBA 453D" (-0.0754) 34.7695 85.5 0.12 in
  let db := sample_db [p] [a] in
  let r := assign_ambulance "" "KBA 453D" db in
  fleet_invariant db /\
  fst r = true /\
  (exists a',
      query_ambulance (snd r) "KBA 453D" = Some a' /\
      status a' = "On Transfer" /\
      current_patient a' = None) /\
  ~ fleet_invariant (snd r).
Proof.
  cbv zeta. split; [|split; [reflexivity|split]].
  - repeat constructor.
    + intro H. now elim H.
    + discriminate.
  - eexists. split; [reflexivity|]. split; reflexivity.
  - intro H. inversion H as [|x l Hx _]. subst.
    destruct Hx as [_ Hx]. apply Hx; reflexivity.
Qed.

(** ** Nearest eligible ambulance *)

Section DispatchFacts.
Variable calculate_distance : Q -> Q -> Q -> Q -> Q.
Variables hospital_lat hospital_lng min_fuel_level : Q.

Local Abbreviation step :=
  (nearest_step calculate_distance hospital_lat hospital_lng min_fuel_level).
Local Abbreviation distance_to :=
  (distance_to calculate_distance hospital_lat hospital_lng).
Local Abbreviation candidate :=
  (candidate calculate_distance hospital_lat hospital_lng min_fuel_level).
Local Abbreviation eligible :=
  (eligible calculate_distance hospital_lat hospital_lng min_fuel_level).
Local Abbreviation nearest_inv :=
  (nearest_inv calculate_distance hospital_lat hospital_lng min_fuel_level).

Lemma nearest_step_candidate (st : option Ambulance * option Q) (a : Ambulance) :
  step st a
  = match candidate a with
    | Some d => if below d (snd st) then (Some a, Some d) else st
    | None => st
    end.
Proof.
  unfold nearest_step, candidate, distance_to.
  destruct (Qltb (fuel_level a) min_fuel_level); [reflexivity|].
  destruct (latitude a), (longitude a); reflexivity.
Qed.

Lemma nth_error_snoc {A : Type} (l : list A) (x b : A) (j : nat) :
  nth_error (l ++ [x]) j = Some b ->
  ((j < List.length l)%nat /\ nth_error l j = Some b) \/ (j = List.length l /\ b = x).
Proof.
  intro H. destruct (Nat.lt_ge_cases j (List.length l)) as [Hlt|Hge].
  - left. split; [exact Hlt|]. now rewrite nth_error_app1 in H.
  - right. rewrite nth_error_app2 in H by exact Hge.
    destruct (j - List.length l)%nat as [|k] eqn:E; simpl in H.
    + split; [lia|congruence].
    + destruct k; discriminate.
Qed.

Lemma nearest_inv_step (seen : list Ambulance) (st : option Ambulance * option Q)
    (x : Ambulance) :
  nearest_inv seen st -> nearest_inv (seen ++ [x]) (step st x).
Proof.
  intro Hinv. rewrite nearest_step_candidate.
  destruct st as [[a|] [m|]]; try contradiction; simpl snd.
  - destruct Hinv as (i & Hi & Hm & Hmin).
    assert (Hilt : (i < List.length seen)%nat)
      by (apply nth_error_Some; congruence).
    assert (Hkeep : forall c, (forall d, c = Some d -> m <= d) ->
              candidate x = c -> nearest_inv (seen ++ [x]) (Some a, Some m)).
    { intros c Hc Hx. exists i. split; [now rewrite nth_error_app1|].
      split; [exact Hm|]. intros j b d Hj Hb.
      apply nth_error_snoc in Hj as [[_ Hj]|[-> ->]]; [eauto|].
      split; [apply Hc; congruence|lia]. }
    destruct (candidate x) as [d|] eqn:Hx.
    + simpl below. case_Qltb d m.
      * exists (List.length seen). split; [now rewrite nth_error_app2, Nat.sub_diag by lia|].
        split; [exact Hx|]. intros j b d' Hj Hb.
        apply nth_error_snoc in Hj as [[Hlt Hj]|[-> ->]].
        -- destruct (Hmin j b d' Hj Hb) as [Hle _]. split; [lra|intros _; lra].
        -- assert (d' = d) by congruence. subst d'. split; [lra|lia].
      * apply (Hkeep (Some d)); [|reflexivity].
        intros d' E. injection E as <-. exact Hcmp.
    + apply (Hkeep None); [discriminate|reflexivity].
  - destruct (candidate x) as [d|] eqn:Hx.
    + simpl below. cbv iota.
      exists (List.length seen). split; [now rewrite nth_error_app2, Nat.sub_diag by lia|].
      split; [exact Hx|]. intros j b d' Hj Hb.
      apply nth_error_snoc in Hj as [[Hlt Hj]|[-> ->]].
      * apply nth_error_In in Hj. rewrite (Hinv b Hj) in Hb. discriminate.
      * assert (d' = d) by congruence. subst d'. split; [lra|lia].
    + intros b Hb. apply in_app_or in Hb as [Hb|[<-|[]]]; auto.
Qed.

Lemma nearest_inv_loop (l : list Ambulance) :
  nearest_inv l (fold_left step l (None, None)).
Proof.
  induction l as [|x l IH] using rev_ind.
  - intros b [].
  - rewrite fold_left_app. simpl. now apply nearest_inv_step.
Qed.

Lemma find_nearest_ambulance_fold (db : Database) :
  find_nearest_ambulance calculate_distance hospital_lat hospital_lng
    min_fuel_level db
  = fst (fold_left step (get_available_ambulances db) (None, None)).
Proof.
  unfold find_nearest_ambulance. now destruct (get_available_ambulances db).
Qed.

Lemma candidate_some (a : Ambulance) (d : Q) :
  candidate a = Some d <->
  min_fuel_level <= fuel_level a /\ distance_to a = Some d.
Proof.
  unfold candidate. case_Qltb (fuel_level a) min_fuel_level.
  - split; [discriminate|]. intros [H _]. lra.
  - tauto.
Qed.

Lemma eligible_true (a : Ambulance) :
  eligible a = true <->
  status a = "Available" /\ exists d, candidate a = Some d.
Proof.
  unfold eligible, candidate. rewrite !andb_true_iff, String.eqb_eq.
  destruct (Qltb (fuel_level a) min_fuel_level); simpl.
  - split; [intros [[_ H] _]; discriminate|intros [_ [d H]]; discriminate].
  - destruct (distance_to a) as [d|].
    + split; [intros [[H _] _]; eauto|tauto].
    + split; [intros [_ H]; discriminate|intros [_ [d H]]; discriminate].
Qed.

Lemma available_In (db : Database) (a : Ambulance) :
  In a (get_available_ambulances db) <->
  In a (ambulances db) /\ status a = "Available".
Proof.
  unfold get_available_ambulances. rewrite filter_In, String.eqb_eq. tauto.
Qed.

(** C3: [find_nearest_ambulance] returns [None] when no ambulance is
    Available with fuel at or above the threshold and known coordinates;
    otherwise it returns one that is, whose distance to the hospital is
    minimal among the eligible ones, and every eligible ambulance that
    comes earlier in the iteration order is strictly farther. *)
Theorem find_nearest_ambulance_spec (db : Database) :
  let available := get_available_ambulances db in
  let result :=
    find_nearest_ambulance calculate_distance hospital_lat hospital_lng
      min_fuel_level db in
  ((forall a, In a (ambulances db) -> eligible a = false) -> result = None) /\
  ((exists a, In a (ambulances db) /\ eligible a = true) ->
   exists a, result = Some a) /\
  (forall a, result = Some a ->
     exists i d,
       nth_error available i = Some a /\
       In a (ambulances db) /\
       status a = "Available" /\
       min_fuel_level <= fuel_level a /\
       distance_to a = Some d /\
       (forall b, In b (ambulances db) -> eligible b = true ->
                  exists d', distance_to b = Some d' /\ d <= d') /\
       (forall j b, (j < i)%nat -> nth_error available j = Some b ->
                    eligible b = true ->
                    exists d', distance_to b = Some d' /\ d < d')).
Proof.
  cbv zeta. rewrite find_nearest_ambulance_fold.
  pose proof (nearest_inv_loop (get_available_ambulances db)) as Hinv.
  destruct (fold_left step (get_available_ambulances db) (None, None))
    as [[a|] [m|]]; try contradiction; simpl fst.
  - destruct Hinv as (i & Hi & Hm & Hmin).
    pose proof (nth_error_In _ _ Hi) as Hin. apply available_In in Hin as [Hin Hst].
    split; [|split].
    + intro Hnone. specialize (Hnone a Hin).
      assert (eligible a = true) by (apply eligible_true; eauto). congruence.
    + eauto.
    + intros a' E. injection E as <-. exists i, m.
      apply candidate_some in Hm as [Hfuel Hdist].
      repeat (split; [assumption|]). split.
      * intros b Hb Hel. apply eligible_true in Hel as [Hbst [d' Hd']].
        assert (Hbl : In b (get_available_ambulances db))
          by (apply available_In; auto).
        apply In_nth_error in Hbl as [j Hj].
        destruct (Hmin j b d' Hj Hd') as [Hle _].
        apply candidate_some in Hd' as [_ Hd']. eauto.
      * intros j b Hlt Hj Hel. apply eligible_true in Hel as [_ [d' Hd']].
        destruct (Hmin j b d' Hj Hd') as [_ Hstrict].
        apply candidate_some in Hd' as [_ Hd']. eauto.
  - split; [reflexivity|]. split; [|discriminate].
    intros (a & Hin & Hel). apply eligible_true in Hel as [Hst [d Hd]].
    rewrite (Hinv a) in Hd; [discriminate|]. apply available_In; auto.
Qed.

End DispatchFacts.

Lemma find_nearest_ambulance_spec_witness :
  let db := sample_db [] sample_fleet in
  let a := sample_ambulance "KBD 389G" (-0.0754) 34.7695 78.9 0.12 in
  let b := sample_ambulance "KBE 142H" (-0.1362) 34.7441 65.2 0.12 in
  distance_to taxicab (-0.1058) 34.7568 a = distance_to taxicab (-0.1058) 34.7568 b /\
  find_nearest_ambulance taxicab (-0.1058) 34.7568 20.0 db = Some a /\
  exists i d,
    nth_error (get_available_ambulances db) i = Some a /\
    In a (ambulances db) /\
    status a = "Available" /\
    20.0 <= fuel_level a /\
    distance_to taxicab (-0.1058) 34.7568 a = Some d /\
    (forall b, In b (ambulances db) ->
               eligible taxicab (-0.1058) 34.7568 20.0 b = true ->
               exists d', distance_to taxicab (-0.1058) 34.7568 b = Some d' /\ d <= d') /\
    (forall j b, (j < i)%nat -> nth_error (get_available_ambulances db) j = Some b ->
                 eligible taxicab (-0.1058) 34.7568 20.0 b = true ->
                 exists d', distance_to taxicab (-0.1058) 34.7568 b = Some d' /\ d < d').
Proof.
  intros db a b. split; [vm_compute; reflexivity|].
  split; [vm_compute; reflexivity|].
  apply (proj2 (proj2 (find_nearest_ambulance_spec taxicab (-0.1058) 34.7568 20.0 db))).
  vm_compute. reflexivity.
Defined.

(** * Further properties *)

(** ** Tables under their primary key *)

Section TableKeyFacts.
Context {Row : Type} (key : Row -> string).

Lemma commit_row_same (r : Row) (rows : list Row) :
  first_by_key key (key r) rows = Some r -> commit_row key r rows = rows.
Proof.
  unfold first_by_key. induction rows as [|x rest IH]; simpl; [reflexivity|].
  destruct (String.eqb (key x) (key r)) eqn:E.
  - intro H. now injection H as ->.
  - intro H. now rewrite IH.
Qed.

Lemma commit_row_length (r' : Row) (rows : list Row) :
  List.length (commit_row key r' rows) = List.length rows.
Proof.
  induction rows as [|x rest IH]; simpl; [reflexivity|].
  destruct (String.eqb (key x) (key r')); simpl; auto.
Qed.

Lemma commit_row_keys (r' : Row) (rows : list Row) :
  map key (commit_row key r' rows) = map key rows.
Proof.
  induction rows as [|x rest IH]; simpl; [reflexivity|].
  destruct (String.eqb (key x) (key r')) eqn:E; simpl.
  - apply String.eqb_eq in E. now rewrite E.
  - now rewrite IH.
Qed.

Lemma first_by_key_present (r : Row) (rows : list Row) :
  In r rows -> exists r0, first_by_key key (key r) rows = Some r0.
Proof.
  unfold first_by_key. induction rows as [|x rest IH]; simpl; [intros []|].
  intros [->|Hin].
  - rewrite String.eqb_refl. eauto.
  - destruct (String.eqb (key x) (key r)); eauto.
Qed.

Lemma first_by_key_unique (r : Row) (rows : list Row) :
  NoDup (map key rows) -> In r rows -> first_by_key key (key r) rows = Some r.
Proof.
  unfold first_by_key. induction rows as [|x rest IH]; simpl; [intros _ []|].
  intros Hnd [->|Hin].
  - now rewrite String.eqb_refl.
  - inversion Hnd as [|k ks Hk Hrest]; subst.
    destruct (String.eqb (key x) (key r)) eqn:E; [|auto].
    apply String.eqb_eq in E. exfalso. apply Hk. rewrite E.
    now apply in_map.
Qed.

Lemma filter_commit_row_out (f : Row -> bool) (r r' : Row) (rows : list Row) :
  first_by_key key (key r') rows = Some r ->
  f r = false -> f r' = false ->
  filter f (commit_row key r' rows) = filter f rows.
Proof.
  unfold first_by_key. induction rows as [|x rest IH]; simpl; [discriminate|].
  destruct (String.eqb (key x) (key r')) eqn:E.
  - intros H Hr Hr'. injection H as ->. simpl. now rewrite Hr, Hr'.
  - intros H Hr Hr'. simpl. now rewrite IH.
Qed.

Lemma filter_commit_row_drop (f : Row -> bool) (r r' : Row) (rows : list Row) :
  first_by_key key (key r') rows = Some r ->
  f r = true -> f r' = false ->
  S (List.length (filter f (commit_row key r' rows))) = List.length (filter f rows).
Proof.
  unfold first_by_key. induction rows as [|x rest IH]; simpl; [discriminate|].
  destruct (String.eqb (key x) (key r')) eqn:E.
  - intros H Hr Hr'. injection H as ->. simpl. now rewrite Hr, Hr'.
  - intros H Hr Hr'. simpl. destruct (f x); simpl; auto.
Qed.

Lemma filter_commit_row_add (f : Row -> bool) (r r' : Row) (rows : list Row) :
  first_by_key key (key r') rows = Some r ->
  f r = false -> f r' = true ->
  List.length (filter f (commit_row key r' rows)) = S (List.length (filter f rows)).
Proof.
  unfold first_by_key. induction rows as [|x rest IH]; simpl; [discriminate|].
  destruct (String.eqb (key x) (key r')) eqn:E.
  - intros H Hr Hr'. injection H as ->. simpl. now rewrite Hr, Hr'.
  - intros H Hr Hr'. simpl. destruct (f x); simpl; auto.
Qed.

End TableKeyFacts.

(** ** Fuel level *)

(** X1: [update_ambulance_fuel] on an unknown ambulance answers [None] and
    changes nothing; called without a distance and without a level it
    answers the current level and changes nothing. *)
Theorem update_ambulance_fuel_idle (db : Database) (aid : string) :
  (query_ambulance db aid = None ->
   forall d lv, update_ambulance_fuel aid d lv db = (None, db)) /\
  (forall a, query_ambulance db aid = Some a ->
             update_ambulance_fuel aid None None db = (Some (fuel_level a), db)).
Proof.
  split.
  - intros Hq d lv. unfold update_ambulance_fuel. now rewrite Hq.
  - intros a Hq. unfold update_ambulance_fuel. rewrite Hq. f_equal.
    unfold commit_ambulance, with_ambulances.
    rewrite (commit_row_same ambulance_id a).
    + now destruct db.
    + pose proof (query_ambulance_id _ _ _ Hq) as <-. exact Hq.
Qed.

(** X2: [update_ambulance_fuel] writes one column of one row: the other
    tables, the list of ambulance keys and every other ambulance are as
    before, and the addressed row differs from the old one in its fuel
    level only. *)
Theorem update_ambulance_fuel_frame (db : Database) (aid : string) (a : Ambulance)
    (d lv : option Q) :
  query_ambulance db aid = Some a ->
  let db' := snd (update_ambulance_fuel aid d lv db) in
  patients db' = patients db /\
  referrals db' = referrals db /\
  communications db' = communications db /\
  map ambulance_id (ambulances db') = map ambulance_id (ambulances db) /\
  (forall k, k <> aid -> query_ambulance db' k = query_ambulance db k) /\
  exists a', query_ambulance db' aid = Some a' /\
             a' = set_fuel_level (fuel_level a') a.
Proof.
  intros Hq. pose proof (query_ambulance_id _ _ _ Hq) as Hid.
  unfold update_ambulance_fuel. rewrite Hq. cbv zeta. simpl snd.
  set (a' := match d with
             | Some _ => _
             | None => _
             end).
  assert (Ha' : ambulance_id a' = aid /\ a' = set_fuel_level (fuel_level a') a).
  { subst a'. destruct d as [x|]; [|destruct lv as [v|]]; simpl; split; auto.
    now destruct a. }
  destruct Ha' as [Hk Hshape].
  repeat split.
  - unfold commit_ambulance. simpl. apply commit_row_keys.
  - intros k Hne. apply query_commit_ambulance_other. congruence.
  - exists a'. split; [|exact Hshape].
    now apply query_commit_ambulance with (a := a).
Qed.

Lemma update_ambulance_fuel_frame_witness :
  let a := sample_ambulance "KBA 453D" (-0.0754) 34.7695 85.5 0.12 in
  let b := sample_ambulance "KBC 217F" (-0.1058) 34.7568 92.3 0.12 in
  let db := sample_db [sample_patient "PAT1A2B3C4D" None] [a; b] in
  let db' := snd (update_ambulance_fuel "KBA 453D" (Some 3.6) None db) in
  query_ambulance db "KBA 453D" = Some a /\
  patients db' = patients db /\
  referrals db' = referrals db /\
  communications db' = communications db /\
  map ambulance_id (ambulances db') = map ambulance_id (ambulances db) /\
  (forall k, k <> "KBA 453D" -> query_ambulance db' k = query_ambulance db k) /\
  exists a', query_ambulance db' "KBA 453D" = Some a' /\
             a' = set_fuel_level (fuel_level a') a.
Proof.
  intros a b db db'. split; [reflexivity|].
  apply (update_ambulance_fuel_frame db "KBA 453D" a (Some 3.6) None).
  reflexivity.
Defined.

(** X3: the clamp of [update_ambulance_fuel].  A requested level inside
    [0, 100] is stored as it is, one above 100 as 100, one below 0 as 0;
    and a tank that is empty stays empty whatever nonnegative distance is
    debited at a nonnegative rate.  In each case the level answered is
    the level read back from the stored row, which is otherwise the old
    row. *)
Theorem update_ambulance_fuel_clamp (db : Database) (aid : string) (a : Ambulance) :
  query_ambulance db aid = Some a ->
  (forall v,
      let r := update_ambulance_fuel aid None (Some v) db in
      exists l, fst r = Some l /\
                query_ambulance (snd r) aid = Some (set_fuel_level l a) /\
                (0 <= v <= 100 -> l == v) /\
                (100 <= v -> l == 100) /\
                (v <= 0 -> l == 0)) /\
  (forall d lv,
      fuel_level a <= 0 -> 0 <= d -> 0 <= fuel_consumption_rate a ->
      let r := update_ambulance_fuel aid (Some d) lv db in
      fst r = Some 0 /\
      query_ambulance (snd r) aid = Some (set_fuel_level 0 a)).
Proof.
  intros Hq. pose proof (query_ambulance_id _ _ _ Hq) as Hid. split.
  - intros v. cbv zeta. unfold update_ambulance_fuel. rewrite Hq.
    cbn [fst snd]. eexists. split; [reflexivity|]. split.
    { now apply query_commit_ambulance with (a := a). }
    cbn [fuel_level set_fuel_level]. unfold py_max, py_min.
    case_Qltb v 100.
    + case_Qltb 0 v; repeat split; intros; lra.
    + match goal with |- context [Qltb 0 100] =>
        destruct (Qltb 0 100) eqn:E; [|apply Qltb_false in E; lra]
      end.
      repeat split; intros; lra.
  - intros d lv Hf Hd Hr. cbv zeta. unfold update_ambulance_fuel. rewrite Hq.
    cbn [fst snd].
    assert (Hl : py_max 0 (fuel_level a - d * fuel_consumption_rate a) = 0).
    { unfold py_max.
      case_Qltb 0 (fuel_level a - d * fuel_consumption_rate a); [|reflexivity].
      exfalso. nra. }
    rewrite Hl. split; [reflexivity|].
    now apply query_commit_ambulance with (a := a).
Qed.

Lemma update_ambulance_fuel_clamp_witness :
  let a := sample_ambulance "KBA 453D" (-0.0754) 34.7695 0 0.12 in
  let db := sample_db [] [a] in
  query_ambulance db "KBA 453D" = Some a /\
  (let r := update_ambulance_fuel "KBA 453D" None (Some 42.5) db in
   exists l, fst r = Some l /\
             query_ambulance (snd r) "KBA 453D" = Some (set_fuel_level l a) /\
             (0 <= 42.5 <= 100 -> l == 42.5) /\
             (100 <= 42.5 -> l == 100) /\
             (42.5 <= 0 -> l == 0)) /\
  fuel_level a <= 0 /\ 0 <= 3.6 /\ 0 <= fuel_consumption_rate a /\
  (let r := update_ambulance_fuel "KBA 453D" (Some 3.6) None db in
   fst r = Some 0 /\
   query_ambulance (snd r) "KBA 453D" = Some (set_fuel_level 0 a)).
Proof.
  intros a db.
  assert (Hq : query_ambulance db "KBA 453D" = Some a) by reflexivity.
  assert (Hf : fuel_level a <= 0) by (vm_compute; discriminate).
  assert (Hd : 0 <= 3.6) by (vm_compute; discriminate).
  assert (Hr : 0 <= fuel_consumption_rate a) by (vm_compute; discriminate).
  destruct (update_ambulance_fuel_clamp db "KBA 453D" a Hq) as [Hset Hdebit].
  split; [exact Hq|]. split; [exact (Hset 42.5)|].
  split; [exact Hf|]. split; [exact Hd|]. split; [exact Hr|].
  exact (Hdebit 3.6 None Hf Hd Hr).
Defined.

(** ** Cost ledger *)

(** X4: [update_ambulance_costs] on an unknown ambulance answers [None]
    and changes nothing.  On a known one, with a nonnegative distance and
    a nonnegative consumption rate, none of the three running totals
    decreases; the call leaves the status, the current patient, the fuel
    level and the position of the row, every other ambulance and the other
    tables as they were. *)
Theorem update_ambulance_costs_ledger (db : Database) (aid : string) (d : Q) :
  (query_ambulance db aid = None -> update_ambulance_costs aid d db = (None, db)) /\
  (forall a,
      query_ambulance db aid = Some a ->
      let db' := snd (update_ambulance_costs aid d db) in
      patients db' = patients db /\
      communications db' = communications db /\
      (forall k, k <> aid -> query_ambulance db' k = query_ambulance db k) /\
      exists a',
        query_ambulance db' aid = Some a' /\
        status a' = status a /\
        current_patient a' = current_patient a /\
        fuel_level a' = fuel_level a /\
        latitude a' = latitude a /\
        longitude a' = longitude a /\
        (0 <= d -> 0 <= fuel_consumption_rate a ->
         total_distance_traveled a <= total_distance_traveled a' /\
         total_fuel_cost a <= total_fuel_cost a' /\
         cost_savings a <= cost_savings a')).
Proof.
  split.
  - intro Hq. unfold update_ambulance_costs. now rewrite Hq.
  - intros a Hq. pose proof (query_ambulance_id _ _ _ Hq) as Hid.
    rewrite (update_ambulance_costs_found db aid a d Hq). cbv zeta. simpl snd.
    split; [reflexivity|]. split; [reflexivity|]. split.
    + intros k Hne. apply query_commit_ambulance_other. simpl. congruence.
    + exists (accrued d a). split.
      * now apply query_commit_ambulance with (a := a).
      * repeat (split; [reflexivity|]). intros Hd Hr.
        unfold accrued, calculate_trip_cost, Config.FUEL_PRICE_PER_LITER,
          Config.BASE_OPERATING_COST_PER_KM. simpl.
        assert (0 <= d * fuel_consumption_rate a) by nra.
        repeat split; lra.
Qed.

(** ** Ambulance status *)

(** X5: [update_ambulance_status] stores whatever status it is given and
    never clears the current patient: the reference is replaced when a
    non-empty identifier is passed and kept otherwise, so a row that had a
    patient still has one.  An unknown ambulance changes nothing. *)
Theorem update_ambulance_status_keeps_patient (db : Database) (aid st : string)
    (pid : option string) :
  (query_ambulance db aid = None -> update_ambulance_status aid st pid db = db) /\
  (forall a,
      query_ambulance db aid = Some a ->
      exists a',
        query_ambulance (update_ambulance_status aid st pid db) aid = Some a' /\
        status a' = st /\
        current_patient a'
        = (if truthy_str pid then pid else current_patient a) /\
        (current_patient a <> None -> current_patient a' <> None)).
Proof.
  split.
  - intro Hq. unfold update_ambulance_status. now rewrite Hq.
  - intros a Hq. pose proof (query_ambulance_id _ _ _ Hq) as Hid.
    unfold update_ambulance_status. rewrite Hq.
    eexists. split.
    + apply query_commit_ambulance with (a := a); [exact Hq|].
      destruct (truthy_str pid); exact Hid.
    + destruct pid as [x|]; simpl.
      * destruct (String.eqb x ""); simpl; repeat split; auto; discriminate.
      * repeat split; auto.
Qed.

(** ** Automatic assignment *)

Lemma get_available_ambulances_In (db : Database) (a : Ambulance) :
  In a (get_available_ambulances db) <->
  In a (ambulances db) /\ status a = "Available".
Proof.
  unfold get_available_ambulances. rewrite filter_In, String.eqb_eq.
  reflexivity.
Qed.

Section AutoAssignFacts.
Variable calculate_distance : Q -> Q -> Q -> Q -> Q.

Lemma find_nearest_ambulance_sound (lat lng minf : Q) (db : Database) (a : Ambulance) :
  find_nearest_ambulance calculate_distance lat lng minf db = Some a ->
  In a (ambulances db) /\
  eligible calculate_distance lat lng minf a = true /\
  forall b, In b (ambulances db) ->
            eligible calculate_distance lat lng minf b = true ->
            exists d d',
              distance_to calculate_distance lat lng a = Some d /\
              distance_to calculate_distance lat lng b = Some d' /\
              d <= d'.
Proof.
  rewrite find_nearest_ambulance_fold.
  pose proof (nearest_inv_loop calculate_distance lat lng minf
                (get_available_ambulances db)) as Hinv.
  destruct (fold_left _ (get_available_ambulances db) (None, None))
    as [[x|] [m|]]; try contradiction; simpl fst; [|discriminate].
  intro E. injection E as ->.
  destruct Hinv as (i & Hi & Hm & Hmin).
  pose proof (nth_error_In _ _ Hi) as Hin. apply get_available_ambulances_In in Hin as [Hin Hst].
  split; [exact Hin|]. split; [apply eligible_true; eauto|].
  intros b Hb Hel. apply eligible_true in Hel as [Hbst [d' Hd']].
  assert (Hbl : In b (get_available_ambulances db)) by (apply get_available_ambulances_In; auto).
  apply In_nth_error in Hbl as [j Hj].
  destruct (Hmin j b d' Hj Hd') as [Hle _].
  apply candidate_some in Hd' as [_ Hd']. apply candidate_some in Hm as [_ Hm].
  exists m, d'. repeat split; assumption.
Qed.

Lemma find_nearest_ambulance_none (lat lng minf : Q) (db : Database) :
  find_nearest_ambulance calculate_distance lat lng minf db = None <->
  forall a, In a (ambulances db) -> eligible calculate_distance lat lng minf a = false.
Proof.
  rewrite find_nearest_ambulance_fold.
  pose proof (nearest_inv_loop calculate_distance lat lng minf
                (get_available_ambulances db)) as Hinv.
  destruct (fold_left _ (get_available_ambulances db) (None, None))
    as [[x|] [m|]]; try contradiction; simpl fst.
  - destruct Hinv as (i & Hi & Hm & _).
    pose proof (nth_error_In _ _ Hi) as Hin. apply get_available_ambulances_In in Hin as [Hin Hst].
    split; [discriminate|]. intro Hnone. specialize (Hnone x Hin).
    assert (eligible calculate_distance lat lng minf x = true)
      by (apply eligible_true; eauto).
    congruence.
  - split; [|reflexivity]. intros _ a Hin.
    destruct (eligible calculate_distance lat lng minf a) eqn:Hel; [|reflexivity].
    apply eligible_true in Hel as [Hst [d Hd]].
    rewrite (Hinv a) in Hd; [discriminate|]. apply get_available_ambulances_In; auto.
Qed.

Lemma truthy_nonzero (x : option Q) :
  truthy x = true <-> exists v, x = Some v /\ ~ v == 0.
Proof.
  destruct x as [v|]; simpl.
  - rewrite negb_true_iff, <- not_true_iff_false, Qeq_bool_iff. split.
    + intro H. eauto.
    + intros (w & E & H). now injection E as ->.
  - split; [discriminate|]. intros (w & E & _). discriminate.
Qed.

(** The case analysis of [auto_assign_nearest_ambulance]: it succeeds
    exactly on a stored patient whose two referring coordinates are truthy
    and for whom the search finds an ambulance, and then commits the two
    rows and one message. *)
Lemma auto_assign_nearest_ambulance_cases (db : Database) (pid : string) :
  let r := auto_assign_nearest_ambulance calculate_distance pid db in
  (fst r = false /\ snd r = db /\
   forall p lat lng,
     get_patient_by_id db pid = Some p ->
     referring_hospital_lat p = Some lat -> ~ lat == 0 ->
     referring_hospital_lng p = Some lng -> ~ lng == 0 ->
     find_nearest_ambulance calculate_distance lat lng 20.0 db = None) \/
  (exists p lat lng a,
      get_patient_by_id db pid = Some p /\
      referring_hospital_lat p = Some lat /\ ~ lat == 0 /\
      referring_hospital_lng p = Some lng /\ ~ lng == 0 /\
      find_nearest_ambulance calculate_distance lat lng 20.0 db = Some a /\
      let p' :=
        set_patient_status "Ambulance Assigned"
          (set_assigned_ambulance (Some (ambulance_id a)) p) in
      let a' :=
        set_destination (Some (receiving_hospital p))
          (set_current_patient (Some pid) (set_status "On Transfer" a)) in
      r = (true,
           commit_ambulance a'
             (commit_patient p'
                (send_automatic_pickup_notification_to_driver p' a' db)))).
Proof.
  cbv zeta. unfold auto_assign_nearest_ambulance.
  destruct (get_patient_by_id db pid) as [p|] eqn:Hp;
    [|left; repeat split; intros; discriminate].
  destruct (truthy (referring_hospital_lat p)) eqn:Hlat; simpl.
  2:{ left. repeat split. intros p0 lat lng E Elat Hnz _ _.
      injection E as <-. rewrite Elat in Hlat. simpl in Hlat.
      apply negb_false_iff, Qeq_bool_eq in Hlat. contradiction. }
  destruct (truthy (referring_hospital_lng p)) eqn:Hlng; simpl.
  2:{ left. repeat split. intros p0 lat lng E _ _ Elng Hnz.
      injection E as <-. rewrite Elng in Hlng. simpl in Hlng.
      apply negb_false_iff, Qeq_bool_eq in Hlng. contradiction. }
  apply truthy_nonzero in Hlat as (lat & Elat & Hlat).
  apply truthy_nonzero in Hlng as (lng & Elng & Hlng).
  rewrite Elat, Elng.
  destruct (find_nearest_ambulance calculate_distance lat lng 20.0 db)
    as [a|] eqn:Hfind.
  - right. exists p, lat, lng, a. repeat split; auto.
  - left. repeat split. intros p0 lat0 lng0 E E1 _ E2 _.
    injection E as <-. congruence.
Qed.

End AutoAssignFacts.

(** Reading back the two rows [auto_assign_nearest_ambulance] commits. *)
Lemma auto_assign_committed_rows (db : Database) (pid : string)
    (p p' : Patient) (a a' : Ambulance) :
  get_patient_by_id db pid = Some p ->
  In a (ambulances db) ->
  patient_id p' = pid ->
  ambulance_id a' = ambulance_id a ->
  let db' :=
    commit_ambulance a'
      (commit_patient p' (send_automatic_pickup_notification_to_driver p' a' db)) in
  get_patient_by_id db' pid = Some p' /\
  query_ambulance db' (ambulance_id a) = Some a'.
Proof.
  intros Hp Hin Hpid Haid. cbv zeta. split.
  - rewrite get_patient_commit_ambulance.
    now apply get_commit_patient with (p := p).
  - destruct (first_by_key_present ambulance_id a _ Hin) as [a0 Ha0].
    now apply query_commit_ambulance with (a := a0).
Qed.

(** X6: [auto_assign_nearest_ambulance] is all or nothing.  When it
    answers [False] the session is exactly as before; it answers [True]
    exactly when the patient is stored, both referring coordinates are
    present and not 0.0, and some ambulance is Available with fuel of at
    least 20 and known coordinates. *)
Theorem auto_assign_nearest_ambulance_all_or_nothing
    (calculate_distance : Q -> Q -> Q -> Q -> Q) (db : Database) (pid : string) :
  let r := auto_assign_nearest_ambulance calculate_distance pid db in
  (fst r = false -> snd r = db) /\
  (fst r = true <->
   exists p lat lng a,
     get_patient_by_id db pid = Some p /\
     referring_hospital_lat p = Some lat /\ ~ lat == 0 /\
     referring_hospital_lng p = Some lng /\ ~ lng == 0 /\
     In a (ambulances db) /\
     eligible calculate_distance lat lng 20.0 a = true).
Proof.
  cbv zeta.
  destruct (auto_assign_nearest_ambulance_cases calculate_distance db pid)
    as [(Hf & Hdb & Hnone)|(p & lat & lng & a & Hp & Elat & Hlat & Elng & Hlng & Hfind & Hr)].
  - split; [intros _; exact Hdb|]. rewrite Hf. split; [discriminate|].
    intros (p & lat & lng & a & Hp & Elat & Hlat & Elng & Hlng & Hin & Hel).
    specialize (Hnone p lat lng Hp Elat Hlat Elng Hlng).
    rewrite find_nearest_ambulance_none in Hnone.
    rewrite (Hnone a Hin) in Hel. discriminate.
  - cbv zeta in Hr. rewrite Hr. simpl fst. split; [discriminate|].
    split; [|reflexivity]. intros _.
    apply find_nearest_ambulance_sound in Hfind as (Hin & Hel & _).
    exists p, lat, lng, a. repeat split; assumption.
Qed.

(** X7: what a successful [auto_assign_nearest_ambulance] leaves behind.
    The ambulance chosen is the one the search returns for the referring
    hospital at the threshold 20; the patient row carries its key and the
    status Ambulance Assigned; the ambulance row is On Transfer with the
    patient as current patient and the receiving hospital as destination;
    exactly one message, to the driver, is added; no referral row is
    written. *)
Theorem auto_assign_nearest_ambulance_success
    (calculate_distance : Q -> Q -> Q -> Q -> Q) (db : Database) (pid : string) :
  let r := auto_assign_nearest_ambulance calculate_distance pid db in
  fst r = true ->
  exists p lat lng a,
    get_patient_by_id db pid = Some p /\
    referring_hospital_lat p = Some lat /\
    referring_hospital_lng p = Some lng /\
    find_nearest_ambulance calculate_distance lat lng 20.0 db = Some a /\
    get_patient_by_id (snd r) pid
    = Some (set_patient_status "Ambulance Assigned"
              (set_assigned_ambulance (Some (ambulance_id a)) p)) /\
    query_ambulance (snd r) (ambulance_id a)
    = Some (set_destination (Some (receiving_hospital p))
              (set_current_patient (Some pid) (set_status "On Transfer" a))) /\
    communications (snd r)
    = (communications db
       ++ [ {| comm_patient_id := pid;
               comm_ambulance_id := Some (ambulance_id a);
               receiver := driver_name a;
               message_type := "auto_driver_assignment" |} ])%list /\
    referrals (snd r) = referrals db.
Proof.
  cbv zeta.
  destruct (auto_assign_nearest_ambulance_cases calculate_distance db pid)
    as [(Hf & _)|(p & lat & lng & a & Hp & Elat & _ & Elng & _ & Hfind & Hr)].
  - rewrite Hf. discriminate.
  - cbv zeta in Hr. rewrite Hr. intros _. simpl snd.
    pose proof (get_patient_id _ _ _ Hp) as Hpid.
    exists p, lat, lng, a. repeat (split; [assumption|]).
    pose proof (find_nearest_ambulance_sound _ _ _ _ _ _ Hfind) as (Hin & _).
    destruct (auto_assign_committed_rows db pid p
                (set_patient_status "Ambulance Assigned"
                   (set_assigned_ambulance (Some (ambulance_id a)) p))
                a
                (set_destination (Some (receiving_hospital p))
                   (set_current_patient (Some pid) (set_status "On Transfer" a)))
                Hp Hin Hpid eq_refl) as [Hp' Ha'].
    split; [exact Hp'|]. split; [exact Ha'|]. split.
    + simpl. now rewrite Hpid.
    + reflexivity.
Qed.

(** X8: no double booking by successive automatic assignments.  Under the
    primary-key constraint on ambulances, after a successful
    [auto_assign_nearest_ambulance] the constraint still holds and no
    later search, for any hospital and any threshold, returns an ambulance
    with the key of the one just assigned. *)
Theorem auto_assign_nearest_ambulance_books_once
    (calculate_distance : Q -> Q -> Q -> Q -> Q) (db : Database) (pid : string) :
  unique_ambulance_ids db ->
  let r := auto_assign_nearest_ambulance calculate_distance pid db in
  fst r = true ->
  unique_ambulance_ids (snd r) /\
  exists p a,
    get_patient_by_id (snd r) pid = Some p /\
    assigned_ambulance p = Some (ambulance_id a) /\
    In a (ambulances db) /\
    forall lat lng minf b,
      find_nearest_ambulance calculate_distance lat lng minf (snd r) = Some b ->
      ambulance_id b <> ambulance_id a.
Proof.
  intros Hu. cbv zeta. intro Ht.
  assert (Hu' : unique_ambulance_ids
                  (snd (auto_assign_nearest_ambulance calculate_distance pid db))).
  { destruct (auto_assign_nearest_ambulance_cases calculate_distance db pid)
      as [(_ & -> & _)|(p & lat & lng & a & _ & _ & _ & _ & _ & _ & Hr)];
      [exact Hu|].
    cbv zeta in Hr. rewrite Hr. unfold unique_ambulance_ids. simpl.
    rewrite commit_row_keys. exact Hu. }
  split; [exact Hu'|].
  destruct (auto_assign_nearest_ambulance_cases calculate_distance db pid)
    as [(Hf & _)|(p & lat & lng & a & Hp & _ & _ & _ & _ & Hfind & Hr)];
    [rewrite Hf in Ht; discriminate|].
  cbv zeta in Hr. rewrite Hr in Hu' |- *. simpl snd in Hu' |- *.
  pose proof (get_patient_id _ _ _ Hp) as Hpid.
  apply find_nearest_ambulance_sound in Hfind as (Hin & _).
  destruct (auto_assign_committed_rows db pid p
              (set_patient_status "Ambulance Assigned"
                 (set_assigned_ambulance (Some (ambulance_id a)) p))
              a
              (set_destination (Some (receiving_hospital p))
                 (set_current_patient (Some pid) (set_status "On Transfer" a)))
              Hp Hin Hpid eq_refl) as [Hp' Ha'].
  eexists. exists a. split; [exact Hp'|]. split; [reflexivity|].
  split; [exact Hin|].
  intros lat' lng' minf b Hb Hk.
  apply find_nearest_ambulance_sound in Hb as (Hbin & Hbel & _).
  apply eligible_true in Hbel as [Hbst _].
  pose proof (first_by_key_unique ambulance_id b _ Hu' Hbin) as Hfirst.
  unfold query_ambulance in Ha'. rewrite Hk, Ha' in Hfirst.
  injection Hfirst as <-. discriminate.
Qed.

Ltac solve_unique_keys :=
  cbv; repeat constructor; simpl; intuition discriminate.

Lemma auto_assign_nearest_ambulance_success_witness :
  let p := sample_patient "PAT1A2B3C4D" None in
  let a := sample_ambulance "KBD 389G" (-0.0754) 34.7695 78.9 0.12 in
  let db := sample_db [p] sample_fleet in
  let r := auto_assign_nearest_ambulance taxicab "PAT1A2B3C4D" db in
  fst r = true /\
  exists p lat lng a,
    get_patient_by_id db "PAT1A2B3C4D" = Some p /\
    referring_hospital_lat p = Some lat /\
    referring_hospital_lng p = Some lng /\
    find_nearest_ambulance taxicab lat lng 20.0 db = Some a /\
    get_patient_by_id (snd r) "PAT1A2B3C4D"
    = Some (set_patient_status "Ambulance Assigned"
              (set_assigned_ambulance (Some (ambulance_id a)) p)) /\
    query_ambulance (snd r) (ambulance_id a)
    = Some (set_destination (Some (receiving_hospital p))
              (set_current_patient (Some "PAT1A2B3C4D") (set_status "On Transfer" a))) /\
    communications (snd r)
    = (communications db
       ++ [ {| comm_patient_id := "PAT1A2B3C4D";
               comm_ambulance_id := Some (ambulance_id a);
               receiver := driver_name a;
               message_type := "auto_driver_assignment" |} ])%list /\
    referrals (snd r) = referrals db.
Proof.
  intros p a db r.
  assert (Ht : fst r = true) by (vm_compute; reflexivity).
  split; [exact Ht|].
  exact (auto_assign_nearest_ambulance_success taxicab db "PAT1A2B3C4D" Ht).
Defined.

Lemma auto_assign_nearest_ambulance_books_once_witness :
  let db := sample_db [sample_patient "PAT1A2B3C4D" None] sample_fleet in
  let r := auto_assign_nearest_ambulance taxicab "PAT1A2B3C4D" db in
  unique_ambulance_ids db /\
  fst r = true /\
  unique_ambulance_ids (snd r) /\
  exists p a,
    get_patient_by_id (snd r) "PAT1A2B3C4D" = Some p /\
    assigned_ambulance p = Some (ambulance_id a) /\
    In a (ambulances db) /\
    forall lat lng minf b,
      find_nearest_ambulance taxicab lat lng minf (snd r) = Some b ->
      ambulance_id b <> ambulance_id a.
Proof.
  intros db r.
  assert (Hu : unique_ambulance_ids db) by solve_unique_keys.
  assert (Ht : fst r = true) by (vm_compute; reflexivity).
  split; [exact Hu|]. split; [exact Ht|].
  exact (auto_assign_nearest_ambulance_books_once taxicab db "PAT1A2B3C4D" Hu Ht).
Defined.

(** ** Manual assignment *)

(** X9: [assign_ambulance] applies no eligibility filter.  For a stored
    patient with a non-empty identifier and any stored ambulance, whatever
    its status, fuel level or current patient, the call answers [True],
    puts the ambulance On Transfer with this patient, records the
    assignment on the patient, sends one message to the driver and leaves
    every other ambulance alone. *)
Theorem assign_ambulance_success (db : Database) (pid aid : string)
    (p : Patient) (a : Ambulance) :
  get_patient_by_id db pid = Some p ->
  query_ambulance db aid = Some a ->
  pid <> "" ->
  let r := assign_ambulance pid aid db in
  fst r = true /\
  get_patient_by_id (snd r) pid
  = Some (set_patient_status "Ambulance Assigned"
            (set_assigned_ambulance (Some aid) p)) /\
  query_ambulance (snd r) aid
  = Some (set_current_patient (Some pid) (set_status "On Transfer" a)) /\
  (forall k, k <> aid -> query_ambulance (snd r) k = query_ambulance db k) /\
  communications (snd r)
  = (communications db
     ++ [ {| comm_patient_id := pid;
             comm_ambulance_id := Some aid;
             receiver := driver_name a;
             message_type := "auto_driver_assignment" |} ])%list /\
  referrals (snd r) = referrals db.
Proof.
  intros Hp Ha Hne.
  pose proof (get_patient_id _ _ _ Hp) as Hpid.
  pose proof (query_ambulance_id _ _ _ Ha) as Haid.
  unfold assign_ambulance. rewrite Hp. cbv zeta.
  rewrite query_ambulance_commit_patient, Ha.
  unfold update_ambulance_status.
  match goal with
  | |- context [query_ambulance ?d aid] =>
      assert (Hq : query_ambulance d aid = Some a) by exact Ha; rewrite Hq
  end.
  simpl truthy_str.
  destruct (String.eqb pid "") eqn:E; [apply String.eqb_eq in E; contradiction|].
  simpl negb. cbv iota. simpl fst. simpl snd.
  match goal with
  | Hq' : query_ambulance ?d aid = Some a |- _ =>
      assert (Hq2 : query_ambulance d aid = Some a) by exact Hq'
  end.
  split; [reflexivity|]. split.
  { rewrite get_patient_commit_ambulance.
    now apply get_commit_patient with (p := p). }
  split.
  { now apply query_commit_ambulance with (a := a). }
  split.
  { intros k Hk. rewrite query_commit_ambulance_other; [reflexivity|].
    simpl. congruence. }
  split; [|reflexivity].
  simpl. now rewrite Hpid, Haid.
Qed.

Lemma assign_ambulance_success_witness :
  let p := sample_patient "PAT1A2B3C4D" None in
  let a :=
    set_current_patient (Some "PAT5E6F7A8B")
      (set_status "On Transfer" (sample_ambulance "KBC 217F" (-0.1058) 34.7570 5 0.12)) in
  let db := sample_db [p] [a] in
  let r := assign_ambulance "PAT1A2B3C4D" "KBC 217F" db in
  get_patient_by_id db "PAT1A2B3C4D" = Some p /\
  query_ambulance db "KBC 217F" = Some a /\
  "PAT1A2B3C4D" <> "" /\
  fst r = true /\
  get_patient_by_id (snd r) "PAT1A2B3C4D"
  = Some (set_patient_status "Ambulance Assigned"
            (set_assigned_ambulance (Some "KBC 217F") p)) /\
  query_ambulance (snd r) "KBC 217F"
  = Some (set_current_patient (Some "PAT1A2B3C4D") (set_status "On Transfer" a)) /\
  (forall k, k <> "KBC 217F" -> query_ambulance (snd r) k = query_ambulance db k) /\
  communications (snd r)
  = (communications db
     ++ [ {| comm_patient_id := "PAT1A2B3C4D";
             comm_ambulance_id := Some "KBC 217F";
             receiver := driver_name a;
             message_type := "auto_driver_assignment" |} ])%list /\
  referrals (snd r) = referrals db.
Proof.
  intros p a db r.
  assert (Hne : "PAT1A2B3C4D" <> "") by discriminate.
  split; [reflexivity|]. split; [reflexivity|]. split; [exact Hne|].
  exact (assign_ambulance_success db "PAT1A2B3C4D" "KBC 217F" p a
           eq_refl eq_refl Hne).
Defined.

(** ** Pickup *)

(** X10: [mark_patient_picked_up] answers [True] exactly when the patient
    and the ambulance assigned to the patient are both stored, and changes
    nothing otherwise.  On success the patient is Patient Picked Up with
    the notification flag set, no ambulance row is touched and one
    en-route message goes to the receiving hospital.  The flag is not
    consulted: calling it again succeeds again and sends the message a
    second time. *)
Theorem mark_patient_picked_up_effect (db : Database) (pid : string) :
  let r := mark_patient_picked_up pid db in
  (fst r = false -> snd r = db) /\
  (fst r = true <->
   exists p aid a,
     get_patient_by_id db pid = Some p /\
     assigned_ambulance p = Some aid /\
     query_ambulance db aid = Some a) /\
  (fst r = true ->
   exists p aid,
     get_patient_by_id db pid = Some p /\
     assigned_ambulance p = Some aid /\
     let m := {| comm_patient_id := pid;
                 comm_ambulance_id := Some aid;
                 receiver := receiving_hospital p;
                 message_type := "auto_enroute_notification" |} in
     get_patient_by_id (snd r) pid
     = Some (set_pickup_notification_sent true
               (set_patient_status "Patient Picked Up" p)) /\
     ambulances (snd r) = ambulances db /\
     communications (snd r) = (communications db ++ [m])%list /\
     let r2 := mark_patient_picked_up pid (snd r) in
     fst r2 = true /\
     communications (snd r2) = (communications db ++ [m; m])%list).
Proof.
  cbv zeta.
  destruct (get_patient_by_id db pid) as [p|] eqn:Hp.
  2:{ assert (Hr : mark_patient_picked_up pid db = (false, db))
        by (unfold mark_patient_picked_up; now rewrite Hp).
      rewrite Hr. simpl. split; [reflexivity|]. split; [|discriminate].
      split; [discriminate|]. intros (p & aid & a & E & _). discriminate. }
  destruct (assigned_ambulance p) as [aid|] eqn:Haid.
  2:{ assert (Hr : mark_patient_picked_up pid db = (false, db))
        by (unfold mark_patient_picked_up; now rewrite Hp, Haid).
      rewrite Hr. simpl. split; [reflexivity|]. split; [|discriminate].
      split; [discriminate|]. intros (p0 & aid & a & E & E' & _).
      injection E as <-. congruence. }
  destruct (query_ambulance db aid) as [a|] eqn:Ha.
  2:{ assert (Hr : mark_patient_picked_up pid db = (false, db))
        by (unfold mark_patient_picked_up; now rewrite Hp, Haid, Ha).
      rewrite Hr. simpl. split; [reflexivity|]. split; [|discriminate].
      split; [discriminate|]. intros (p0 & aid0 & a & E & E' & E'').
      injection E as <-. rewrite Haid in E'. injection E' as <-. congruence. }
  pose proof (get_patient_id _ _ _ Hp) as Hpid.
  pose proof (query_ambulance_id _ _ _ Ha) as Haid'.
  set (p' := set_pickup_notification_sent true
               (set_patient_status "Patient Picked Up" p)).
  set (db1 := commit_patient p' (send_automatic_enroute_notification p' a db)).
  assert (Hr : mark_patient_picked_up pid db = (true, db1))
    by (unfold mark_patient_picked_up; now rewrite Hp, Haid, Ha).
  assert (Hp' : get_patient_by_id db1 pid = Some p')
    by (now apply get_commit_patient with (p := p)).
  assert (Ha1 : query_ambulance db1 aid = Some a) by exact Ha.
  assert (Hr2 : mark_patient_picked_up pid db1
                = (true, commit_patient p'
                           (send_automatic_enroute_notification p' a db1))).
  { unfold mark_patient_picked_up. rewrite Hp'.
    change (assigned_ambulance p') with (assigned_ambulance p).
    now rewrite Haid, Ha1. }
  rewrite Hr. simpl fst. simpl snd. split; [discriminate|]. split.
  { split; [|reflexivity]. intros _. exists p, aid, a. auto. }
  intros _. exists p, aid. split; [reflexivity|]. split; [exact Haid|].
  split; [exact Hp'|]. split; [reflexivity|]. split.
  { simpl. now rewrite Hpid, Haid'. }
  rewrite Hr2. simpl. split; [reflexivity|].
  rewrite Hpid, Haid', <- app_assoc. reflexivity.
Qed.

(** ** Mission completion, the rest of the session *)

Lemma get_commit_patient_other (db : Database) (pid : string) (p' : Patient) :
  pid <> patient_id p' ->
  get_patient_by_id (commit_patient p' db) pid = get_patient_by_id db pid.
Proof.
  unfold get_patient_by_id, commit_patient. simpl.
  apply first_by_key_commit_other.
Qed.

Lemma communications_arrival (db : Database) (p : Patient) (a : Ambulance) :
  communications (send_automatic_arrival_notification p a db)
  = (communications db
     ++ [ {| comm_patient_id := patient_id p;
             comm_ambulance_id := Some (ambulance_id a);
             receiver := referring_hospital p;
             message_type := "auto_arrival_notification" |};
          {| comm_patient_id := patient_id p;
             comm_ambulance_id := Some (ambulance_id a);
             receiver := receiving_hospital p;
             message_type := "auto_arrival_notification" |} ])%list.
Proof.
  unfold send_automatic_arrival_notification. simpl.
  now rewrite <- app_assoc.
Qed.

(** What [complete_mission] leaves untouched and what it sends. *)
Lemma complete_mission_frame (db db' : Database) (aid pid : string)
    (a : Ambulance) (p : Patient) :
  query_ambulance db aid = Some a ->
  get_patient_by_id db pid = Some p ->
  complete_mission aid pid db = Some db' ->
  communications db'
  = (communications db
     ++ [ {| comm_patient_id := pid;
             comm_ambulance_id := Some aid;
             receiver := referring_hospital p;
             message_type := "auto_arrival_notification" |};
          {| comm_patient_id := pid;
             comm_ambulance_id := Some aid;
             receiver := receiving_hospital p;
             message_type := "auto_arrival_notification" |} ])%list /\
  referrals db' = referrals db /\
  (forall k, k <> aid -> query_ambulance db' k = query_ambulance db k) /\
  (forall k, k <> pid -> get_patient_by_id db' k = get_patient_by_id db k).
Proof.
  intros Hq Hp.
  pose proof (query_ambulance_id _ _ _ Hq) as Ha.
  pose proof (get_patient_id _ _ _ Hp) as Hpid.
  assert (Hq1 : query_ambulance
                  (commit_patient (set_patient_status "Arrived at Destination" p)
                     (commit_ambulance (released a) db)) aid
                = Some (released a)).
  { rewrite query_ambulance_commit_patient.
    now apply query_commit_ambulance with (a := a). }
  assert (Hframe1 : forall k, k <> aid ->
            query_ambulance
              (commit_patient (set_patient_status "Arrived at Destination" p)
                 (commit_ambulance (released a) db)) k
            = query_ambulance db k).
  { intros k Hk. rewrite query_ambulance_commit_patient.
    apply query_commit_ambulance_other. simpl. congruence. }
  assert (Hframe2 : forall k, k <> pid ->
            get_patient_by_id
              (commit_patient (set_patient_status "Arrived at Destination" p)
                 (commit_ambulance (released a) db)) k
            = get_patient_by_id db k).
  { intros k Hk. rewrite get_commit_patient_other by (simpl; congruence).
    apply get_patient_commit_ambulance. }
  unfold complete_mission. rewrite Hq, Hp. fold (released a).
  change (trip_distance (set_patient_status "Arrived at Destination" p))
    with (trip_distance p).
  destruct (trip_distance p) as [d|]; [destruct (truthy (Some d))|].
  - change (ambulance_id (released a)) with (ambulance_id a). rewrite Ha.
    rewrite (update_ambulance_costs_found _ _ _ d Hq1).
    intro H. injection H as <-.
    split; [rewrite communications_arrival; simpl; now rewrite Hpid, Ha|].
    split; [reflexivity|]. split.
    + intros k Hk. rewrite query_ambulance_arrival, query_ambulance_commit_patient.
      rewrite query_commit_ambulance_other by (simpl; congruence). auto.
    + intros k Hk. rewrite get_patient_arrival.
      rewrite get_commit_patient_other by (simpl; congruence).
      rewrite get_patient_commit_ambulance. auto.
  - intro H. injection H as <-.
    split; [rewrite communications_arrival; simpl; now rewrite Hpid, Ha|].
    split; [reflexivity|]. split.
    + intros k Hk. rewrite query_ambulance_arrival. auto.
    + intros k Hk. rewrite get_patient_arrival. auto.
  - intro H. injection H as <-.
    split; [rewrite communications_arrival; simpl; now rewrite Hpid, Ha|].
    split; [reflexivity|]. split.
    + intros k Hk. rewrite query_ambulance_arrival. auto.
    + intros k Hk. rewrite get_patient_arrival. auto.
Qed.

(** X11: the patient side of [complete_mission].  The patient becomes
    Arrived at Destination and keeps its assignment and trip distance.
    When that distance is set and not zero, the savings written on the
    patient are 0.15 times the cost written on the patient, and the same
    amount is added to the ambulance's [cost_savings]; otherwise the cost
    fields of the patient and the three totals of the ambulance stay as
    they were.  The fuel level of the ambulance is never touched. *)
Theorem complete_mission_patient (db : Database) (aid pid : string)
    (a : Ambulance) (p : Patient) :
  query_ambulance db aid = Some a ->
  get_patient_by_id db pid = Some p ->
  exists db' a' p',
    complete_mission aid pid db = Some db' /\
    query_ambulance db' aid = Some a' /\
    get_patient_by_id db' pid = Some p' /\
    patient_status p' = "Arrived at Destination" /\
    assigned_ambulance p' = assigned_ambulance p /\
    trip_distance p' = trip_distance p /\
    mission_complete a' = true /\
    fuel_level a' = fuel_level a /\
    if truthy (trip_distance p) then
      exists c,
        trip_fuel_cost p' = Some c /\
        trip_cost_savings p' = c * 0.15 /\
        cost_savings a' = cost_savings a + c * 0.15
    else
      trip_fuel_cost p' = trip_fuel_cost p /\
      trip_cost_savings p' = trip_cost_savings p /\
      total_distance_traveled a' = total_distance_traveled a /\
      total_fuel_cost a' = total_fuel_cost a /\
      cost_savings a' = cost_savings a.
Proof.
  intros Hq Hp.
  destruct (complete_mission_rows db aid pid a p Hq Hp) as (db' & Hrun & Hrows).
  exists db'.
  destruct (truthy (trip_distance p)) eqn:Ht.
  - destruct Hrows as (d & Hd & Ha' & Hp').
    eexists. eexists. split; [exact Hrun|]. split; [exact Ha'|].
    split; [exact Hp'|]. repeat (split; [reflexivity|]).
    eexists. repeat split.
  - destruct Hrows as (Ha' & Hp').
    eexists. eexists. split; [exact Hrun|]. split; [exact Ha'|].
    split; [exact Hp'|]. repeat split.
Qed.

Lemma complete_mission_patient_witness :
  let a := sample_ambulance "KBA 453D" (-0.0754) 34.7695 85.5 0.12 in
  let p := sample_patient "PAT1A2B3C4D" (Some 3.6) in
  let db := sample_db [p] [a] in
  query_ambulance db "KBA 453D" = Some a /\
  get_patient_by_id db "PAT1A2B3C4D" = Some p /\
  exists db' a' p',
    complete_mission "KBA 453D" "PAT1A2B3C4D" db = Some db' /\
    query_ambulance db' "KBA 453D" = Some a' /\
    get_patient_by_id db' "PAT1A2B3C4D" = Some p' /\
    patient_status p' = "Arrived at Destination" /\
    assigned_ambulance p' = assigned_ambulance p /\
    trip_distance p' = trip_distance p /\
    mission_complete a' = true /\
    fuel_level a' = fuel_level a /\
    if truthy (trip_distance p) then
      exists c,
        trip_fuel_cost p' = Some c /\
        trip_cost_savings p' = c * 0.15 /\
        cost_savings a' = cost_savings a + c * 0.15
    else
      trip_fuel_cost p' = trip_fuel_cost p /\
      trip_cost_savings p' = trip_cost_savings p /\
      total_distance_traveled a' = total_distance_traveled a /\
      total_fuel_cost a' = total_fuel_cost a /\
      cost_savings a' = cost_savings a.
Proof.
  intros a p db. split; [reflexivity|]. split; [reflexivity|].
  exact (complete_mission_patient db "KBA 453D" "PAT1A2B3C4D" a p eq_refl eq_refl).
Defined.

(** X12: [complete_mission] is local.  It sends exactly two arrival
    messages, to the referring and then to the receiving hospital, writes
    no referral row, and leaves every other ambulance and every other
    patient as they were. *)
Theorem complete_mission_local (db : Database) (aid pid : string)
    (a : Ambulance) (p : Patient) :
  query_ambulance db aid = Some a ->
  get_patient_by_id db pid = Some p ->
  exists db',
    complete_mission aid pid db = Some db' /\
    communications db'
    = (communications db
       ++ [ {| comm_patient_id := pid;
               comm_ambulance_id := Some aid;
               receiver := referring_hospital p;
               message_type := "auto_arrival_notification" |};
            {| comm_patient_id := pid;
               comm_ambulance_id := Some aid;
               receiver := receiving_hospital p;
               message_type := "auto_arrival_notification" |} ])%list /\
    referrals db' = referrals db /\
    (forall k, k <> aid -> query_ambulance db' k = query_ambulance db k) /\
    (forall k, k <> pid -> get_patient_by_id db' k = get_patient_by_id db k).
Proof.
  intros Hq Hp.
  destruct (complete_mission_rows db aid pid a p Hq Hp) as (db' & Hrun & _).
  exists db'. split; [exact Hrun|].
  exact (complete_mission_frame db db' aid pid a p Hq Hp Hrun).
Qed.

Lemma complete_mission_local_witness :
  let a := sample_ambulance "KBA 453D" (-0.0754) 34.7695 85.5 0.12 in
  let p := sample_patient "PAT1A2B3C4D" (Some 3.6) in
  let db := sample_db [p; sample_patient "PAT5E6F7A8B" None] (a :: sample_fleet) in
  query_ambulance db "KBA 453D" = Some a /\
  get_patient_by_id db "PAT1A2B3C4D" = Some p /\
  exists db',
    complete_mission "KBA 453D" "PAT1A2B3C4D" db = Some db' /\
    communications db'
    = (communications db
       ++ [ {| comm_patient_id := "PAT1A2B3C4D";
               comm_ambulance_id := Some "KBA 453D";
               receiver := referring_hospital p;
               message_type := "auto_arrival_notification" |};
            {| comm_patient_id := "PAT1A2B3C4D";
               comm_ambulance_id := Some "KBA 453D";
               receiver := receiving_hospital p;
               message_type := "auto_arrival_notification" |} ])%list /\
    referrals db' = referrals db /\
    (forall k, k <> "KBA 453D" -> query_ambulance db' k = query_ambulance db k) /\
    (forall k, k <> "PAT1A2B3C4D" ->
               get_patient_by_id db' k = get_patient_by_id db k).
Proof.
  intros a p db. split; [reflexivity|]. split; [reflexivity|].
  exact (complete_mission_local db "KBA 453D" "PAT1A2B3C4D" a p eq_refl eq_refl).
Defined.

(** X13: [complete_mission] does not look at [mission_complete] or at the
    patient's status, so completing the same mission twice charges the
    trip twice: with a stored distance [d] that is not zero, the total
    distance has grown by [d] two times and the fuel cost by the trip's
    fuel cost two times. *)
Theorem complete_mission_twice (db : Database) (aid pid : string)
    (a : Ambulance) (p : Patient) (d : Q) :
  query_ambulance db aid = Some a ->
  get_patient_by_id db pid = Some p ->
  trip_distance p = Some d ->
  ~ d == 0 ->
  exists db1 db2 a2,
    complete_mission aid pid db = Some db1 /\
    complete_mission aid pid db1 = Some db2 /\
    query_ambulance db2 aid = Some a2 /\
    status a2 = "Available" /\
    let tc := calculate_trip_cost d (Some (fuel_consumption_rate a)) in
    total_distance_traveled a2 = total_distance_traveled a + d + d /\
    total_fuel_cost a2 = total_fuel_cost a + fuel_cost_ksh tc + fuel_cost_ksh tc /\
    cost_savings a2
    = cost_savings a + total_cost_ksh tc * 0.15 + total_cost_ksh tc * 0.15.
Proof.
  intros Hq Hp Hd Hnz.
  assert (Ht : truthy (Some d) = true).
  { simpl. apply negb_true_iff, not_true_iff_false.
    intro H. apply Hnz. now apply Qeq_bool_eq. }
  destruct (complete_mission_rows db aid pid a p Hq Hp) as (db1 & Hrun1 & Hrows1).
  rewrite Hd, Ht in Hrows1. destruct Hrows1 as (d' & Hd' & Ha1 & Hp1).
  injection Hd' as <-.
  destruct (complete_mission_rows db1 aid pid _ _ Ha1 Hp1) as (db2 & Hrun2 & Hrows2).
  simpl trip_distance in Hrows2. rewrite Hd, Ht in Hrows2.
  destruct Hrows2 as (d' & Hd' & Ha2 & _). injection Hd' as <-.
  exists db1, db2. eexists. split; [exact Hrun1|]. split; [exact Hrun2|].
  split; [exact Ha2|]. repeat split.
Qed.

Lemma complete_mission_twice_witness :
  let a := sample_ambulance "KBA 453D" (-0.0754) 34.7695 85.5 0.12 in
  let p := sample_patient "PAT1A2B3C4D" (Some 3.6) in
  let db := sample_db [p] [a] in
  query_ambulance db "KBA 453D" = Some a /\
  get_patient_by_id db "PAT1A2B3C4D" = Some p /\
  trip_distance p = Some 3.6 /\
  ~ 3.6 == 0 /\
  exists db1 db2 a2,
    complete_mission "KBA 453D" "PAT1A2B3C4D" db = Some db1 /\
    complete_mission "KBA 453D" "PAT1A2B3C4D" db1 = Some db2 /\
    query_ambulance db2 "KBA 453D" = Some a2 /\
    status a2 = "Available" /\
    let tc := calculate_trip_cost 3.6 (Some 0.12) in
    total_distance_traveled a2 = 100 + 3.6 + 3.6 /\
    total_fuel_cost a2 = 5000 + fuel_cost_ksh tc + fuel_cost_ksh tc /\
    cost_savings a2 = 1000 + total_cost_ksh tc * 0.15 + total_cost_ksh tc * 0.15.
Proof.
  intros a p db.
  assert (Hnz : ~ 3.6 == 0) by (intro H; vm_compute in H; discriminate).
  split; [reflexivity|]. split; [reflexivity|]. split; [reflexivity|].
  split; [exact Hnz|].
  exact (complete_mission_twice db "KBA 453D" "PAT1A2B3C4D" a p 3.6
           eq_refl eq_refl eq_refl Hnz).
Defined.

(** ** Referral creation, the rest of the session *)

(** X14: what [create_referral] writes when the key is free.  The key is
    the identifier of the dictionary, or the fresh one when it has none.
    If no stored patient has that key, the call answers the new patient,
    stored last in [patients] with the role as [created_by] and the
    status of the dictionary (Referred by default); one referral row and
    one message to the receiving hospital are added; and the [ambulances]
    table is untouched, also when the dictionary names an assigned
    ambulance. *)
Theorem create_referral_effect (calculate_distance : Q -> Q -> Q -> Q -> Q)
    (fresh role : string) (pd : PatientData) (db : Database) :
  let key := match pd_patient_id pd with Some i => i | None => fresh end in
  get_patient_by_id db key = None ->
  let r := create_referral calculate_distance fresh pd role db in
  exists p,
    fst r = Some p /\
    patient_id p = key /\
    created_by p = Some role /\
    patient_status p
    = match pd_status pd with Some s => s | None => "Referred" end /\
    assigned_ambulance p = pd_assigned_ambulance pd /\
    get_patient_by_id (snd r) key = Some p /\
    patients (snd r) = (patients db ++ [p])%list /\
    ambulances (snd r) = ambulances db /\
    referrals (snd r)
    = (referrals db
       ++ [ {| referral_patient_id := key;
               referral_ambulance_id := pd_assigned_ambulance pd;
               referral_created_by := role |} ])%list /\
    communications (snd r)
    = (communications db
       ++ [ {| comm_patient_id := key;
               comm_ambulance_id := None;
               receiver := pd_receiving_hospital pd;
               message_type := "auto_hospital_notification" |} ])%list.
Proof.
  cbv zeta. unfold create_referral, get_patient_by_id.
  set (key := match pd_patient_id pd with Some i => i | None => fresh end).
  intros Hfree.
  assert (Htail : forall pd',
    pd_patient_id pd' = pd_patient_id pd ->
    pd_created_by pd' = Some role ->
    pd_status pd' = pd_status pd ->
    pd_assigned_ambulance pd' = pd_assigned_ambulance pd ->
    pd_receiving_hospital pd' = pd_receiving_hospital pd ->
    let r := match add_patient fresh pd' db with
             | Some (patient, db') =>
                 (Some patient,
                  send_automatic_referral_notification_to_hospital patient
                    (add_referral
                       {| referral_patient_id := patient_id patient;
                          referral_ambulance_id := pd_assigned_ambulance pd';
                          referral_created_by := role |} db'))
             | None => (None, db)
             end in
    exists p,
      fst r = Some p /\
      patient_id p = key /\
      created_by p = Some role /\
      patient_status p
      = match pd_status pd with Some s => s | None => "Referred" end /\
      assigned_ambulance p = pd_assigned_ambulance pd /\
      first_by_key patient_id key (patients (snd r)) = Some p /\
      patients (snd r) = (patients db ++ [p])%list /\
      ambulances (snd r) = ambulances db /\
      referrals (snd r)
      = (referrals db
         ++ [ {| referral_patient_id := key;
                 referral_ambulance_id := pd_assigned_ambulance pd;
                 referral_created_by := role |} ])%list /\
      communications (snd r)
      = (communications db
         ++ [ {| comm_patient_id := key;
                 comm_ambulance_id := None;
                 receiver := pd_receiving_hospital pd;
                 message_type := "auto_hospital_notification" |} ])%list).
  { intros pd' E1 E2 E3 E4 E5. cbv zeta. unfold add_patient.
    rewrite E1, E2, E3, E4, E5. fold key. rewrite Hfree.
    eexists. split; [reflexivity|].
    split; [reflexivity|]. split; [reflexivity|]. split; [reflexivity|].
    split; [reflexivity|]. split.
    { cbn [snd]. unfold send_automatic_referral_notification_to_hospital,
        add_communication, add_referral. cbn [patients with_patients].
      match goal with
      | |- first_by_key _ _ (_ ++ [?q]) = _ =>
          exact (first_by_key_app_new patient_id q (patients db) Hfree)
      end. }
    repeat split. }
  destruct (truthy _ && truthy _ && truthy _ && truthy _).
  - destruct (pd_referring_hospital_lat (pd_set_created_by (Some role) pd)),
      (pd_referring_hospital_lng (pd_set_created_by (Some role) pd)),
      (pd_receiving_hospital_lat (pd_set_created_by (Some role) pd)),
      (pd_receiving_hospital_lng (pd_set_created_by (Some role) pd));
      apply Htail; reflexivity.
  - apply Htail; reflexivity.
Qed.

Lemma create_referral_effect_witness :
  let pd :=
    sample_patient_data (Some (-0.1058)) (Some 34.7568)
      (Some (-0.0754)) (Some 34.7695) in
  let db := sample_db [sample_patient "PAT5E6F7A8B" None] sample_fleet in
  let r := create_referral taxicab "PAT1A2B3C4D" pd "Hospital Staff" db in
  get_patient_by_id db "PAT1A2B3C4D" = None /\
  exists p,
    fst r = Some p /\
    patient_id p = "PAT1A2B3C4D" /\
    created_by p = Some "Hospital Staff" /\
    patient_status p = "Referred" /\
    assigned_ambulance p = None /\
    get_patient_by_id (snd r) "PAT1A2B3C4D" = Some p /\
    patients (snd r) = (patients db ++ [p])%list /\
    ambulances (snd r) = ambulances db /\
    referrals (snd r)
    = (referrals db
       ++ [ {| referral_patient_id := "PAT1A2B3C4D";
               referral_ambulance_id := None;
               referral_created_by := "Hospital Staff" |} ])%list /\
    communications (snd r)
    = (communications db
       ++ [ {| comm_patient_id := "PAT1A2B3C4D";
               comm_ambulance_id := None;
               receiver := "Kisumu County Referral Hospital";
               message_type := "auto_hospital_notification" |} ])%list.
Proof.
  intros pd db r. split; [reflexivity|].
  exact (create_referral_effect taxicab "PAT1A2B3C4D" "Hospital Staff" pd db
           eq_refl).
Defined.

(** ** A whole referral *)

Section LifecycleFacts.
Variable calculate_distance : Q -> Q -> Q -> Q -> Q.

(** The row [create_referral] returns, seen from the later transitions:
    its key, its referring coordinates, and the tables it leaves alone. *)
Lemma create_referral_row (fresh role : string) (pd : PatientData)
    (db db' : Database) (p : Patient) :
  create_referral calculate_distance fresh pd role db = (Some p, db') ->
  patient_id p = match pd_patient_id pd with Some i => i | None => fresh end /\
  referring_hospital_lat p = pd_referring_hospital_lat pd /\
  referring_hospital_lng p = pd_referring_hospital_lng pd /\
  ambulances db' = ambulances db /\
  List.length (communications db') = S (List.length (communications db)).
Proof.
  unfold create_referral.
  assert (Htail : forall pd',
    pd_patient_id pd' = pd_patient_id pd ->
    pd_referring_hospital_lat pd' = pd_referring_hospital_lat pd ->
    pd_referring_hospital_lng pd' = pd_referring_hospital_lng pd ->
    match add_patient fresh pd' db with
    | Some (patient, db0) =>
        (Some patient,
         send_automatic_referral_notification_to_hospital patient
           (add_referral
              {| referral_patient_id := patient_id patient;
                 referral_ambulance_id := pd_assigned_ambulance pd';
                 referral_created_by := role |} db0))
    | None => (None, db)
    end = (Some p, db') ->
    patient_id p = match pd_patient_id pd with Some i => i | None => fresh end /\
    referring_hospital_lat p = pd_referring_hospital_lat pd /\
    referring_hospital_lng p = pd_referring_hospital_lng pd /\
    ambulances db' = ambulances db /\
    List.length (communications db') = S (List.length (communications db))).
  { intros pd' E1 E2 E3. unfold add_patient. rewrite E1, E2, E3.
    destruct (first_by_key patient_id _ (patients db)); [discriminate|].
    intro H. injection H as <- <-. simpl.
    repeat split. rewrite length_app. simpl. lia. }
  destruct (truthy _ && truthy _ && truthy _ && truthy _).
  - destruct (pd_referring_hospital_lat (pd_set_created_by (Some role) pd)),
      (pd_referring_hospital_lng (pd_set_created_by (Some role) pd)),
      (pd_receiving_hospital_lat (pd_set_created_by (Some role) pd)),
      (pd_receiving_hospital_lng (pd_set_created_by (Some role) pd));
      apply Htail; reflexivity.
  - apply Htail; reflexivity.
Qed.

(** X15: the transitions compose.  Take a dictionary whose key is free
    and whose referring coordinates are present and not 0.0, and a fleet
    with at least one ambulance that is Available, has fuel of at least 20
    and known coordinates.  Then creating the referral, assigning the
    nearest ambulance, marking the pickup and completing the mission with
    the assigned ambulance all succeed in turn; at the end the patient is
    Arrived at Destination, still refers to that ambulance and has the
    pickup flag set, the ambulance is Available again with no current
    patient and the fuel level it started with, and five messages were
    sent. *)
Theorem referral_lifecycle (fresh role : string) (pd : PatientData)
    (db : Database) (lat lng : Q) (a0 : Ambulance) :
  let key := match pd_patient_id pd with Some i => i | None => fresh end in
  get_patient_by_id db key = None ->
  pd_referring_hospital_lat pd = Some lat -> ~ lat == 0 ->
  pd_referring_hospital_lng pd = Some lng -> ~ lng == 0 ->
  In a0 (ambulances db) ->
  eligible calculate_distance lat lng 20.0 a0 = true ->
  exists p db1 db2 db3 db4 a pf af,
    create_referral calculate_distance fresh pd role db = (Some p, db1) /\
    find_nearest_ambulance calculate_distance lat lng 20.0 db = Some a /\
    auto_assign_nearest_ambulance calculate_distance key db1 = (true, db2) /\
    mark_patient_picked_up key db2 = (true, db3) /\
    complete_mission (ambulance_id a) key db3 = Some db4 /\
    get_patient_by_id db4 key = Some pf /\
    patient_status pf = "Arrived at Destination" /\
    assigned_ambulance pf = Some (ambulance_id a) /\
    pickup_notification_sent pf = true /\
    query_ambulance db4 (ambulance_id a) = Some af /\
    status af = "Available" /\
    current_patient af = None /\
    mission_complete af = true /\
    fuel_level af = fuel_level a /\
    List.length (communications db4) = (List.length (communications db) + 5)%nat.
Proof.
  intros key Hnew Elat Hlat Elng Hlng Hin0 Hel0.
  (* creation *)
  destruct (create_referral_succeeds calculate_distance fresh role pd db Hnew)
    as (p & db1 & Hcreate).
  destruct (create_referral_created _ _ _ _ _ _ _ Hcreate) as [Hp1 _].
  destruct (create_referral_row _ _ _ _ _ _ Hcreate)
    as (Hkey & Hplat & Hplng & Hamb1 & Hlen1).
  fold key in Hkey. rewrite Hkey in Hp1.
  rewrite Elat in Hplat. rewrite Elng in Hplng.
  (* automatic assignment *)
  destruct (auto_assign_nearest_ambulance_cases calculate_distance db1 key)
    as [(_ & _ & Hnone)|(p0 & lat' & lng' & a & Hp0 & Elat' & _ & Elng' & _ & Hfind1 & Hr)].
  { specialize (Hnone p lat lng Hp1 Hplat Hlat Hplng Hlng).
    rewrite find_nearest_ambulance_none in Hnone.
    rewrite Hamb1 in Hnone. rewrite (Hnone a0 Hin0) in Hel0. discriminate. }
  rewrite Hp1 in Hp0. injection Hp0 as <-.
  rewrite Hplat in Elat'. injection Elat' as <-.
  rewrite Hplng in Elng'. injection Elng' as <-.
  cbv zeta in Hr.
  set (p2 := set_patient_status "Ambulance Assigned"
               (set_assigned_ambulance (Some (ambulance_id a)) p)) in *.
  set (a2 := set_destination (Some (receiving_hospital p))
               (set_current_patient (Some key) (set_status "On Transfer" a))) in *.
  set (db2 := commit_ambulance a2
                (commit_patient p2
                   (send_automatic_pickup_notification_to_driver p2 a2 db1))) in *.
  assert (Hfind : find_nearest_ambulance calculate_distance lat lng 20.0 db = Some a).
  { rewrite <- Hfind1. unfold find_nearest_ambulance, get_available_ambulances.
    now rewrite Hamb1. }
  pose proof (find_nearest_ambulance_sound _ _ _ _ _ _ Hfind1) as (Hin1 & _).
  destruct (auto_assign_committed_rows db1 key p p2 a a2 Hp1 Hin1 Hkey eq_refl)
    as [Hp2 Ha2].
  fold db2 in Hp2, Ha2.
  (* pickup *)
  set (p3 := set_pickup_notification_sent true
               (set_patient_status "Patient Picked Up" p2)).
  set (db3 := commit_patient p3 (send_automatic_enroute_notification p3 a2 db2)).
  assert (Hmark : mark_patient_picked_up key db2 = (true, db3)).
  { unfold mark_patient_picked_up. rewrite Hp2.
    change (assigned_ambulance p2) with (Some (ambulance_id a)).
    cbv beta iota. now rewrite Ha2. }
  assert (Hp3 : get_patient_by_id db3 key = Some p3)
    by (now apply get_commit_patient with (p := p2)).
  assert (Ha3 : query_ambulance db3 (ambulance_id a) = Some a2) by exact Ha2.
  (* completion *)
  destruct (complete_mission_rows db3 (ambulance_id a) key a2 p3 Ha3 Hp3)
    as (db4 & Hrun & Hrows).
  destruct (complete_mission_frame db3 db4 _ _ _ _ Ha3 Hp3 Hrun) as (Hcomm & _).
  assert (Hlen : List.length (communications db4)
                 = (List.length (communications db) + 5)%nat).
  { rewrite Hcomm, length_app. simpl. rewrite !length_app. simpl.
    rewrite Hlen1. lia. }
  exists p, db1, db2, db3, db4, a.
  destruct (truthy (trip_distance p3)).
  - destruct Hrows as (d & _ & Haf & Hpf).
    eexists. eexists. split; [exact Hcreate|]. split; [exact Hfind|].
    split; [exact Hr|]. split; [exact Hmark|]. split; [exact Hrun|].
    split; [exact Hpf|]. repeat (split; [reflexivity|]).
    split; [exact Haf|]. repeat (split; [reflexivity|]). exact Hlen.
  - destruct Hrows as (Haf & Hpf).
    eexists. eexists. split; [exact Hcreate|]. split; [exact Hfind|].
    split; [exact Hr|]. split; [exact Hmark|]. split; [exact Hrun|].
    split; [exact Hpf|]. repeat (split; [reflexivity|]).
    split; [exact Haf|]. repeat (split; [reflexivity|]). exact Hlen.
Qed.

End LifecycleFacts.

Lemma referral_lifecycle_witness :
  let pd :=
    sample_patient_data (Some (-0.1058)) (Some 34.7568)
      (Some (-0.0754)) (Some 34.7695) in
  let db := sample_db [] sample_fleet in
  let a0 := sample_ambulance "KBE 142H" (-0.1362) 34.7441 65.2 0.12 in
  get_patient_by_id db "PAT1A2B3C4D" = None /\
  ~ -0.1058 == 0 /\ ~ 34.7568 == 0 /\
  In a0 (ambulances db) /\
  eligible taxicab (-0.1058) 34.7568 20.0 a0 = true /\
  exists p db1 db2 db3 db4 a pf af,
    create_referral taxicab "PAT1A2B3C4D" pd "Hospital Staff" db = (Some p, db1) /\
    find_nearest_ambulance taxicab (-0.1058) 34.7568 20.0 db = Some a /\
    auto_assign_nearest_ambulance taxicab "PAT1A2B3C4D" db1 = (true, db2) /\
    mark_patient_picked_up "PAT1A2B3C4D" db2 = (true, db3) /\
    complete_mission (ambulance_id a) "PAT1A2B3C4D" db3 = Some db4 /\
    get_patient_by_id db4 "PAT1A2B3C4D" = Some pf /\
    patient_status pf = "Arrived at Destination" /\
    assigned_ambulance pf = Some (ambulance_id a) /\
    pickup_notification_sent pf = true /\
    query_ambulance db4 (ambulance_id a) = Some af /\
    status af = "Available" /\
    current_patient af = None /\
    mission_complete af = true /\
    fuel_level af = fuel_level a /\
    List.length (communications db4) = (List.length (communications db) + 5)%nat.
Proof.
  intros pd db a0.
  assert (H1 : ~ -0.1058 == 0) by (intro H; vm_compute in H; discriminate).
  assert (H2 : ~ 34.7568 == 0) by (intro H; vm_compute in H; discriminate).
  assert (Hin : In a0 (ambulances db)) by (simpl; auto).
  assert (Hel : eligible taxicab (-0.1058) 34.7568 20.0 a0 = true)
    by (vm_compute; reflexivity).
  split; [reflexivity|]. split; [exact H1|]. split; [exact H2|].
  split; [exact Hin|]. split; [exact Hel|].
  exact (referral_lifecycle taxicab "PAT1A2B3C4D" "Hospital Staff" pd db
           (-0.1058) 34.7568 a0 eq_refl eq_refl H1 eq_refl H2 Hin Hel).
Defined.

(** ** Analytics *)

Lemma fold_left_Qplus_acc (l : list Q) (acc : Q) :
  fold_left Qplus l acc == acc + fold_left Qplus l 0.
Proof.
  revert acc. induction l as [|x l IH]; intro acc; simpl.
  - lra.
  - rewrite (IH (acc + x)), (IH (0 + x)). lra.
Qed.

Lemma py_sum_cons (x : Q) (l : list Q) : py_sum (x :: l) == x + py_sum l.
Proof.
  unfold py_sum. simpl. rewrite fold_left_Qplus_acc. lra.
Qed.

Lemma py_sum_nonneg (l : list Q) :
  Forall (fun x => 0 <= x) l -> 0 <= py_sum l.
Proof.
  induction 1 as [|x l Hx _ IH]; [unfold py_sum; simpl; lra|].
  rewrite py_sum_cons. lra.
Qed.

Lemma py_sum_pos (l : list Q) :
  l <> [] -> Forall (fun x => 0 < x) l -> 0 < py_sum l.
Proof.
  intros Hne Hall. destruct Hall as [|x l Hx Hl]; [now elim Hne|].
  rewrite py_sum_cons.
  assert (0 <= py_sum l).
  { apply py_sum_nonneg. eapply Forall_impl; [|exact Hl].
    simpl. intros; lra. }
  lra.
Qed.

Lemma py_sum_const (c : Q) {A : Type} (l : list A) :
  py_sum (map (fun _ => c) l) == c * Q_of_nat (List.length l).
Proof.
  induction l as [|x l IH].
  - unfold py_sum, Q_of_nat. simpl. ring.
  - simpl map. rewrite py_sum_cons, IH. unfold Q_of_nat.
    simpl List.length. rewrite Znat.Nat2Z.inj_succ, <- Z.add_1_r, inject_Z_plus.
    change (inject_Z 1) with 1. ring.
Qed.

Lemma Q_of_nat_pos (n : nat) : (0 < n)%nat -> 0 < Q_of_nat n.
Proof.
  intro H. unfold Q_of_nat. change 0 with (inject_Z 0).
  rewrite <- Zlt_Qlt. lia.
Qed.

(** X16: when [get_kpis] answers and when it raises.  If the fleet has
    travelled a positive total distance and its consumption rates sum to
    zero, the fuel-efficiency entry divides by zero and there is no
    result.  If every ambulance has a positive rate and a nonnegative
    distance, there is one: the active referrals are at most the total,
    the available count is the length of [get_available_ambulances], the
    average response time is 0 or 15, and the fuel efficiency, when any
    distance was travelled, is 100 over the sum of the rates, whatever
    the distance. *)
Theorem get_kpis_defined (db : Database) :
  (0 < py_sum (map total_distance_traveled (ambulances db)) ->
   py_sum (map fuel_consumption_rate (ambulances db)) == 0 ->
   get_kpis db = None) /\
  (Forall (fun a => 0 < fuel_consumption_rate a /\ 0 <= total_distance_traveled a)
     (ambulances db) ->
   exists k,
     get_kpis db = Some k /\
     total_referrals k = List.length (patients db) /\
     (active_referrals k <= total_referrals k)%nat /\
     available_ambulances k = List.length (get_available_ambulances db) /\
     (avg_response_time k == 0 \/ avg_response_time k == 15) /\
     (0 < total_distance_km k ->
      fuel_efficiency k
      == 100 / py_sum (map fuel_consumption_rate (ambulances db)))).
Proof.
  split.
  - intros Hd Hr. unfold get_kpis. cbv zeta.
    apply Qltb_true in Hd. rewrite Hd. unfold py_div.
    assert (E : Qeq_bool
                  (py_sum (map fuel_consumption_rate (ambulances db))
                   * py_sum (map total_distance_traveled (ambulances db))) 0
                = true) by (apply Qeq_bool_iff; rewrite Hr; ring).
    now rewrite E.
  - intros Hall. unfold get_kpis. cbv zeta.
    set (td := py_sum (map total_distance_traveled (ambulances db))).
    set (sr := py_sum (map fuel_consumption_rate (ambulances db))).
    set (rt := map (fun _ => 15) _).
    assert (Havg : match rt with
                   | [] => 0
                   | _ :: _ => py_sum rt / Q_of_nat (List.length rt)
                   end == 0 \/
                   match rt with
                   | [] => 0
                   | _ :: _ => py_sum rt / Q_of_nat (List.length rt)
                   end == 15).
    { assert (Hrt : py_sum rt == 15 * Q_of_nat (List.length rt))
        by (subst rt; rewrite py_sum_const, length_map; reflexivity).
      destruct rt as [|y rt']; [left; reflexivity|].
      right. rewrite Hrt.
      assert (0 < Q_of_nat (List.length (y :: rt')))
        by (apply Q_of_nat_pos; simpl; lia).
      field. lra. }
    case_Qltb 0 td.
    + assert (Hne : ambulances db <> []).
      { intro E. subst td. rewrite E in Hcmp. unfold py_sum in Hcmp.
        simpl in Hcmp. lra. }
      assert (Hsr : 0 < sr).
      { subst sr. apply py_sum_pos.
        - intro E. apply map_eq_nil in E. contradiction.
        - apply Forall_map. eapply Forall_impl; [|exact Hall].
          simpl. tauto. }
      unfold py_div.
      assert (E : Qeq_bool (sr * td) 0 = false).
      { apply not_true_iff_false. rewrite Qeq_bool_iff. intro H.
        assert (0 < sr * td) by nra. lra. }
      rewrite E. eexists. split; [reflexivity|].
      cbn [total_referrals active_referrals available_ambulances
           avg_response_time total_distance_km fuel_efficiency].
      split; [reflexivity|]. split; [apply filter_length_le|].
      split; [reflexivity|]. split; [exact Havg|].
      intros _. field. split; lra.
    + eexists. split; [reflexivity|].
      cbn [total_referrals active_referrals available_ambulances
           avg_response_time total_distance_km fuel_efficiency].
      split; [reflexivity|]. split; [apply filter_length_le|].
      split; [reflexivity|]. split; [exact Havg|].
      intro. lra.
Qed.

Section TableCountFacts.
Context {Row : Type} (key : Row -> string).

Lemma commit_row_twice (r1 r2 : Row) (rows : list Row) :
  key r1 = key r2 ->
  commit_row key r2 (commit_row key r1 rows) = commit_row key r2 rows.
Proof.
  intro E. induction rows as [|x rest IH]; simpl; [reflexivity|].
  rewrite E. destruct (String.eqb (key x) (key r2)) eqn:Ex; simpl.
  - now rewrite E, String.eqb_refl.
  - now rewrite Ex, IH.
Qed.

Lemma filter_commit_row_length (f : Row -> bool) (r r' : Row) (rows : list Row) :
  first_by_key key (key r') rows = Some r ->
  (List.length (filter f (commit_row key r' rows)) + (if f r then 1 else 0)
   = List.length (filter f rows) + (if f r' then 1 else 0))%nat.
Proof.
  unfold first_by_key. induction rows as [|x rest IH]; simpl; [discriminate|].
  destruct (String.eqb (key x) (key r')) eqn:E.
  - intros H. injection H as ->. simpl.
    destruct (f r), (f r'); simpl; lia.
  - intros H. specialize (IH H). simpl. destruct (f x); simpl; lia.
Qed.

End TableCountFacts.

(** The two tables as [complete_mission] leaves them: one ambulance row
    and one patient row rewritten. *)
Lemma complete_mission_tables (db db' : Database) (aid pid : string)
    (a : Ambulance) (p : Patient) :
  query_ambulance db aid = Some a ->
  get_patient_by_id db pid = Some p ->
  complete_mission aid pid db = Some db' ->
  exists a' p',
    ambulances db' = commit_row ambulance_id a' (ambulances db) /\
    patients db' = commit_row patient_id p' (patients db) /\
    ambulance_id a' = aid /\
    patient_id p' = pid /\
    status a' = "Available" /\
    patient_status p' = "Arrived at Destination".
Proof.
  intros Hq Hp.
  pose proof (query_ambulance_id _ _ _ Hq) as Ha.
  pose proof (get_patient_id _ _ _ Hp) as Hpid.
  assert (Hq1 : query_ambulance
                  (commit_patient (set_patient_status "Arrived at Destination" p)
                     (commit_ambulance (released a) db)) aid
                = Some (released a)).
  { rewrite query_ambulance_commit_patient.
    now apply query_commit_ambulance with (a := a). }
  unfold complete_mission. rewrite Hq, Hp. fold (released a).
  change (trip_distance (set_patient_status "Arrived at Destination" p))
    with (trip_distance p).
  destruct (trip_distance p) as [d|]; [destruct (truthy (Some d))|].
  - change (ambulance_id (released a)) with (ambulance_id a). rewrite Ha.
    rewrite (update_ambulance_costs_found _ _ _ d Hq1).
    intro H. injection H as <-.
    eexists. eexists. split; [|split].
    + simpl. apply (commit_row_twice ambulance_id). reflexivity.
    + simpl. apply (commit_row_twice patient_id). reflexivity.
    + repeat split; assumption.
  - intro H. injection H as <-.
    exists (released a), (set_patient_status "Arrived at Destination" p).
    repeat split; assumption.
  - intro H. injection H as <-.
    exists (released a), (set_patient_status "Arrived at Destination" p).
    repeat split; assumption.
Qed.

(** X17: the available count follows the transitions.  Under the
    primary-key constraint a successful [auto_assign_nearest_ambulance]
    takes exactly one ambulance out of [get_available_ambulances]; and
    [complete_mission] puts exactly one back, unless the ambulance it is
    given was Available already, in which case the count stays. *)
Theorem available_count_follows_transitions :
  (forall (calculate_distance : Q -> Q -> Q -> Q -> Q) (db : Database)
          (pid : string),
      unique_ambulance_ids db ->
      let r := auto_assign_nearest_ambulance calculate_distance pid db in
      fst r = true ->
      S (List.length (get_available_ambulances (snd r)))
      = List.length (get_available_ambulances db)) /\
  (forall (db db' : Database) (aid pid : string) (a : Ambulance) (p : Patient),
      query_ambulance db aid = Some a ->
      get_patient_by_id db pid = Some p ->
      complete_mission aid pid db = Some db' ->
      List.length (get_available_ambulances db')
      = if String.eqb (status a) "Available"
        then List.length (get_available_ambulances db)
        else S (List.length (get_available_ambulances db))).
Proof.
  split.
  - intros dist db pid Hu. cbv zeta. intro Ht.
    destruct (auto_assign_nearest_ambulance_cases dist db pid)
      as [(Hf & _)|(p & lat & lng & a & _ & _ & _ & _ & _ & Hfind & Hr)];
      [rewrite Hf in Ht; discriminate|].
    cbv zeta in Hr. rewrite Hr. simpl snd.
    apply find_nearest_ambulance_sound in Hfind as (Hin & Hel & _).
    apply eligible_true in Hel as [Hst _].
    pose proof (first_by_key_unique ambulance_id a _ Hu Hin) as Hfirst.
    unfold get_available_ambulances. simpl ambulances.
    match goal with
    | |- context [commit_row ambulance_id ?a2 _] =>
        pose proof (filter_commit_row_length ambulance_id
                      (fun x => String.eqb (status x) "Available")
                      a a2 (ambulances db) Hfirst) as Hcount
    end.
    simpl in Hcount. rewrite Hst in Hcount. simpl in Hcount. lia.
  - intros db db' aid pid a p Hq Hp Hrun.
    destruct (complete_mission_tables db db' aid pid a p Hq Hp Hrun)
      as (a' & p' & Hamb & _ & Ha' & _ & Hst & _).
    unfold get_available_ambulances. rewrite Hamb.
    assert (Hfirst : first_by_key ambulance_id (ambulance_id a') (ambulances db)
                     = Some a) by (rewrite Ha'; exact Hq).
    pose proof (filter_commit_row_length ambulance_id
                  (fun x => String.eqb (status x) "Available")
                  a a' (ambulances db) Hfirst) as Hcount.
    simpl in Hcount. rewrite Hst in Hcount. simpl in Hcount.
    destruct (String.eqb (status a) "Available"); lia.
Qed.

(** X18: a delivered patient in the analytics.  [complete_mission]
    leaves the patient Arrived at Destination, which [get_kpis] does not
    count as active and [get_cost_analytics] does not count as a completed
    trip: the active count drops by one when the patient was active, and
    the cost analytics are exactly what they were unless the patient was
    already Completed. *)
Theorem complete_mission_in_analytics (db db' : Database) (aid pid : string)
    (a : Ambulance) (p : Patient) :
  query_ambulance db aid = Some a ->
  get_patient_by_id db pid = Some p ->
  complete_mission aid pid db = Some db' ->
  (List.length (filter is_active (patients db'))
   = if is_active p
     then pred (List.length (filter is_active (patients db)))
     else List.length (filter is_active (patients db))) /\
  (is_active p = true -> (0 < List.length (filter is_active (patients db)))%nat) /\
  (patient_status p <> "Completed" ->
   get_cost_analytics db' = get_cost_analytics db).
Proof.
  intros Hq Hp Hrun.
  destruct (complete_mission_tables db db' aid pid a p Hq Hp Hrun)
    as (a' & p' & Hamb & Hpat & _ & Hp' & _ & Hst).
  assert (Hfirst : first_by_key patient_id (patient_id p') (patients db) = Some p)
    by (rewrite Hp'; exact Hp).
  assert (Hinactive : is_active p' = false)
    by (unfold is_active; now rewrite Hst).
  pose proof (filter_commit_row_length patient_id is_active p p' (patients db)
                Hfirst) as Hcount.
  rewrite Hinactive in Hcount. rewrite Hpat.
  split; [destruct (is_active p); lia|]. split.
  - intro Hact. rewrite Hact in Hcount. lia.
  - intro Hnc. unfold get_cost_analytics. cbv zeta.
    rewrite Hamb, Hpat, commit_row_length.
    rewrite (filter_commit_row_out patient_id
               (fun q => String.eqb (patient_status q) "Completed") p p').
    + reflexivity.
    + exact Hfirst.
    + now apply String.eqb_neq.
    + now rewrite Hst.
Qed.

Lemma complete_mission_in_analytics_witness :
  let a := set_status "On Transfer"
             (sample_ambulance "KBA 453D" (-0.0754) 34.7695 85.5 0.12) in
  let p := set_patient_status "Patient Picked Up"
             (sample_patient "PAT1A2B3C4D" (Some 3.6)) in
  let q := set_patient_status "Completed" (sample_patient "PAT5E6F7A8B" (Some 12)) in
  let db := sample_db [q; p] [a] in
  exists db',
    query_ambulance db "KBA 453D" = Some a /\
    get_patient_by_id db "PAT1A2B3C4D" = Some p /\
    complete_mission "KBA 453D" "PAT1A2B3C4D" db = Some db' /\
    (List.length (filter is_active (patients db'))
     = if is_active p
       then pred (List.length (filter is_active (patients db)))
       else List.length (filter is_active (patients db))) /\
    (is_active p = true -> (0 < List.length (filter is_active (patients db)))%nat) /\
    (patient_status p <> "Completed" ->
     get_cost_analytics db' = get_cost_analytics db).
Proof.
  intros a p q db.
  destruct (complete_mission_rows db "KBA 453D" "PAT1A2B3C4D" a p eq_refl eq_refl)
    as (db' & Hrun & _).
  exists db'. split; [reflexivity|]. split; [reflexivity|]. split; [exact Hrun|].
  exact (complete_mission_in_analytics db db' "KBA 453D" "PAT1A2B3C4D" a p
           eq_refl eq_refl Hrun).
Defined.

(** ** Cost model, signs and order *)

(** X19: signs and order in the cost model.  For a nonnegative rate the
    total cost grows with the distance, and for a nonnegative distance no
    component is negative and the fuel cost is at most the total.  The
    potential savings are positive exactly when the alternative distance
    is the longer one, and then they are the difference of the distances
    times the per-kilometre cost at the fleet-average rate
    (0.12 * 180 + 50). *)
Theorem cost_model_order :
  (forall d1 d2 r,
      0 <= r -> d1 <= d2 ->
      total_cost_ksh (calculate_trip_cost d1 (Some r))
      <= total_cost_ksh (calculate_trip_cost d2 (Some r))) /\
  (forall d r,
      0 <= r -> 0 <= d ->
      let tc := calculate_trip_cost d (Some r) in
      0 <= fuel_used_liters tc /\ 0 <= fuel_cost_ksh tc /\
      0 <= operating_cost_ksh tc /\ fuel_cost_ksh tc <= total_cost_ksh tc) /\
  (forall a b,
      (0 < calculate_potential_savings a b <-> a < b) /\
      (b <= a -> calculate_potential_savings a b = 0) /\
      (a <= b ->
       calculate_potential_savings a b == (b - a) * (0.12 * 180 + 50))).
Proof.
  unfold calculate_trip_cost, Config.FUEL_PRICE_PER_LITER,
    Config.BASE_OPERATING_COST_PER_KM. simpl.
  split; [|split].
  - intros d1 d2 r Hr Hd.
    assert (d1 * r <= d2 * r) by nra. lra.
  - intros d r Hr Hd. assert (0 <= d * r) by nra. repeat split; lra.
  - intros a b. unfold calculate_potential_savings, calculate_trip_cost,
      Config.FUEL_PRICE_PER_LITER, Config.BASE_OPERATING_COST_PER_KM,
      Config.AVERAGE_FUEL_CONSUMPTION, py_max. simpl.
    match goal with |- context [Qltb 0 ?s] => case_Qltb 0 s end.
    + repeat split; intros; lra.
    + repeat split; intros; try lra; try reflexivity.
Qed.

(** ** Nearest ambulance, the fuel threshold *)

(** X20: lowering the fuel threshold never loses a result.  If the search
    finds an ambulance at a threshold, then at any lower threshold it
    finds one too, at a distance that is no larger. *)
Theorem find_nearest_ambulance_threshold
    (calculate_distance : Q -> Q -> Q -> Q -> Q) (lat lng low high : Q)
    (db : Database) (a : Ambulance) :
  low <= high ->
  find_nearest_ambulance calculate_distance lat lng high db = Some a ->
  exists b d d',
    find_nearest_ambulance calculate_distance lat lng low db = Some b /\
    distance_to calculate_distance lat lng b = Some d /\
    distance_to calculate_distance lat lng a = Some d' /\
    d <= d' /\
    low <= fuel_level b.
Proof.
  intros Hle Hhigh.
  apply find_nearest_ambulance_sound in Hhigh as (Hin & Hel & _).
  assert (Hel' : eligible calculate_distance lat lng low a = true).
  { apply eligible_true in Hel as [Hst [d Hd]].
    apply candidate_some in Hd as [Hfuel Hd].
    apply eligible_true. split; [exact Hst|]. exists d.
    apply candidate_some. split; [lra|exact Hd]. }
  destruct (find_nearest_ambulance calculate_distance lat lng low db)
    as [b|] eqn:Hlow.
  - pose proof (find_nearest_ambulance_sound _ _ _ _ _ _ Hlow) as (_ & Hbel & Hmin).
    destruct (Hmin a Hin Hel') as (d & d' & Hd & Hd' & Hdd).
    apply eligible_true in Hbel as [_ [x Hx]].
    apply candidate_some in Hx as [Hfuel _].
    exists b, d, d'. repeat split; assumption.
  - rewrite find_nearest_ambulance_none in Hlow.
    rewrite (Hlow a Hin) in Hel'. discriminate.
Qed.

Lemma find_nearest_ambulance_threshold_witness :
  let db := sample_db [] sample_fleet in
  let a := sample_ambulance "KBD 389G" (-0.0754) 34.7695 78.9 0.12 in
  10 <= 20.0 /\
  find_nearest_ambulance taxicab (-0.1058) 34.7568 20.0 db = Some a /\
  exists b d d',
    find_nearest_ambulance taxicab (-0.1058) 34.7568 10 db = Some b /\
    distance_to taxicab (-0.1058) 34.7568 b = Some d /\
    distance_to taxicab (-0.1058) 34.7568 a = Some d' /\
    d <= d' /\
    10 <= fuel_level b.
Proof.
  intros db a.
  assert (Hle : 10 <= 20.0) by (vm_compute; discriminate).
  assert (Hfind : find_nearest_ambulance taxicab (-0.1058) 34.7568 20.0 db = Some a)
    by (vm_compute; reflexivity).
  split; [exact Hle|]. split; [exact Hfind|].
  exact (find_nearest_ambulance_threshold taxicab (-0.1058) 34.7568 10 20.0 db a
           Hle Hfind).
Defined.

(** ** Fuel status *)

(** X21: the fuel panel against the dispatch threshold.  Under the
    primary-key constraint, the ambulance the search returns at the
    default threshold 20 is known to [get_ambulance_with_fuel_info], and
    the panel calls it Critical only when its fuel level is exactly 20:
    every other dispatched ambulance has more than 20. *)
Theorem dispatched_ambulance_fuel_status
    (calculate_distance : Q -> Q -> Q -> Q -> Q) (lat lng : Q)
    (db : Database) (a : Ambulance) :
  unique_ambulance_ids db ->
  find_nearest_ambulance calculate_distance lat lng 20.0 db = Some a ->
  exists info,
    get_ambulance_with_fuel_info db (ambulance_id a) = Some info /\
    info_ambulance info = a /\
    info_fuel_level info = fuel_level a /\
    (fuel_status info = "🔴 Critical" -> fuel_level a == 20) /\
    (fuel_status info <> "🔴 Critical" -> 20 < fuel_level a).
Proof.
  intros Hu Hfind.
  apply find_nearest_ambulance_sound in Hfind as (Hin & Hel & _).
  apply eligible_true in Hel as [_ [d Hd]].
  apply candidate_some in Hd as [Hfuel _].
  pose proof (first_by_key_unique ambulance_id a _ Hu Hin) as Hq.
  unfold get_ambulance_with_fuel_info, query_ambulance. rewrite Hq.
  eexists. split; [reflexivity|]. simpl.
  split; [reflexivity|]. split; [reflexivity|].
  case_Qltb 50 (fuel_level a).
  - split; [discriminate|]. intros _. lra.
  - case_Qltb 20 (fuel_level a).
    + split; [discriminate|]. intros _. lra.
    + split; [intros _; lra|]. intro H. now elim H.
Qed.

Lemma dispatched_ambulance_fuel_status_witness :
  let a := sample_ambulance "KBD 389G" (-0.0754) 34.7695 20 0.12 in
  let db := sample_db [] [a] in
  unique_ambulance_ids db /\
  find_nearest_ambulance taxicab (-0.1058) 34.7568 20.0 db = Some a /\
  exists info,
    get_ambulance_with_fuel_info db (ambulance_id a) = Some info /\
    info_ambulance info = a /\
    info_fuel_level info = fuel_level a /\
    (fuel_status info = "🔴 Critical" -> fuel_level a == 20) /\
    (fuel_status info <> "🔴 Critical" -> 20 < fuel_level a).
Proof.
  intros a db.
  assert (Hu : unique_ambulance_ids db) by solve_unique_keys.
  assert (Hfind : find_nearest_ambulance taxicab (-0.1058) 34.7568 20.0 db = Some a)
    by (vm_compute; reflexivity).
  split; [exact Hu|]. split; [exact Hfind|].
  exact (dispatched_ambulance_fuel_status taxicab (-0.1058) 34.7568 db a Hu Hfind).
Defined.

(** ** Location updates *)

Lemma find_rev_snoc {A : Type} (f : A -> bool) (l : list A) (x : A) :
  f x = true -> find f (rev (l ++ [x])) = Some x.
Proof.
  intro H. rewrite rev_app_distr. simpl. now rewrite H.
Qed.

(** X22: [update_ambulance_location] and [get_latest_location].  For an
    unknown ambulance the call answers [False] and writes nothing, not
    even a log row.  For a known one it answers [True] and stores the two
    coordinates and the location name on the row; every other column of
    the row model, the other ambulances and the patients are as before,
    whether or not the patient identifier it is given exists (the row is
    also stamped with the time, and timestamps are outside the row
    model); it appends one row to the log, and [get_latest_location] then
    returns that row. *)
Theorem update_ambulance_location_effect (s : Store) (aid : string) (lat lng : Q)
    (name : string) (pid : option string) :
  let r := update_ambulance_location aid lat lng name pid s in
  (query_ambulance (session s) aid = None -> r = (false, s)) /\
  (forall a,
      query_ambulance (session s) aid = Some a ->
      let row := {| lu_ambulance_id := aid;
                    lu_latitude := lat;
                    lu_longitude := lng;
                    location_name := name;
                    lu_patient_id := pid |} in
      fst r = true /\
      query_ambulance (session (snd r)) aid
      = Some (set_current_location (Some name)
                (set_longitude (Some lng) (set_latitude (Some lat) a))) /\
      (forall k, k <> aid ->
                 query_ambulance (session (snd r)) k = query_ambulance (session s) k) /\
      patients (session (snd r)) = patients (session s) /\
      location_updates (snd r) = (location_updates s ++ [row])%list /\
      get_latest_location (snd r) aid = Some row).
Proof.
  cbv zeta. split.
  - intro Hq. unfold update_ambulance_location. now rewrite Hq.
  - intros a Hq. pose proof (query_ambulance_id _ _ _ Hq) as Hid.
    unfold update_ambulance_location. rewrite Hq. simpl.
    split; [reflexivity|]. split.
    { now apply query_commit_ambulance with (a := a). }
    split.
    { intros k Hk. apply query_commit_ambulance_other. simpl. congruence. }
    split; [reflexivity|]. split; [reflexivity|].
    unfold get_latest_location. simpl. apply find_rev_snoc.
    simpl. apply String.eqb_refl.
Qed.

(** ** Simulated movement *)

Lemma same_ledger_refl (a : Ambulance) : same_ledger a a.
Proof. repeat split. Qed.

Lemma same_ledger_trans (a b c : Ambulance) :
  same_ledger a b -> same_ledger b c -> same_ledger a c.
Proof.
  unfold same_ledger. intros H1 H2.
  repeat match goal with H : _ /\ _ |- _ => destruct H end.
  repeat split; congruence.
Qed.

Lemma Forall2_same_ledger_refl (rows : list Ambulance) :
  Forall2 same_ledger rows rows.
Proof.
  induction rows; constructor; [apply same_ledger_refl|assumption].
Qed.

Lemma Forall2_same_ledger_commit (rows0 rows1 : list Ambulance) (a1 a1' : Ambulance) :
  Forall2 same_ledger rows0 rows1 ->
  first_by_key ambulance_id (ambulance_id a1') rows1 = Some a1 ->
  same_ledger a1 a1' ->
  Forall2 same_ledger rows0 (commit_row ambulance_id a1' rows1).
Proof.
  intros Hall. unfold first_by_key.
  induction Hall as [|x y l0 l1 Hxy Hrest IH]; simpl; [constructor|].
  destruct (String.eqb (ambulance_id y) (ambulance_id a1')) eqn:E.
  - intros H Hs. injection H as ->. constructor; [|exact Hrest].
    now apply same_ledger_trans with (b := a1).
  - intros H Hs. constructor; auto.
Qed.

Lemma simulation_frame_refl (aid : string) (s : Store) : simulation_frame aid s s.
Proof.
  repeat split. apply Forall2_same_ledger_refl.
Qed.

Lemma simulation_frame_commit (aid : string) (s s1 : Store) (a1 a1' : Ambulance)
    (log : list LocationUpdate) :
  simulation_frame aid s s1 ->
  query_ambulance (session s1) aid = Some a1 ->
  same_ledger a1 a1' ->
  simulation_frame aid s (mkStore (commit_ambulance a1' (session s1)) log).
Proof.
  intros (Hp & Hr & Hc & Hall & Hk) Hq Hs.
  pose proof (query_ambulance_id _ _ _ Hq) as Hid.
  assert (Hid' : ambulance_id a1' = aid) by (destruct Hs as [E _]; congruence).
  repeat split; simpl; auto.
  - apply Forall2_same_ledger_commit with (a1 := a1); auto.
    rewrite Hid'. exact Hq.
  - intros k Hne. rewrite query_commit_ambulance_other by congruence. auto.
Qed.

Section SimulationFacts.
Variable calculate_distance : Q -> Q -> Q -> Q -> Q.
Variable running : nat -> bool.
Variables (aid pid : string) (start_lat start_lng end_lat end_lng : Q).

Local Abbreviation initial_distance :=
  (calculate_distance start_lat start_lng end_lat end_lng).
Local Abbreviation lat_step := ((end_lat - start_lat) / Q_of_nat 20).
Local Abbreviation lng_step := ((end_lng - start_lng) / Q_of_nat 20).
Local Abbreviation body :=
  (simulation_body aid pid start_lat start_lng 20 initial_distance lat_step lng_step).
Local Abbreviation turn :=
  (simulation_turn running aid pid start_lat start_lng 20 initial_distance
     lat_step lng_step).

Lemma simulation_fold_invariant (P : Store -> Prop) (l : list nat)
    (st : bool * nat * Store) :
  P (snd st) ->
  (forall step s, P s -> P (body step s)) ->
  P (snd (fold_left turn l st)).
Proof.
  intros H0 Hbody. revert st H0.
  induction l as [|step l IH]; intros st H0; simpl; [exact H0|].
  apply IH. destruct st as [[broken reads] s]. unfold simulation_turn.
  destruct broken; [exact H0|].
  destruct (negb (running reads)); simpl; [exact H0|].
  apply Hbody. exact H0.
Qed.

Lemma simulation_body_frame (s : Store) (step : nat) (s1 : Store) :
  simulation_frame aid s s1 -> simulation_frame aid s (body step s1).
Proof.
  intro H1. unfold simulation_body, update_ambulance_location.
  set (s2 := snd match query_ambulance (session s1) aid with
                 | Some _ => _
                 | None => _
                 end).
  assert (H2 : simulation_frame aid s s2).
  { subst s2. destruct (query_ambulance (session s1) aid) as [a1|] eqn:Hq;
      [|exact H1].
    simpl snd. unfold add_location_update, with_session. simpl.
    apply simulation_frame_commit with (a1 := a1); auto.
    repeat split. }
  clearbody s2.
  destruct (0 <? step)%nat; [|exact H2].
  unfold update_ambulance_fuel, with_session.
  destruct (query_ambulance (session s2) aid) as [a2|] eqn:Hq.
  - simpl snd. apply simulation_frame_commit with (a1 := a2); auto.
    repeat split.
  - simpl snd. destruct H2 as (? & ? & ? & ? & ?). repeat split; auto.
Qed.

(** X23: what a simulation never does.  Whatever the stop flag does and
    whether or not the ambulance exists, [start_simulation] leaves the
    patients, the referrals and the messages as they were, leaves every
    other ambulance as it was, and on the ambulance rows changes at most
    position, fuel level, status and current patient: the distance, fuel
    cost and savings totals are not charged and no patient is marked as
    arrived, although a run that ends with the flag still raised sets the
    ambulance Available. *)
Theorem start_simulation_never_charges (s : Store) :
  let s' :=
    start_simulation calculate_distance running aid pid
      start_lat start_lng end_lat end_lng s in
  patients (session s') = patients (session s) /\
  referrals (session s') = referrals (session s) /\
  communications (session s') = communications (session s) /\
  Forall2 same_ledger (ambulances (session s)) (ambulances (session s')) /\
  (forall k, k <> aid ->
             query_ambulance (session s') k = query_ambulance (session s) k).
Proof.
  cbv zeta. change (simulation_frame aid s
    (start_simulation calculate_distance running aid pid
       start_lat start_lng end_lat end_lng s)).
  unfold start_simulation.
  pose proof (simulation_fold_invariant (simulation_frame aid s)
                (seq 0 (20 + 1)) (false, 0%nat, s)
                (simulation_frame_refl aid s)
                (simulation_body_frame s)) as Hloop.
  destruct (fold_left turn (seq 0 (20 + 1)) (false, 0%nat, s))
    as [[broken reads] s1].
  simpl snd in Hloop.
  destruct (running reads); [|exact Hloop].
  destruct (query_ambulance (session s1) aid) as [a1|] eqn:Hq; [|exact Hloop].
  unfold with_session.
  apply simulation_frame_commit with (a1 := a1); auto.
  repeat split.
Qed.

Lemma with_session_same (s : Store) : with_session (session s) s = s.
Proof. now destruct s. Qed.

(** X24: simulations that change nothing.  When the ambulance is not
    stored, [start_simulation] leaves the store, log included, exactly as
    it was, whatever the stop flag does; and so does a simulation of a
    stored ambulance whose flag is down at the first read and at the
    final one. *)
Theorem start_simulation_idle (s : Store) :
  (query_ambulance (session s) aid = None ->
   start_simulation calculate_distance running aid pid
     start_lat start_lng end_lat end_lng s = s) /\
  (running 0%nat = false -> running 1%nat = false ->
   start_simulation calculate_distance running aid pid
     start_lat start_lng end_lat end_lng s = s).
Proof.
  split.
  - intro Hq. unfold start_simulation.
    pose proof (simulation_fold_invariant (fun s1 => s1 = s)
                  (seq 0 (20 + 1)) (false, 0%nat, s) eq_refl) as Hloop.
    destruct (fold_left turn (seq 0 (20 + 1)) (false, 0%nat, s))
      as [[broken reads] s1].
    simpl snd in Hloop. rewrite Hloop.
    + rewrite Hq. now destruct (running reads).
    + intros step s2 ->. unfold simulation_body, update_ambulance_location.
      rewrite Hq. simpl snd.
      destruct (0 <? step)%nat; [|reflexivity].
      unfold update_ambulance_fuel. rewrite Hq. simpl snd.
      apply with_session_same.
  - intros H0 H1. unfold start_simulation.
    assert (Hloop : forall l,
              fold_left turn l (true, 1%nat, s) = (true, 1%nat, s)).
    { induction l as [|x l IH]; simpl; auto. }
    assert (Hfirst : turn (false, 0%nat, s) 0%nat = (true, 1%nat, s))
      by (unfold simulation_turn; now rewrite H0).
    change (seq 0 (20 + 1)) with (0%nat :: seq 1 20).
    change (fold_left turn (0%nat :: seq 1 20) (false, 0%nat, s))
      with (fold_left turn (seq 1 20) (turn (false, 0%nat, s) 0%nat)).
    rewrite Hfirst, Hloop. now rewrite H1.
Qed.

End SimulationFacts.

(** The last of the 21 positions is the destination. *)
Lemma simulation_last_step (x y : Q) :
  x + (y - x) / Q_of_nat 20 * Q_of_nat 20 == y.
Proof.
  change (Q_of_nat 20) with (20 # 1). field.
Qed.

Section SimulationRun.
Variable calculate_distance : Q -> Q -> Q -> Q -> Q.
Variable running : nat -> bool.
Variables (aid pid : string) (start_lat start_lng end_lat end_lng : Q).

Local Abbreviation initial_distance :=
  (calculate_distance start_lat start_lng end_lat end_lng).
Local Abbreviation lat_step := ((end_lat - start_lat) / Q_of_nat 20).
Local Abbreviation lng_step := ((end_lng - start_lng) / Q_of_nat 20).
Local Abbreviation body :=
  (simulation_body aid pid start_lat start_lng 20 initial_distance lat_step lng_step).
Local Abbreviation turn :=
  (simulation_turn running aid pid start_lat start_lng 20 initial_distance
     lat_step lng_step).
Local Abbreviation logged step :=
  {| lu_ambulance_id := aid;
     lu_latitude := start_lat + lat_step * Q_of_nat step;
     lu_longitude := start_lng + lng_step * Q_of_nat step;
     location_name :=
       "En route - Step " ++ string_of_nat step ++ "/" ++ string_of_nat 20;
     lu_patient_id := Some pid |}.

Local Abbreviation simulation_progress :=
  (simulation_progress aid pid start_lat start_lng end_lat end_lng).

(** While the flag stays raised the loop runs its body at every step. *)
Lemma simulation_fold_running (n m : nat) (s1 : Store) :
  (forall k, (m <= k < m + n)%nat -> running k = true) ->
  fold_left turn (seq m n) (false, m, s1)
  = (false, (m + n)%nat, fold_left (fun s step => body step s) (seq m n) s1).
Proof.
  revert m s1. induction n as [|n IH]; intros m s1 Hrun.
  - simpl. now rewrite Nat.add_0_r.
  - assert (Hturn : turn (false, m, s1) m = (false, S m, body m s1))
      by (unfold simulation_turn; now rewrite (Hrun m) by lia).
    change (seq m (S n)) with (m :: seq (S m) n).
    change (fold_left turn (m :: seq (S m) n) (false, m, s1))
      with (fold_left turn (seq (S m) n) (turn (false, m, s1) m)).
    rewrite Hturn, IH by (intros k Hk; apply Hrun; lia).
    replace (S m + n)%nat with (m + S n)%nat by lia. reflexivity.
Qed.

Lemma simulation_progress_step (s : Store) (a : Ambulance) (n : nat) (s1 : Store) :
  0 <= fuel_consumption_rate a ->
  0 <= initial_distance ->
  simulation_progress s a n s1 ->
  simulation_progress s a (S n) (body n s1).
Proof.
  intros Hr Hd (a1 & Hq & Hs & Hst & Hcp & Hf & Hlen & _).
  pose proof (query_ambulance_id _ _ _ Hq) as Hid.
  assert (Hrate : fuel_consumption_rate a1 = fuel_consumption_rate a)
    by (destruct Hs as (_ & _ & _ & _ & E & _); congruence).
  pose (a2 := set_current_location
                (Some ("En route - Step " ++ string_of_nat n ++ "/"
                       ++ string_of_nat 20))
                (set_longitude (Some (start_lng + lng_step * Q_of_nat n))
                   (set_latitude (Some (start_lat + lat_step * Q_of_nat n)) a1))).
  pose (s2 := add_location_update (logged n)
                (with_session (commit_ambulance a2 (session s1)) s1)).
  assert (Hbody :
    body n s1
    = if (0 <? n)%nat
      then with_session
             (snd (update_ambulance_fuel aid
                     (Some (initial_distance / Q_of_nat 20)) None (session s2))) s2
      else s2)
    by (unfold simulation_body, update_ambulance_location; now rewrite Hq).
  rewrite Hbody. clear Hbody.
  assert (Hq2 : query_ambulance (session s2) aid = Some a2)
    by (now apply query_commit_ambulance with (a := a1)).
  assert (Hlatest : get_latest_location s2 aid = Some (logged n)).
  { unfold get_latest_location. subst s2. simpl. apply find_rev_snoc.
    simpl. apply String.eqb_refl. }
  assert (Hlen2 : List.length (location_updates s2)
                  = (List.length (location_updates s) + S n)%nat).
  { subst s2. simpl. rewrite length_app. simpl. lia. }
  unfold simulation_progress. replace (S n - 1)%nat with n by lia.
  destruct (0 <? n)%nat.
  - unfold update_ambulance_fuel. rewrite Hq2. simpl snd.
    eexists. split.
    { unfold with_session. simpl session.
      now apply query_commit_ambulance with (a := a2). }
    simpl. split.
    { destruct Hs as (? & ? & ? & ? & ? & ? & ? & ?). repeat split; assumption. }
    split; [exact Hst|]. split; [exact Hcp|]. split.
    { rewrite Hrate.
      assert (0 <= initial_distance / Q_of_nat 20).
      { apply Qle_shift_div_l; [apply Q_of_nat_pos; lia|lra]. }
      split; [apply py_max_lower|]. apply py_max_upper; [lra|]. nra. }
    split; [exact Hlen2|]. intros _.
    repeat split. exact Hlatest.
  - exists a2. split; [exact Hq2|]. split.
    { destruct Hs as (? & ? & ? & ? & ? & ? & ? & ?). repeat split; assumption. }
    split; [exact Hst|]. split; [exact Hcp|]. split; [exact Hf|].
    split; [exact Hlen2|]. intros _. repeat split. exact Hlatest.
Qed.

Lemma simulation_progress_loop (s : Store) (a : Ambulance) (n : nat) :
  0 <= fuel_level a ->
  0 <= fuel_consumption_rate a ->
  0 <= initial_distance ->
  query_ambulance (session s) aid = Some a ->
  simulation_progress s a n (fold_left (fun s step => body step s) (seq 0 n) s).
Proof.
  intros Hf Hr Hd Hq. induction n as [|n IH].
  - exists a. split; [exact Hq|]. split; [apply same_ledger_refl|].
    repeat split; try lra; simpl; try lia; intro H; lia.
  - rewrite seq_S, fold_left_app. simpl.
    now apply simulation_progress_step.
Qed.

Lemma start_simulation_running (s : Store) :
  (forall k, (k <= 21)%nat -> running k = true) ->
  start_simulation calculate_distance running aid pid
    start_lat start_lng end_lat end_lng s
  = let sN := fold_left (fun s step => body step s) (seq 0 (20 + 1)) s in
    match query_ambulance (session sN) aid with
    | Some ambulance =>
        with_session
          (commit_ambulance
             (set_current_patient None (set_status "Available" ambulance))
             (session sN)) sN
    | None => sN
    end.
Proof.
  intros Hrun. unfold start_simulation.
  rewrite (simulation_fold_running (20 + 1) 0 s)
    by (intros k Hk; apply Hrun; simpl in Hk; lia).
  rewrite (Hrun (0 + (20 + 1))%nat) by (simpl; lia).
  reflexivity.
Qed.

(** What the epilogue of the run makes of a store reached after all 21
    steps. *)
Lemma simulation_finish (s sN : Store) (a : Ambulance) :
  simulation_progress s a 21 sN ->
  let s' :=
    match query_ambulance (session sN) aid with
    | Some ambulance =>
        with_session
          (commit_ambulance
             (set_current_patient None (set_status "Available" ambulance))
             (session sN)) sN
    | None => sN
    end in
  exists a' la lo row,
    query_ambulance (session s') aid = Some a' /\
    status a' = "Available" /\
    current_patient a' = None /\
    same_ledger a a' /\
    0 <= fuel_level a' <= fuel_level a /\
    latitude a' = Some la /\ la == end_lat /\
    longitude a' = Some lo /\ lo == end_lng /\
    List.length (location_updates s')
    = (List.length (location_updates s) + 21)%nat /\
    get_latest_location s' aid = Some row /\
    location_name row = "En route - Step 20/20" /\
    lu_latitude row == end_lat /\
    lu_longitude row == end_lng /\
    lu_patient_id row = Some pid.
Proof.
  intros (a1 & Hq1 & Hs & Hst & Hcp & Hfuel & Hlen & Hpos).
  destruct (Hpos ltac:(lia)) as (Hlat & Hlng & Hlatest). clear Hpos.
  cbv zeta. rewrite Hq1.
  pose proof (query_ambulance_id _ _ _ Hq1) as Hid.
  exists (set_current_patient None (set_status "Available" a1)).
  eexists. eexists. eexists. split.
  { unfold with_session. cbn [session].
    now apply query_commit_ambulance with (a := a1). }
  split; [reflexivity|]. split; [reflexivity|]. split.
  { destruct Hs as (? & ? & ? & ? & ? & ? & ? & ?). repeat split; assumption. }
  split; [exact Hfuel|].
  split; [exact Hlat|]. split; [apply simulation_last_step|].
  split; [exact Hlng|]. split; [apply simulation_last_step|].
  split; [exact Hlen|]. split; [exact Hlatest|].
  split; [reflexivity|].
  split; [apply simulation_last_step|].
  split; [apply simulation_last_step|reflexivity].
Qed.

(** X25: a simulation that is never stopped.  For a stored ambulance with
    a nonnegative fuel level and consumption rate and a nonnegative trip
    distance, if the flag is raised at all 22 reads, the run logs 21
    positions, the last one named step 20/20; the ambulance ends at the
    destination (in exact arithmetic), Available and without current
    patient; its fuel level has not risen and is not negative; and the
    rest of the row is as it was. *)
Theorem start_simulation_uninterrupted (s : Store) (a : Ambulance) :
  (forall k, (k <= 21)%nat -> running k = true) ->
  query_ambulance (session s) aid = Some a ->
  0 <= fuel_level a ->
  0 <= fuel_consumption_rate a ->
  0 <= initial_distance ->
  let s' :=
    start_simulation calculate_distance running aid pid
      start_lat start_lng end_lat end_lng s in
  exists a' la lo row,
    query_ambulance (session s') aid = Some a' /\
    status a' = "Available" /\
    current_patient a' = None /\
    same_ledger a a' /\
    0 <= fuel_level a' <= fuel_level a /\
    latitude a' = Some la /\ la == end_lat /\
    longitude a' = Some lo /\ lo == end_lng /\
    List.length (location_updates s')
    = (List.length (location_updates s) + 21)%nat /\
    get_latest_location s' aid = Some row /\
    location_name row = "En route - Step 20/20" /\
    lu_latitude row == end_lat /\
    lu_longitude row == end_lng /\
    lu_patient_id row = Some pid.
Proof.
  intros Hrun Hq Hf Hr Hd. cbv zeta.
  rewrite (start_simulation_running s Hrun).
  exact (simulation_finish s _ a (simulation_progress_loop s a 21 Hf Hr Hd Hq)).
Qed.

End SimulationRun.

Lemma start_simulation_uninterrupted_witness :
  let a :=
    set_current_patient (Some "PAT1A2B3C4D")
      (set_status "On Transfer"
         (sample_ambulance "KBA 453D" (-0.1058) 34.7568 85.5 0.12)) in
  let s := mkStore (sample_db [sample_patient "PAT1A2B3C4D" (Some 3.6)] [a]) [] in
  let s' :=
    start_simulation taxicab (fun _ => true) "KBA 453D" "PAT1A2B3C4D"
      (-0.1058) 34.7568 (-0.0754) 34.7695 s in
  query_ambulance (session s) "KBA 453D" = Some a /\
  0 <= fuel_level a /\
  0 <= fuel_consumption_rate a /\
  0 <= taxicab (-0.1058) 34.7568 (-0.0754) 34.7695 /\
  exists a' la lo row,
    query_ambulance (session s') "KBA 453D" = Some a' /\
    status a' = "Available" /\
    current_patient a' = None /\
    same_ledger a a' /\
    0 <= fuel_level a' <= fuel_level a /\
    latitude a' = Some la /\ la == -0.0754 /\
    longitude a' = Some lo /\ lo == 34.7695 /\
    List.length (location_updates s')
    = (List.length (location_updates s) + 21)%nat /\
    get_latest_location s' "KBA 453D" = Some row /\
    location_name row = "En route - Step 20/20" /\
    lu_latitude row == -0.0754 /\
    lu_longitude row == 34.7695 /\
    lu_patient_id row = Some "PAT1A2B3C4D".
Proof.
  intros a s s'.
  assert (Hf : 0 <= fuel_level a) by (vm_compute; discriminate).
  assert (Hr : 0 <= fuel_consumption_rate a) by (vm_compute; discriminate).
  assert (Hd : 0 <= taxicab (-0.1058) 34.7568 (-0.0754) 34.7695)
    by (vm_compute; discriminate).
  split; [reflexivity|]. split; [exact Hf|]. split; [exact Hr|].
  split; [exact Hd|].
  exact (start_simulation_uninterrupted taxicab (fun _ => true)
           "KBA 453D" "PAT1A2B3C4D" (-0.1058) 34.7568 (-0.0754) 34.7695 s a
           (fun _ _ => eq_refl) eq_refl Hf Hr Hd).
Defined.

(** ** Message lists *)


